(** * Dataset format detector and unified processor: a shallow embedding

    The development follows [data_format_detector.py] and
    [unified_data_processor.py].  Python values are the values [json.load]
    returns, the file system is a tree of named entries kept in listing order,
    exceptions are explicit results, and floating-point numbers are IEEE
    binary64 ([PrimFloat]), the arithmetic CPython uses.

    Modelling conventions (POSIX, CPython 3.8 to 3.11 [pathlib]):
    - a path is the list of its components below the working directory; no
      symbolic links, no permissions, no concurrent writers;
    - a component is the name of an entry.  The kernel does more with a path
      than the tree does: it resolves a ".." component, it refuses a name of
      more than 255 bytes (ENAMETOOLONG, which [Path.exists] re-raises) and
      a path of 4096 bytes or more.  The tree and the kernel agree on the
      paths [Path.plain] describes; where a theorem about the programs
      rests on how a path that need not exist is resolved (an operation
      succeeds, a place is left untouched), it takes this as a hypothesis;
    - strings are byte strings; text is ASCII;
    - what the Python libraries compute and the repository does not define
      ([json.load], [json.dump], [str(e)], [float(s)], [repr] of a float, the
      iteration order of a [set], [sorted], the clock, I/O faults of a
      directory scan) is a field of the record [Lib]; every general theorem
      holds for all values of these fields, and [Ref.lib] gives reference
      implementations for the worked examples. *)

From Stdlib Require Import ZArith List String Ascii Bool Lia Floats Permutation.
Import ListNotations.

Set Warnings "-inexact-float,-register-all".

Local Open Scope string_scope.
Local Open Scope list_scope.

(** ** Strings *)

Module Str.

Fixpoint ends_with_rev (rs rsuf : list ascii) : bool :=
  match rsuf, rs with
  | [], _ => true
  | c :: rsuf', d :: rs' => Ascii.eqb c d && ends_with_rev rs' rsuf'
  | _ :: _, [] => false
  end.

(** [s.endswith(suf)] *)
Definition ends_with (s suf : string) : bool :=
  ends_with_rev (rev (list_ascii_of_string s)) (rev (list_ascii_of_string suf)).

Definition lower_ascii (c : ascii) : ascii :=
  let n := nat_of_ascii c in
  if (65 <=? n)%nat && (n <=? 90)%nat then ascii_of_nat (n + 32) else c.

(** [s.lower()] on ASCII text. *)
Fixpoint lower (s : string) : string :=
  match s with
  | EmptyString => EmptyString
  | String c s' => String (lower_ascii c) (lower s')
  end.

(** Index of the last occurrence of [c] in [s] ([s.rfind(c)]), if any. *)
Fixpoint rfind_from (c : ascii) (s : string) (i : nat) : option nat :=
  match s with
  | EmptyString => None
  | String d s' =>
      match rfind_from c s' (S i) with
      | Some j => Some j
      | None => if Ascii.eqb c d then Some i else None
      end
  end.

Definition rfind (c : ascii) (s : string) : option nat := rfind_from c s 0.

Fixpoint mem (s : string) (l : list string) : bool :=
  match l with
  | [] => false
  | t :: l' => String.eqb s t || mem s l'
  end.

Fixpoint contains_ascii (c : ascii) (s : string) : bool :=
  match s with
  | EmptyString => false
  | String d s' => Ascii.eqb c d || contains_ascii c s'
  end.

Definition digit_char (d : Z) : ascii := ascii_of_nat (48 + Z.to_nat d).

Fixpoint digits_fuel (fuel : nat) (n : Z) (acc : string) : string :=
  match fuel with
  | O => acc
  | S fuel' =>
      let acc' := String (digit_char (n mod 10)) acc in
      if (n <? 10)%Z then acc' else digits_fuel fuel' (n / 10)%Z acc'
  end.

(** Decimal digits of a non-negative integer. *)
Definition of_N (n : Z) : string :=
  digits_fuel (S (Z.to_nat (Z.log2 n))) n "".

(** [str(n)] for a Python int. *)
Definition of_Z (z : Z) : string :=
  if (z <? 0)%Z then "-" ++ of_N (- z) else of_N z.

Fixpoint repeat_char (c : ascii) (n : nat) : string :=
  match n with
  | O => ""
  | S n' => String c (repeat_char c n')
  end.

(** [s.rjust(w, c)] *)
Definition pad_left (c : ascii) (w : nat) (s : string) : string :=
  repeat_char c (w - String.length s) ++ s.

End Str.

(** ** Paths ([pathlib.PurePosixPath]) *)

Definition path := list string.

Module Path.

(** [str(p)] *)
Definition str (p : path) : string :=
  match p with
  | [] => "."
  | _ => String.concat "/" p
  end.

(** [p.name] *)
Definition name (p : path) : string := last p "".

(** [p.parent]; also [os.path.dirname] of the path string. *)
Definition parent (p : path) : path := removelast p.

(** [p / c] *)
Definition child (p : path) (c : string) : path := p ++ [c].

(** The suffix of a file name: from its last dot, unless that dot is the
    first or the last character. *)
Definition suffix_of_name (n : string) : string :=
  match Str.rfind "."%char n with
  | Some i =>
      if (0 <? i)%nat && (i <? String.length n - 1)%nat
      then substring i (String.length n - i) n
      else ""
  | None => ""
  end.

(** The stem of a file name: the name without its suffix. *)
Definition stem_of_name (n : string) : string :=
  substring 0 (String.length n - String.length (suffix_of_name n)) n.

(** [name.with_suffix(ext)] on a file name. *)
Definition name_with_suffix (n ext : string) : string := stem_of_name n ++ ext.

(** [p.with_suffix(ext)]; the paths it is applied to come from a glob and
    have a name. *)
Definition with_suffix (p : path) (ext : string) : path :=
  child (parent p) (name_with_suffix (name p) ext).

Fixpoint split_on (sep : ascii) (s : string) (cur : string) : list string :=
  match s with
  | EmptyString => [cur]
  | String c s' =>
      if Ascii.eqb c sep then cur :: split_on sep s' ""
      else split_on sep s' (cur ++ String c "")
  end.

(** Components of a path string: split at "/", empty and "." components
    dropped. *)
Definition components (s : string) : list string :=
  filter (fun c => negb (String.eqb c "" || String.eqb c ".")) (split_on "/"%char s "").

(** [Path(s).stem] for a path string [s]. *)
Definition stem_of_string (s : string) : string := stem_of_name (last (components s) "").

Definition eqb (p q : path) : bool :=
  if list_eq_dec string_dec p q then true else false.

Fixpoint is_prefix (p q : path) : bool :=
  match p, q with
  | [], _ => true
  | c :: p', d :: q' => String.eqb c d && is_prefix p' q'
  | _ :: _, [] => false
  end.

(** A component that names an entry of a directory: not empty, not one of
    the special names "." and "..", without "/" and without a NUL byte, and
    of at most 255 bytes (NAME_MAX). *)
Definition entry_name (c : string) : bool :=
  negb (String.eqb c "") && negb (String.eqb c ".") && negb (String.eqb c "..")
  && negb (Str.contains_ascii "/"%char c) && negb (Str.contains_ascii "000"%char c)
  && (String.length c <=? 255)%nat.

(** A path that the kernel takes as it is written: every component names an
    entry, and the path string is shorter than PATH_MAX (4096 bytes with its
    final NUL). *)
Definition plain (p : path) : bool :=
  forallb entry_name p && (String.length (str p) <=? 4095)%nat.

End Path.

(** ** Exceptions *)

Inductive exn : Type :=
| FileNotFoundError (p : path)
| FileExistsError (p : path)
| IsADirectoryError (p : path)
| NotADirectoryError (p : path)
| SameFileError (p : path)
| OSError (msg : string)
| ShutilError (p : path)
| JSONDecodeError (msg : string)
| KeyError (key : string)
| TypeError (what : string)
| ValueError (what : string)
| AttributeError (what : string)
| ZeroDivisionError
| OverflowError.

(** The outcome of a statement: a value or a raised exception, each with the
    state reached. *)
Inductive outcome (S A : Type) : Type :=
| Ok (a : A) (s : S)
| Raise (e : exn) (s : S).
Arguments Ok {S A} a s.
Arguments Raise {S A} e s.

Definition M (S A : Type) : Type := S -> outcome S A.

Definition ret {S A} (a : A) : M S A := fun s => Ok a s.

Definition bind {S A B} (m : M S A) (k : A -> M S B) : M S B :=
  fun s => match m s with
           | Ok a s' => k a s'
           | Raise e s' => Raise e s'
           end.

Definition raise {S A} (e : exn) : M S A := fun s => Raise e s.

(** [try: m  except Exception as e: h e] *)
Definition try_except {S A} (m : M S A) (h : exn -> M S A) : M S A :=
  fun s => match m s with
           | Ok a s' => Ok a s'
           | Raise e s' => h e s'
           end.

Definition get {S} : M S S := fun s => Ok s s.
Definition put {S} (s : S) : M S unit := fun _ => Ok tt s.
Definition modify {S} (f : S -> S) : M S unit := fun s => Ok tt (f s).

(** A computation without state of its own, run inside a stateful one. *)
Definition lift {S A} (r : exn + A) : M S A :=
  fun s => match r with inr a => Ok a s | inl e => Raise e s end.

(** Sequencing of computations that only return or raise. *)
Definition ebind {A B} (r : exn + A) (k : A -> exn + B) : exn + B :=
  match r with
  | inl e => inl e
  | inr a => k a
  end.

Notation "'let*' x ':=' r 'in' k" := (ebind r (fun x => k))
  (at level 10, x name, r at level 100, k at level 200, only parsing).

Declare Scope monad_scope.
Delimit Scope monad_scope with monad.
Notation "x <- m ;; k" := (bind m (fun x => k))
  (at level 61, m at next level, right associativity) : monad_scope.
Notation "m ;;; k" := (bind m (fun _ => k))
  (at level 61, right associativity) : monad_scope.
Notation "' pat <- m ;; k" := (bind m (fun x => match x with pat => k end))
  (at level 61, pat pattern, m at next level, right associativity) : monad_scope.

(** [for x in l: body x] *)
Fixpoint for_each {S A} (l : list A) (body : A -> M S unit) : M S unit :=
  match l with
  | [] => ret tt
  | x :: l' => bind (body x) (fun _ => for_each l' body)
  end.

(** ** The file system *)

(** A directory keeps its entries in the order a scan of it lists them; names
    in one directory are distinct.  A new entry is listed last. *)
Inductive node : Type :=
| File (data : string)
| Dir (entries : list (string * node)).

Module FS.

Definition entries := list (string * node).

Fixpoint assoc (c : string) (es : entries) : option node :=
  match es with
  | [] => None
  | (d, n) :: es' => if String.eqb c d then Some n else assoc c es'
  end.

(** Replace the entry named [c], or add it at the end. *)
Fixpoint set_entry (c : string) (n : node) (es : entries) : entries :=
  match es with
  | [] => [(c, n)]
  | (d, m) :: es' =>
      if String.eqb c d then (d, n) :: es' else (d, m) :: set_entry c n es'
  end.

(** Drop what is listed under the name [c]. *)
Fixpoint remove_entry (c : string) (es : entries) : entries :=
  match es with
  | [] => []
  | (d, m) :: es' =>
      if String.eqb c d then remove_entry c es' else (d, m) :: remove_entry c es'
  end.

(** What is listed at [p], every component taken as the name of an entry. *)
Fixpoint lookup (n : node) (p : path) : option node :=
  match p with
  | [] => Some n
  | c :: p' =>
      match n with
      | File _ => None
      | Dir es =>
          match assoc c es with
          | Some n' => lookup n' p'
          | None => None
          end
      end
  end.

(** [p.exists()], for a plain path: something is listed there.  (For a name
    of more than 255 bytes [Path.exists] raises OSError instead of
    returning.) *)
Definition exists_ (fs : node) (p : path) : bool :=
  match lookup fs p with Some _ => true | None => false end.

(** [os.path.exists(s)] for a path string: the empty string names nothing. *)
Definition os_path_exists (fs : node) (p : path) : bool :=
  match p with
  | [] => false
  | _ :: _ => exists_ fs p
  end.

(** [p.is_dir()] *)
Definition is_dir (fs : node) (p : path) : bool :=
  match lookup fs p with Some (Dir _) => true | _ => false end.

Definition is_file (fs : node) (p : path) : bool :=
  match lookup fs p with Some (File _) => true | _ => false end.

(** Path resolution as the kernel does it for a plain path: a missing
    component is ENOENT, a file in the place of a directory is ENOTDIR. *)
Fixpoint resolve (full : path) (n : node) (p : path) : exn + node :=
  match p with
  | [] => inr n
  | c :: p' =>
      match n with
      | File _ => inl (NotADirectoryError full)
      | Dir es =>
          match assoc c es with
          | Some n' => resolve full n' p'
          | None => inl (FileNotFoundError full)
          end
      end
  end.

Definition has_nul (s : string) : bool := Str.contains_ascii "000"%char s.

(** A name a directory entry can have: no NUL byte, at most 255 bytes. *)
Definition name_ok (s : string) : bool :=
  negb (has_nul s) && (String.length s <=? 255)%nat.

(** [open(p, "r").read()] *)
Definition read_file (fs : node) (p : path) : exn + string :=
  if existsb has_nul p then inl (ValueError "embedded null byte") else
  match resolve p fs p with
  | inl e => inl e
  | inr (File d) => inr d
  | inr (Dir _) => inl (IsADirectoryError p)
  end.

Fixpoint write_at (full : path) (n : node) (p : path) (data : string) : exn + node :=
  match p with
  | [] => inl (FileNotFoundError full)
  | c :: p' =>
      match n with
      | File _ => inl (NotADirectoryError full)
      | Dir es =>
          match p' with
          | [] =>
              match assoc c es with
              | Some (Dir _) => inl (IsADirectoryError full)
              | Some (File _) => inr (Dir (set_entry c (File data) es))
              | None =>
                  if name_ok c then inr (Dir (set_entry c (File data) es))
                  else inl (OSError "File name too long")
              end
          | _ :: _ =>
              match assoc c es with
              | Some n' =>
                  match write_at full n' p' data with
                  | inr n'' => inr (Dir (set_entry c n'' es))
                  | inl e => inl e
                  end
              | None => inl (FileNotFoundError full)
              end
          end
      end
  end.

(** [with open(p, "w") as f: f.write(data)]: the file is created or
    truncated; its directory must exist. *)
Definition write_file (fs : node) (p : path) (data : string) : exn + node :=
  if existsb has_nul p then inl (ValueError "embedded null byte")
  else write_at p fs p data.

Fixpoint fresh_dirs (p : path) : node :=
  match p with
  | [] => Dir []
  | c :: p' => Dir [(c, fresh_dirs p')]
  end.

(** [mkdir] of [p] below [n], with or without its parents, for a plain
    path: the names of the new directories are accepted as they are. *)
Fixpoint mkdir_at (parents : bool) (full : path) (n : node) (p : path) : exn + node :=
  match n with
  | File _ =>
      match p with
      | [] => inl (FileExistsError full)
      | _ :: _ => inl (NotADirectoryError full)
      end
  | Dir es =>
      match p with
      | [] => inr n
      | c :: p' =>
          match assoc c es with
          | Some n' =>
              match mkdir_at parents full n' p' with
              | inr n'' => inr (Dir (set_entry c n'' es))
              | inl e => inl e
              end
          | None =>
              match p' with
              | [] => inr (Dir (es ++ [(c, Dir [])]))
              | _ :: _ =>
                  if parents then inr (Dir (es ++ [(c, fresh_dirs p')]))
                  else inl (FileNotFoundError full)
              end
          end
      end
  end.

(** [p.mkdir(parents=True, exist_ok=True)] *)
Definition mkdir_parents (fs : node) (p : path) : exn + node := mkdir_at true p fs p.

(** [p.mkdir(exist_ok=True)] *)
Definition mkdir (fs : node) (p : path) : exn + node := mkdir_at false p fs p.

(** [os.makedirs(d, exist_ok=True)] for a directory given as a string: the
    empty string, which [os.path.dirname] returns for a bare file name, is
    refused by [mkdir] with ENOENT. *)
Definition os_makedirs (fs : node) (d : path) : exn + node :=
  match d with
  | [] => inl (FileNotFoundError [])
  | _ :: _ => mkdir_at true d fs d
  end.

Fixpoint remove_at (n : node) (p : path) : node :=
  match p, n with
  | [c], Dir es => Dir (remove_entry c es)
  | c :: p', Dir es =>
      match assoc c es with
      | Some n' => Dir (set_entry c (remove_at n' p') es)
      | None => n
      end
  | _, _ => n
  end.

(** [shutil.rmtree(p)].  Removing the working directory itself empties it
    and then fails at the final [rmdir]. *)
Definition rmtree (fs : node) (p : path) : exn * node + node :=
  match p with
  | [] =>
      match fs with
      | Dir _ => inl (OSError "rmdir: Invalid argument", Dir [])
      | File _ => inl (NotADirectoryError p, fs)
      end
  | _ :: _ =>
      match resolve p fs p with
      | inl e => inl (e, fs)
      | inr (File _) => inl (NotADirectoryError p, fs)
      | inr (Dir _) => inr (remove_at fs p)
      end
  end.

(** Put the tree [t] at [p], whose parent directory exists. *)
Fixpoint graft (n : node) (p : path) (t : node) : node :=
  match p, n with
  | [], _ => t
  | c :: p', Dir es =>
      match p' with
      | [] => Dir (set_entry c t es)
      | _ :: _ =>
          match assoc c es with
          | Some n' => Dir (set_entry c (graft n' p' t) es)
          | None => n
          end
      end
  | _ :: _, File _ => n
  end.

(** [dst] lies strictly below an existing subdirectory of the directory at
    [src]: a recursive copy of [src] to [dst] then copies its own output. *)
Definition copies_into_itself (fs : node) (src dst : path) : bool :=
  Path.is_prefix src dst &&
  match skipn (List.length src) dst with
  | c :: _ :: _ => is_dir fs (Path.child src c)
  | _ => false
  end.

(** [shutil.copytree(src, dst)]: [src] is scanned first, [dst] must not
    exist and is created with its parents, then every entry is copied in
    listing order.  When the copy would copy its own output
    ([copies_into_itself]) Python recurses until a path is too long and
    raises; the tree left behind is not modelled, only the exception. *)
Definition copytree (fs : node) (src dst : path) : exn * node + node :=
  match resolve src fs src with
  | inl e => inl (e, fs)
  | inr (File _) => inl (NotADirectoryError src, fs)
  | inr (Dir es) =>
      if exists_ fs dst then inl (FileExistsError dst, fs)
      else
        match os_makedirs fs dst with
        | inl e => inl (e, fs)
        | inr fs1 =>
            if copies_into_itself fs src dst then inl (ShutilError dst, fs1)
            else inr (graft fs1 dst (Dir es))
        end
  end.

(** [shutil.copy2(src, dst)]: into the directory [dst] when it is one; a
    file is not copied onto itself. *)
Definition copy2 (fs : node) (src dst : path) : exn + node :=
  let dst' := if is_dir fs dst then Path.child dst (Path.name src) else dst in
  if exists_ fs src && exists_ fs dst' && Path.eqb src dst'
  then inl (SameFileError src)
  else
    match read_file fs src with
    | inl e => inl e
    | inr data => write_file fs dst' data
    end.

(** *** Directory scans *)

(** The directories at and below [n], each with its path and its entries: a
    directory first, then its subdirectories in listing order. *)
Fixpoint walk (pre : path) (n : node) : list (path * entries) :=
  match n with
  | File _ => []
  | Dir es => (pre, es) :: flat_map (fun cn => walk (pre ++ [fst cn]) (snd cn)) es
  end.

(** The entries of one directory whose name passes [sel]. *)
Definition select (sel : string -> bool) (d : path * entries) : list path :=
  map (fun cn => fst d ++ [fst cn]) (filter (fun cn => sel (fst cn)) (snd d)).

(** [base.glob(pat)] for a pattern that selects names in [base] itself. *)
Definition glob_here (sel : string -> bool) (fs : node) (base : path) : list path :=
  match lookup fs base with
  | Some (Dir es) => select sel (base, es)
  | _ => []
  end.

(** [base.glob("**/" + pat)]: the same selection in [base] and in every
    directory below it. *)
Definition glob_rec (sel : string -> bool) (fs : node) (base : path) : list path :=
  match lookup fs base with
  | Some n => flat_map (select sel) (walk base n)
  | None => []
  end.

(** Every entry below [src] has a plain path, and so has the place below
    [dst] that a recursive copy of [src] to [dst] gives it: neither the copy
    nor a listing of the two trees meets a path that the kernel refuses. *)
Definition copy_fits (fs : node) (src dst : path) : bool :=
  forallb (fun q => Path.plain q && Path.plain (dst ++ skipn (List.length src) q))
          (glob_rec (fun _ => true) fs src).

End FS.

(** ** Floating-point numbers (IEEE binary64) *)

Module Flt.

(** The float nearest to [m * 2^e] (ties to even, infinite on overflow). *)
Definition of_scaled (m e : Z) : float :=
  SF2Prim (binary_normalize prec emax m e false).

(** Integers of this magnitude round to infinity. *)
Definition int_too_large (z : Z) : bool := (2 ^ 1024 - 2 ^ 970 <=? Z.abs z)%Z.

(** [float(z)] for a Python int: the nearest float, OverflowError when there
    is none. *)
Definition of_int (z : Z) : exn + float :=
  if int_too_large z then inl OverflowError else inr (of_scaled z 0).

(** The float nearest to the quotient [a / b] of two non-zero integers: the
    quotient is taken with more than 64 significant bits, the lost remainder
    is kept as a sticky last bit, and the result is rounded once. *)
Definition nearest_quotient (a b : Z) : float :=
  let k := Z.max 0 (66 + Z.log2 (Z.abs b) - Z.log2 (Z.abs a)) in
  let n := (Z.abs a * 2 ^ k)%Z in
  let q := (n / Z.abs b)%Z in
  let m := if (n mod Z.abs b =? 0)%Z then q else Z.lor q 1 in
  let f := of_scaled m (- k) in
  if xorb (a <? 0)%Z (b <? 0)%Z then (- f)%float else f.

(** [a / b] for two Python ints. *)
Definition int_truediv (a b : Z) : exn + float :=
  if (b =? 0)%Z then inl ZeroDivisionError
  else if (a =? 0)%Z then inr (if (b <? 0)%Z then neg_zero else zero)
  else
    let f := nearest_quotient a b in
    if is_infinity f then inl OverflowError else inr f.

(** [a / b] for two Python floats. *)
Definition truediv (a b : float) : exn + float :=
  if is_zero b then inl ZeroDivisionError else inr (a / b)%float.

(** [n / d] rounded to the nearest integer, ties to even ([d > 0]). *)
Definition div_half_even (n d : Z) : Z :=
  let q := (n / d)%Z in
  let r := (n mod d)%Z in
  if (2 * r <? d)%Z then q
  else if (d <? 2 * r)%Z then (q + 1)%Z
  else if Z.even q then q else (q + 1)%Z.

(** [format(x, ".6f")]: the exact value of the float, rounded half-even to
    six decimals. *)
Definition format_6f (x : float) : string :=
  match Prim2SF x with
  | S754_nan => "nan"
  | S754_infinity s => if s then "-inf" else "inf"
  | S754_zero s => (if s then "-" else "") ++ "0.000000"
  | S754_finite s m e =>
      let n :=
        if (0 <=? e)%Z then (Zpos m * 2 ^ e * 1000000)%Z
        else div_half_even (Zpos m * 1000000) (2 ^ (- e)) in
      (if s then "-" else "") ++ Str.of_N (n / 1000000) ++ "."
        ++ Str.pad_left "0"%char 6 (Str.of_N (n mod 1000000))
  end.

(** [min(a, b)] on floats: the second argument only when it is smaller. *)
Definition py_min (a b : float) : float := if (b <? a)%float then b else a.

(** [f == z] for a float and an int, compared exactly. *)
Definition eq_int (f : float) (z : Z) : bool :=
  match Prim2SF f with
  | S754_zero _ => (z =? 0)%Z
  | S754_finite s m e =>
      let v := if s then Zneg m else Zpos m in
      if (0 <=? e)%Z then (z =? v * 2 ^ e)%Z
      else (z * 2 ^ (- e) =? v)%Z
  | _ => false
  end.

End Flt.

(** ** Python values read from JSON *)

Inductive json : Type :=
| JNull
| JBool (b : bool)
| JInt (z : Z)
| JFloat (f : float)
| JStr (s : string)
| JList (items : list json)
| JObj (members : list (string * json)).

Module Py.

(** [d[k]] on the members of a dict. *)
Fixpoint assoc (k : string) (kvs : list (string * json)) : option json :=
  match kvs with
  | [] => None
  | (k', v) :: kvs' => if String.eqb k k' then Some v else assoc k kvs'
  end.

(** [isinstance(v, dict)] *)
Definition is_dict (v : json) : bool :=
  match v with JObj _ => true | _ => false end.

(** [k in v] for a dict [v]. *)
Definition has_key (v : json) (k : string) : bool :=
  match v with
  | JObj kvs => match assoc k kvs with Some _ => true | None => false end
  | _ => false
  end.

(** [v[k]] for a string [k]: only a dict can be indexed by a string. *)
Definition getitem (v : json) (k : string) : exn + json :=
  match v with
  | JObj kvs =>
      match assoc k kvs with
      | Some x => inr x
      | None => inl (KeyError k)
      end
  | _ => inl (TypeError "subscript")
  end.

(** [v.get(k, default)]: a method of dicts only. *)
Definition get (v : json) (k : string) (default : json) : exn + json :=
  match v with
  | JObj kvs =>
      match assoc k kvs with
      | Some x => inr x
      | None => inr default
      end
  | _ => inl (AttributeError "get")
  end.

Fixpoint chars (s : string) : list json :=
  match s with
  | EmptyString => []
  | String c s' => JStr (String c "") :: chars s'
  end.

(** [for x in v]: the items of a list, the keys of a dict, the characters of
    a string. *)
Definition iter (v : json) : exn + list json :=
  match v with
  | JList l => inr l
  | JObj kvs => inr (map (fun kv => JStr (fst kv)) kvs)
  | JStr s => inr (chars s)
  | _ => inl (TypeError "iter")
  end.

(** Numbers: [bool] is a subclass of [int]. *)
Inductive num : Type := NInt (z : Z) | NFloat (f : float).

Definition as_num (v : json) : option num :=
  match v with
  | JBool b => Some (NInt (if b then 1 else 0)%Z)
  | JInt z => Some (NInt z)
  | JFloat f => Some (NFloat f)
  | _ => None
  end.

Definition of_num (n : num) : json :=
  match n with NInt z => JInt z | NFloat f => JFloat f end.

Definition to_float (n : num) : exn + float :=
  match n with NInt z => Flt.of_int z | NFloat f => inr f end.

(** A binary operation on a float and an int converts the int first. *)
Definition float_op (op : float -> float -> exn + float) (a b : num) : exn + num :=
  match to_float a with
  | inl e => inl e
  | inr x =>
      match to_float b with
      | inl e => inl e
      | inr y =>
          match op x y with
          | inl e => inl e
          | inr r => inr (NFloat r)
          end
      end
  end.


Definition num_add (a b : num) : exn + num :=
  match a, b with
  | NInt x, NInt y => inr (NInt (x + y))
  | _, _ => float_op (fun x y => inr (x + y)%float) a b
  end.

Definition num_sub (a b : num) : exn + num :=
  match a, b with
  | NInt x, NInt y => inr (NInt (x - y))
  | _, _ => float_op (fun x y => inr (x - y)%float) a b
  end.

Definition arith (what : string) (op : num -> num -> exn + num) (a b : json) : exn + json :=
  match as_num a, as_num b with
  | Some x, Some y =>
      match op x y with
      | inl e => inl e
      | inr r => inr (of_num r)
      end
  | _, _ => inl (TypeError what)
  end.

(** [a / b]: true division, always a float. *)
Definition truediv (a b : json) : exn + float :=
  match as_num a, as_num b with
  | Some (NInt x), Some (NInt y) => Flt.int_truediv x y
  | Some x, Some y =>
      match to_float x with
      | inl e => inl e
      | inr fx =>
          match to_float y with
          | inl e => inl e
          | inr fy => Flt.truediv fx fy
          end
      end
  | _, _ => inl (TypeError "/")
  end.
(** [a + b] on numbers; the program adds nothing else. *)
Definition add : json -> json -> exn + json := arith "+" num_add.
(** [a - b] *)
Definition sub : json -> json -> exn + json := arith "-" num_sub.

(** [v > 0] *)
Definition gt0 (v : json) : exn + bool :=
  match as_num v with
  | Some (NInt z) => inr (0 <? z)%Z
  | Some (NFloat f) => inr (0 <? f)%float
  | None => inl (TypeError ">")
  end.

(** Values that can be keys of a dict. *)
Definition hashable (v : json) : bool :=
  match v with JList _ | JObj _ => false | _ => true end.

(** Equality of two dict keys: numbers by value (so [1], [1.0] and [True] are
    one key).  A NaN is equal to no number, but [json.load] returns one and
    the same object for every [NaN] it reads, and a dict finds a key that is
    the same object: the NaN keys of the programs are one key. *)
Definition key_eqb (a b : json) : bool :=
  match a, b with
  | JNull, JNull => true
  | JStr s, JStr t => String.eqb s t
  | _, _ =>
      match as_num a, as_num b with
      | Some (NInt x), Some (NInt y) => (x =? y)%Z
      | Some (NFloat f), Some (NInt y) => Flt.eq_int f y
      | Some (NInt x), Some (NFloat g) => Flt.eq_int g x
      | Some (NFloat f), Some (NFloat g) => (f =? g)%float || (is_nan f && is_nan g)
      | _, _ => false
      end
  end.

(** A dict with arbitrary hashable keys, in insertion order. *)
Definition dict (V : Type) := list (json * V).

Fixpoint dict_find {V} (k : json) (d : dict V) : option V :=
  match d with
  | [] => None
  | (k', v) :: d' => if key_eqb k k' then Some v else dict_find k d'
  end.

(** [d[k] = v]: an existing key keeps its place and its first spelling. *)
Fixpoint dict_set {V} (k : json) (v : V) (d : dict V) : dict V :=
  match d with
  | [] => [(k, v)]
  | (k', v') :: d' =>
      if key_eqb k k' then (k', v) :: d' else (k', v') :: dict_set k v d'
  end.

End Py.

(** ** Text files *)

Module Text.

(** Whitespace for [str.strip] and [str.split]. *)
Definition is_space (c : ascii) : bool :=
  let n := nat_of_ascii c in
  (n =? 32)%nat || ((9 <=? n)%nat && (n <=? 13)%nat) || ((28 <=? n)%nat && (n <=? 31)%nat).

Fixpoint split_ws (s : string) (cur : string) : list string :=
  match s with
  | EmptyString => if String.eqb cur "" then [] else [cur]
  | String c s' =>
      if is_space c
      then (if String.eqb cur "" then split_ws s' "" else cur :: split_ws s' "")
      else split_ws s' (cur ++ String c "")
  end.

(** [line.strip().split()] *)
Definition fields (line : string) : list string := split_ws line "".

Fixpoint lines_from (s : string) (cur : string) : list string :=
  match s with
  | EmptyString => if String.eqb cur "" then [] else [cur]
  | String c s' =>
      if Ascii.eqb c "010"%char then cur :: lines_from s' ""
      else if Ascii.eqb c "013"%char then
        match s' with
        | String d s'' =>
            if Ascii.eqb d "010"%char then cur :: lines_from s'' ""
            else cur :: lines_from s' ""
        | EmptyString => [cur]
        end
      else lines_from s' (cur ++ String c "")
  end.

(** [f.readlines()] without the line ends, which [fields] drops anyway: a
    line ends at LF, CR or CR LF. *)
Definition readlines (data : string) : list string := lines_from data "".

End Text.

(** ** What the Python libraries compute *)

(** The three shapes of glob pattern the programs use. *)
Inductive pattern : Type :=
| Star (ext : string)       (** [glob("*" + ext)] *)
| StarStar (ext : string)   (** [glob("**/*" + ext)] *)
| RStar.                    (** [rglob("*")] *)

Record Lib : Type := {
  (** [json.load] on the text of a file *)
  json_load : string -> exn + json;
  (** [json.dump(v, f, indent=2)] *)
  json_dump : json -> string;
  (** [str(e)] *)
  str_exn : exn -> string;
  (** [float(s)] *)
  py_float : string -> exn + float;
  (** [str(v)] of a float, a list or a dict *)
  py_repr : json -> string;
  (** the order in which the set of image extensions is iterated *)
  set_order : list string;
  (** [sorted(d.items())] *)
  sorted_items : list (json * json) -> exn + list (json * json);
  (** [datetime.now().isoformat()] *)
  now_isoformat : string;
  (** an I/O fault met while a directory is scanned *)
  scan_fault : path -> pattern -> option exn
}.

(** The extensions in the set literal [image_extensions]. *)
Definition image_extensions : list string :=
  [".jpg"; ".jpeg"; ".png"; ".bmp"; ".tiff"; ".webp"].

Section Common.

Variable L : Lib.

(** [list(base.glob(pat))] *)
Definition glob (fs : node) (base : path) (pat : pattern) : exn + list path :=
  match scan_fault L base pat with
  | Some e => inl e
  | None =>
      inr match pat with
          | Star ext => FS.glob_here (fun n => Str.ends_with n ext) fs base
          | StarStar ext => FS.glob_rec (fun n => Str.ends_with n ext) fs base
          | RStar => FS.glob_rec (fun _ => true) fs base
          end
  end.

(** [with open(p) as f: json.load(f)] *)
Definition load_json (fs : node) (p : path) : exn + json :=
  match FS.read_file fs p with
  | inl e => inl e
  | inr data => json_load L data
  end.

(** [str(v)], as an f-string formats a value. *)
Definition py_str (v : json) : string :=
  match v with
  | JStr s => s
  | JInt z => Str.of_Z z
  | JBool b => if b then "True" else "False"
  | JNull => "None"
  | _ => py_repr L v
  end.

(** The image files of a tree, as both programs collect them:
    [[
    for ext in image_extensions:
        image_files.extend(input_path.glob(f"*{ext}"))
        image_files.extend(input_path.glob(f"**/*{ext}"))
    ]] *)
Fixpoint collect_images (fs : node) (input_path : path) (exts : list string)
  : exn + list path :=
  match exts with
  | [] => inr []
  | ext :: exts' =>
      match glob fs input_path (Star ext) with
      | inl e => inl e
      | inr a =>
          match glob fs input_path (StarStar ext) with
          | inl e => inl e
          | inr b =>
              match collect_images fs input_path exts' with
              | inl e => inl e
              | inr rest => inr (a ++ b ++ rest)
              end
          end
      end
  end.

(** Run a file-system operation on the state. *)
Definition fs_op (f : node -> exn + node) : M node unit :=
  fun fs => match f fs with
            | inr fs' => Ok tt fs'
            | inl e => Raise e fs
            end.

(** The same for an operation that leaves a changed tree when it fails. *)
Definition fs_op' (f : node -> exn * node + node) : M node unit :=
  fun fs => match f fs with
            | inr fs' => Ok tt fs'
            | inl (e, fs') => Raise e fs'
            end.

(** [[
    os.makedirs(os.path.dirname(p), exist_ok=True)
    with open(p, "w") as f:
        json.dump(v, f, indent=2)
    ]] *)
Definition dump_to (p : path) (v : json) : M node unit :=
  (fs_op (fun fs => FS.os_makedirs fs (Path.parent p)) ;;;
   fs_op (fun fs => FS.write_file fs p (json_dump L v)))%monad.

End Common.

(** ** The format detector ([data_format_detector.py]) *)

Module Detector.

(** The dict [detection_results]; [error] is the key the handler adds. *)
Record DetectionResults : Type := {
  detected_format : string;
  confidence : float;
  format_indicators : json;
  file_analysis : json;
  conversion_needed : bool;
  skip_conversion : bool;
  error : option string
}.

(** The dict [detailed_report]. *)
Record DetailedReport : Type := {
  analysis_timestamp : string;
  input_path_str : string;
  files_analyzed : list string;
  detection_logic : list string;
  report_error : option string
}.

(** The two dicts the analysis fills in. *)
Record State : Type := {
  results : DetectionResults;
  report : DetailedReport
}.

Definition results_json (r : DetectionResults) : json :=
  JObj ([("detected_format", JStr (detected_format r));
         ("confidence", JFloat (confidence r));
         ("format_indicators", format_indicators r);
         ("file_analysis", file_analysis r);
         ("conversion_needed", JBool (conversion_needed r));
         ("skip_conversion", JBool (skip_conversion r))]
        ++ match error r with Some e => [("error", JStr e)] | None => [] end).

Definition report_json (d : DetailedReport) : json :=
  JObj ([("analysis_timestamp", JStr (analysis_timestamp d));
         ("input_path", JStr (input_path_str d));
         ("files_analyzed", JList (map JStr (files_analyzed d)));
         ("detection_logic", JList (map JStr (detection_logic d)))]
        ++ match report_error d with Some e => [("error", JStr e)] | None => [] end).

(** *** Updates of the two dicts *)

Definition set_files_analyzed (l : list string) (s : State) : State :=
  let d := report s in
  {| results := results s;
     report := {| analysis_timestamp := analysis_timestamp d;
                  input_path_str := input_path_str d;
                  files_analyzed := l;
                  detection_logic := detection_logic d;
                  report_error := report_error d |} |}.

(** [detailed_report["files_analyzed"].append(x)] *)
Definition add_file_analyzed (x : string) (s : State) : State :=
  set_files_analyzed (files_analyzed (report s) ++ [x]) s.

(** [detailed_report["detection_logic"].append(x)] *)
Definition add_logic (x : string) (s : State) : State :=
  let d := report s in
  {| results := results s;
     report := {| analysis_timestamp := analysis_timestamp d;
                  input_path_str := input_path_str d;
                  files_analyzed := files_analyzed d;
                  detection_logic := detection_logic d ++ [x];
                  report_error := report_error d |} |}.

Definition with_results (f : DetectionResults -> DetectionResults) (s : State) : State :=
  {| results := f (results s); report := report s |}.

Definition set_format (x : string) (r : DetectionResults) : DetectionResults :=
  {| detected_format := x; confidence := confidence r;
     format_indicators := format_indicators r; file_analysis := file_analysis r;
     conversion_needed := conversion_needed r; skip_conversion := skip_conversion r;
     error := error r |}.

Definition set_confidence (x : float) (r : DetectionResults) : DetectionResults :=
  {| detected_format := detected_format r; confidence := x;
     format_indicators := format_indicators r; file_analysis := file_analysis r;
     conversion_needed := conversion_needed r; skip_conversion := skip_conversion r;
     error := error r |}.

Definition set_conversion (needed skip : bool) (r : DetectionResults) : DetectionResults :=
  {| detected_format := detected_format r; confidence := confidence r;
     format_indicators := format_indicators r; file_analysis := file_analysis r;
     conversion_needed := needed; skip_conversion := skip;
     error := error r |}.

Definition set_details (ind fa : json) (r : DetectionResults) : DetectionResults :=
  {| detected_format := detected_format r; confidence := confidence r;
     format_indicators := ind; file_analysis := fa;
     conversion_needed := conversion_needed r; skip_conversion := skip_conversion r;
     error := error r |}.

Definition set_error (x : string) (r : DetectionResults) : DetectionResults :=
  {| detected_format := detected_format r; confidence := confidence r;
     format_indicators := format_indicators r; file_analysis := file_analysis r;
     conversion_needed := conversion_needed r; skip_conversion := skip_conversion r;
     error := Some x |}.

(** The names of a YOLO classes file. *)
Definition classes_names : list string := ["classes.txt"; "class.names"; "obj.names"].

Section WithLib.

Variable L : Lib.

(** The body of the loop over [json_files]; [coco] is [coco_indicators]. *)
Definition scan_json (fs : node) (coco : Z) (json_file : path) : M State Z :=
  try_except
    (data <- lift (load_json L fs json_file) ;;
     if Py.is_dict data && forallb (Py.has_key data) ["images"; "annotations"; "categories"]
     then
       modify (add_logic ("Found COCO structure in " ++ Path.name json_file)) ;;;
       modify (add_file_analyzed (Path.str json_file)) ;;;
       ret (coco + 3)%Z
     else if Py.is_dict data && existsb (Py.has_key data) ["images"; "annotations"]
     then
       modify (add_logic ("Found partial COCO structure in " ++ Path.name json_file)) ;;;
       ret (coco + 1)%Z
     else ret coco)%monad
    (fun _ => ret coco).

(** What one file adds to [coco_indicators] in [scan_json]. *)
Definition coco_contribution (fs : node) (json_file : path) : Z :=
  match load_json L fs json_file with
  | inr data =>
      if Py.is_dict data && forallb (Py.has_key data) ["images"; "annotations"; "categories"]
      then 3%Z
      else if Py.is_dict data && existsb (Py.has_key data) ["images"; "annotations"]
      then 1%Z
      else 0%Z
  | inl _ => 0%Z
  end.

(** A loop that threads a local variable through its body. *)
Fixpoint loop {S A X : Type} (body : A -> X -> M S A) (a : A) (l : list X) : M S A :=
  match l with
  | [] => ret a
  | x :: l' => bind (body a x) (fun a' => loop body a' l')
  end.

(** The body of the loop over [txt_files]; the locals are [classes_file]
    and [yolo_indicators]. *)
Definition scan_txt (acc : option path * Z) (txt_file : path) : M State (option path * Z) :=
  if Str.mem (Str.lower (Path.name txt_file)) classes_names
  then
    (modify (add_logic ("Found YOLO classes file: " ++ Path.name txt_file)) ;;;
     modify (add_file_analyzed (Path.str txt_file)) ;;;
     ret (Some txt_file, (snd acc + 2)%Z))%monad
  else ret acc.

(** [coords = [float(x) for x in parts[1:5]]] *)
Fixpoint floats_of (parts : list string) : exn + list float :=
  match parts with
  | [] => inr []
  | x :: parts' =>
      match py_float L x with
      | inl e => inl e
      | inr f =>
          match floats_of parts' with
          | inl e => inl e
          | inr fs => inr (f :: fs)
          end
      end
  end.

(** [all(0 <= coord <= 1 for coord in coords)] *)
Definition normalized (coords : list float) : bool :=
  forallb (fun c => (0 <=? c)%float && (c <=? 1)%float) coords.

(** The body of the loop over the lines of an annotation file; the local is
    [valid_yolo_lines].  Only a ValueError is caught here. *)
Definition check_line (valid : Z) (line : string) : exn + Z :=
  let parts := Text.fields line in
  if (5 <=? List.length parts)%nat then
    match floats_of (firstn 4 (skipn 1 parts)) with
    | inr coords => if normalized coords then inr (valid + 1)%Z else inr valid
    | inl (ValueError _) => inr valid
    | inl e => inl e
    end
  else inr valid.

Fixpoint check_lines (valid : Z) (lines : list string) : exn + Z :=
  match lines with
  | [] => inr valid
  | line :: lines' =>
      match check_line valid line with
      | inl e => inl e
      | inr valid' => check_lines valid' lines'
      end
  end.

(** The body of the loop over the first ten image files; the local is
    [yolo_annotation_count]. *)
Definition scan_image (fs : node) (count : Z) (img_file : path) : Z :=
  let annotation_file := Path.with_suffix img_file ".txt" in
  if FS.exists_ fs annotation_file then
    match FS.read_file fs annotation_file with
    | inl _ => count
    | inr data =>
        match check_lines 0 (Text.readlines data) with
        | inl _ => count
        | inr valid_yolo_lines =>
            if (0 <? valid_yolo_lines)%Z then (count + 1)%Z else count
        end
    end
  else count.

(** [min(0.9, 0.3 + (score * 0.15))] for an int [score]. *)
Definition confidence_of (score : Z) : exn + float :=
  match Flt.of_int score with
  | inl e => inl e
  | inr s => inr (Flt.py_min 0.9 (0.3 + s * 0.15))%float
  end.

(** "Determine format based on indicators". *)
Definition decide (coco_indicators yolo_indicators : Z) : M State unit :=
  if (yolo_indicators <=? coco_indicators)%Z && (2 <=? coco_indicators)%Z then
    (modify (with_results (set_format "coco")) ;;;
     c <- lift (confidence_of coco_indicators) ;;
     modify (with_results (set_confidence c)) ;;;
     modify (with_results (set_conversion true false)))%monad
  else if (2 <=? yolo_indicators)%Z then
    (modify (with_results (set_format "yolo")) ;;;
     c <- lift (confidence_of yolo_indicators) ;;
     modify (with_results (set_confidence c)) ;;;
     modify (with_results (set_conversion false true)))%monad
  else
    (modify (with_results (set_format "unknown")) ;;;
     modify (with_results (set_confidence 0)) ;;;
     modify (with_results (set_conversion true false)))%monad.

Definition len {A} (l : list A) : json := JInt (Z.of_nat (List.length l)).

(** "Get list of files with error handling": the inner [try]. *)
Definition list_all_files (fs : node) (input_path : path) : M State (list path) :=
  try_except
    (all_files <- lift (glob L fs input_path RStar) ;;
     modify (set_files_analyzed (map Path.str (firstn 20 all_files))) ;;;
     ret all_files)%monad
    (fun _ => ret []).

(** The body of the outer [try] of [detect_data_format]. *)
Definition analyse (fs : node) (input_path : path) : M State unit :=
  (all_files <- list_all_files fs input_path ;;
   top_json <- lift (glob L fs input_path (Star ".json")) ;;
   deep_json <- lift (glob L fs input_path (StarStar ".json")) ;;
   let json_files := top_json ++ deep_json in
   coco_indicators <- loop (scan_json fs) 0%Z json_files ;;
   top_txt <- lift (glob L fs input_path (Star ".txt")) ;;
   deep_txt <- lift (glob L fs input_path (StarStar ".txt")) ;;
   let txt_files := top_txt ++ deep_txt in
   '(classes_file, yolo_indicators) <- loop scan_txt (None, 0%Z) txt_files ;;
   image_files <- lift (collect_images L fs input_path (set_order L)) ;;
   let yolo_annotation_count := fold_left (scan_image fs) (firstn 10 image_files) 0%Z in
   yolo_indicators <-
     (if (3 <=? yolo_annotation_count)%Z then
        modify (add_logic ("Found " ++ Str.of_Z yolo_annotation_count
                           ++ " files with YOLO format annotations")) ;;;
        ret (yolo_indicators + 3)%Z
      else if (0 <? yolo_annotation_count)%Z then
        modify (add_logic ("Found " ++ Str.of_Z yolo_annotation_count
                           ++ " files with possible YOLO annotations")) ;;;
        ret (yolo_indicators + 1)%Z
      else ret yolo_indicators) ;;
   decide coco_indicators yolo_indicators ;;;
   modify (with_results (set_details
     (JObj [("coco_score", JInt coco_indicators);
            ("yolo_score", JInt yolo_indicators);
            ("json_files_found", len json_files);
            ("txt_files_found", len txt_files);
            ("image_files_found", len image_files);
            ("classes_file_found",
             JBool match classes_file with Some _ => true | None => false end)])
     (JObj [("total_json_files", len json_files);
            ("total_txt_files", len txt_files);
            ("total_image_files", len image_files);
            ("yolo_annotation_files", JInt yolo_annotation_count);
            ("classes_file_path",
             match classes_file with
             | Some p => JStr (Path.str p)
             | None => JNull
             end)]))))%monad.

(** The dicts before the analysis. *)
Definition initial (input_path : path) : State :=
  {| results := {| detected_format := "unknown"; confidence := 0;
                   format_indicators := JObj []; file_analysis := JObj [];
                   conversion_needed := true; skip_conversion := false;
                   error := None |};
     report := {| analysis_timestamp := now_isoformat L;
                  input_path_str := Path.str input_path;
                  files_analyzed := []; detection_logic := [];
                  report_error := None |} |}.

(** The dicts written when the input path does not exist. *)
Definition fallback (input_path : path) : State :=
  {| results := {| detected_format := "unknown"; confidence := 0;
                   format_indicators := JObj [("error", JStr "Input path not found")];
                   file_analysis := JObj [];
                   conversion_needed := true; skip_conversion := false;
                   error := None |};
     report := {| analysis_timestamp := now_isoformat L;
                  input_path_str := Path.str input_path;
                  files_analyzed := [];
                  detection_logic := ["Input path not found"];
                  report_error := Some "Input path does not exist" |} |}.

(** The dicts after the outer [try ... except Exception as e]. *)
Definition analysed (fs : node) (input_path : path) : State :=
  match analyse fs input_path (initial input_path) with
  | Ok _ s => s
  | Raise e s => with_results (fun r => set_error (str_exn L e) (set_format "error" r)) s
  end.

(** The two dicts [detect_data_format] hands to [json.dump]. *)
Definition detected (fs : node) (input_path : path) : State :=
  if FS.exists_ fs input_path then analysed fs input_path else fallback input_path.

Definition detect_data_format (input_data format_info format_report : path) : M node unit :=
  (fs <- get ;;
   let input_path := input_data in
   if negb (FS.exists_ fs input_path) then
     let s := fallback input_path in
     try_except
       (dump_to L format_info (results_json (results s)) ;;;
        dump_to L format_report (report_json (report s)))
       (fun _ => ret tt)
   else
     let s := analysed fs input_path in
     try_except (dump_to L format_info (results_json (results s))) (fun _ => ret tt) ;;;
     try_except (dump_to L format_report (report_json (report s))) (fun _ => ret tt))%monad.

End WithLib.

End Detector.

(** ** The unified processor ([unified_data_processor.py]) *)

Module Processor.

(** The dict [processing_results]; the last three keys are added by the
    conversion and by the direct copy. *)
Record ProcessingResults : Type := {
  processing_type : string;
  success : bool;
  detected_format : json;
  files_processed : Z;
  errors : list string;
  warnings : list string;
  timestamp : string;
  annotations_converted : option Z;
  images_copied : option Z;
  files_copied : option Z
}.

Definition opt_int (k : string) (o : option Z) : list (string * json) :=
  match o with Some z => [(k, JInt z)] | None => [] end.

Definition results_json (r : ProcessingResults) : json :=
  JObj ([("processing_type", JStr (processing_type r));
         ("success", JBool (success r));
         ("detected_format", detected_format r);
         ("files_processed", JInt (files_processed r));
         ("errors", JList (map JStr (errors r)));
         ("warnings", JList (map JStr (warnings r)));
         ("timestamp", JStr (timestamp r))]
        ++ opt_int "annotations_converted" (annotations_converted r)
        ++ opt_int "images_copied" (images_copied r)
        ++ opt_int "files_copied" (files_copied r)).

(** The file system and the dict the functions of the module share. *)
Record State : Type := {
  fs : node;
  res : ProcessingResults
}.

(** The same with the two locals of [convert_coco_to_yolo] that its loop over
    the JSON files updates and that survive an exception in the loop body:
    [all_categories] and [converted_annotations]. *)
Record ConvState : Type := {
  base : State;
  all_categories : Py.dict json;
  converted_annotations : Z
}.

(** Run a computation on a part of the state. *)
Definition zoom {S T A} (proj : S -> T) (upd : T -> S -> S) (m : M T A) : M S A :=
  fun s => match m (proj s) with
           | Ok a t => Ok a (upd t s)
           | Raise e t => Raise e (upd t s)
           end.

Definition with_fs (f : node) (s : State) : State := {| fs := f; res := res s |}.
Definition with_res (r : ProcessingResults) (s : State) : State := {| fs := fs s; res := r |}.

Definition on_fs {A} (m : M node A) : M State A := zoom fs with_fs m.

Definition with_base (b : State) (c : ConvState) : ConvState :=
  {| base := b; all_categories := all_categories c;
     converted_annotations := converted_annotations c |}.

Definition on_base {A} (m : M State A) : M ConvState A := zoom base with_base m.

(** *** Updates of the dict *)

Definition upd_res (f : ProcessingResults -> ProcessingResults) : M State unit :=
  modify (fun s => with_res (f (res s)) s).

(** [results["errors"].append(x)] *)
Definition add_error (x : string) (r : ProcessingResults) : ProcessingResults :=
  {| processing_type := processing_type r; success := success r;
     detected_format := detected_format r; files_processed := files_processed r;
     errors := errors r ++ [x]; warnings := warnings r; timestamp := timestamp r;
     annotations_converted := annotations_converted r;
     images_copied := images_copied r; files_copied := files_copied r |}.

(** [results["warnings"].append(x)] *)
Definition add_warning (x : string) (r : ProcessingResults) : ProcessingResults :=
  {| processing_type := processing_type r; success := success r;
     detected_format := detected_format r; files_processed := files_processed r;
     errors := errors r; warnings := warnings r ++ [x]; timestamp := timestamp r;
     annotations_converted := annotations_converted r;
     images_copied := images_copied r; files_copied := files_copied r |}.

Definition set_processing_type (x : string) (r : ProcessingResults) : ProcessingResults :=
  {| processing_type := x; success := success r;
     detected_format := detected_format r; files_processed := files_processed r;
     errors := errors r; warnings := warnings r; timestamp := timestamp r;
     annotations_converted := annotations_converted r;
     images_copied := images_copied r; files_copied := files_copied r |}.

Definition set_success (x : bool) (r : ProcessingResults) : ProcessingResults :=
  {| processing_type := processing_type r; success := x;
     detected_format := detected_format r; files_processed := files_processed r;
     errors := errors r; warnings := warnings r; timestamp := timestamp r;
     annotations_converted := annotations_converted r;
     images_copied := images_copied r; files_copied := files_copied r |}.

(** [results["files_processed"] += 1] *)
Definition incr_files_processed (r : ProcessingResults) : ProcessingResults :=
  {| processing_type := processing_type r; success := success r;
     detected_format := detected_format r;
     files_processed := (files_processed r + 1)%Z;
     errors := errors r; warnings := warnings r; timestamp := timestamp r;
     annotations_converted := annotations_converted r;
     images_copied := images_copied r; files_copied := files_copied r |}.

(** [results["annotations_converted"] = a; results["images_copied"] = c] *)
Definition set_converted (a c : Z) (r : ProcessingResults) : ProcessingResults :=
  {| processing_type := processing_type r; success := success r;
     detected_format := detected_format r; files_processed := files_processed r;
     errors := errors r; warnings := warnings r; timestamp := timestamp r;
     annotations_converted := Some a;
     images_copied := Some c; files_copied := files_copied r |}.

(** [results["files_processed"] = i; results["files_copied"] = o] *)
Definition set_copied (i o : Z) (r : ProcessingResults) : ProcessingResults :=
  {| processing_type := processing_type r; success := success r;
     detected_format := detected_format r; files_processed := i;
     errors := errors r; warnings := warnings r; timestamp := timestamp r;
     annotations_converted := annotations_converted r;
     images_copied := images_copied r; files_copied := Some o |}.

(** *** One YOLO label line *)

(** [x, y, w, h = bbox] *)
Definition unpack4 (bbox : json) : exn + (json * json * json * json) :=
  let* items := Py.iter bbox in
  match items with
  | [x; y; w; h] => inr (x, y, w, h)
  | _ => inl (ValueError "unpack")
  end.

(** [ann["category_id"] - 1 if ann["category_id"] > 0 else 0] *)
Definition class_id_of (category_id : json) : exn + json :=
  let* positive := Py.gt0 category_id in
  if positive then Py.sub category_id (JInt 1) else inr (JInt 0).

Section WithLib.

Variable L : Lib.

(** The label line of one annotation that has a [bbox] and a [category_id],
    for an image of the given width and height (lines 200 to 216). *)
Definition yolo_line (ann img_width img_height : json) : exn + string :=
  let* bbox := Py.getitem ann "bbox" in
  let* xywh := unpack4 bbox in
  let '(x, y, w, h) := xywh in
  let* half_w := Py.truediv w (JInt 2) in
  let* sum_x := Py.add x (JFloat half_w) in
  let* x_center := Py.truediv sum_x img_width in
  let* half_h := Py.truediv h (JInt 2) in
  let* sum_y := Py.add y (JFloat half_h) in
  let* y_center := Py.truediv sum_y img_height in
  let* norm_width := Py.truediv w img_width in
  let* norm_height := Py.truediv h img_height in
  let* category_id := Py.getitem ann "category_id" in
  let* class_id := class_id_of category_id in
  inr (py_str L class_id ++ " " ++ Flt.format_6f x_center ++ " "
       ++ Flt.format_6f y_center ++ " " ++ Flt.format_6f norm_width ++ " "
       ++ Flt.format_6f norm_height)%string.

(** *** The loop body over one COCO file *)

(** [all_categories[cat["id"]] = cat["name"]]: the right-hand side first. *)
Definition add_category (cats : Py.dict json) (cat : json) : exn + Py.dict json :=
  let* name := Py.getitem cat "name" in
  let* id := Py.getitem cat "id" in
  if Py.hashable id then inr (Py.dict_set id name cats)
  else inl (TypeError "unhashable").

(** The values of [image_mapping]: filename, width, height. *)
Definition img_info : Type := json * json * json.

Definition add_image (mapping : Py.dict img_info) (img : json) : exn + Py.dict img_info :=
  let* filename := Py.getitem img "file_name" in
  let* width := Py.get img "width" (JInt 640) in
  let* height := Py.get img "height" (JInt 480) in
  let* id := Py.getitem img "id" in
  if Py.hashable id then inr (Py.dict_set id (filename, width, height) mapping)
  else inl (TypeError "unhashable").

(** Group one annotation under its [image_id]. *)
Fixpoint group_add (k : json) (ann : json) (d : Py.dict (list json)) : Py.dict (list json) :=
  match d with
  | [] => [(k, [ann])]
  | (k', anns) :: d' =>
      if Py.key_eqb k k' then (k', anns ++ [ann]) :: d'
      else (k', anns) :: group_add k ann d'
  end.

Definition add_annotation (groups : Py.dict (list json)) (ann : json)
  : exn + Py.dict (list json) :=
  let* img_id := Py.getitem ann "image_id" in
  if Py.hashable img_id then inr (group_add img_id ann groups)
  else inl (TypeError "unhashable").

(** A loop whose body only returns or raises. *)
Fixpoint efold {A X : Type} (body : A -> X -> exn + A) (a : A) (l : list X) : exn + A :=
  match l with
  | [] => inr a
  | x :: l' => let* a' := body a x in efold body a' l'
  end.

(** A loop that threads a local variable through a stateful body. *)
Fixpoint loop {S A X : Type} (body : A -> X -> M S A) (a : A) (l : list X) : M S A :=
  match l with
  | [] => ret a
  | x :: l' => bind (body a x) (fun a' => loop body a' l')
  end.

(** One annotation of an image; the local is [yolo_lines]. *)
Definition convert_annotation (img_width img_height : json)
    (yolo_lines : list string) (ann : json) : M ConvState (list string) :=
  if negb (Py.has_key ann "bbox") || negb (Py.has_key ann "category_id")
  then ret yolo_lines
  else
    (line <- lift (yolo_line ann img_width img_height) ;;
     modify (fun c => {| base := base c; all_categories := all_categories c;
                         converted_annotations := (converted_annotations c + 1)%Z |}) ;;;
     ret (yolo_lines ++ [line]))%monad.

(** [Path(filename).stem + ".txt"] *)
Definition label_name (filename : json) : exn + string :=
  match filename with
  | JStr s => inr (Path.stem_of_string s ++ ".txt")%string
  | _ => inl (TypeError "Path")
  end.

(** One group of annotations: the label file of one image. *)
Definition convert_image (labels_dir : path) (image_mapping : Py.dict img_info)
    (group : json * list json) : M ConvState unit :=
  let '(img_id, annotations) := group in
  match Py.dict_find img_id image_mapping with
  | None => ret tt
  | Some (filename, img_width, img_height) =>
      (yolo_filename <- lift (label_name filename) ;;
       let yolo_path := Path.child labels_dir yolo_filename in
       yolo_lines <- loop (convert_annotation img_width img_height) [] annotations ;;
       on_base (on_fs (fs_op (fun fs =>
         FS.write_file fs yolo_path (String.concat (String "010"%char "") yolo_lines)))) ;;;
       on_base (upd_res incr_files_processed))%monad
  end.

(** The [try] block of the loop over [coco_files]. *)
Definition convert_file (labels_dir json_file : path) : M ConvState unit :=
  (s <- get ;;
   coco_data <- lift (load_json L (fs (base s)) json_file) ;;
   if negb (Py.is_dict coco_data) || negb (Py.has_key coco_data "images")
   then ret tt
   else
     (if Py.has_key coco_data "categories" then
        cats <- lift (let* v := Py.getitem coco_data "categories" in Py.iter v) ;;
        for_each cats (fun cat =>
          c <- get ;;
          d <- lift (add_category (all_categories c) cat) ;;
          put {| base := base c; all_categories := d;
                 converted_annotations := converted_annotations c |})
      else ret tt) ;;;
     imgs <- lift (let* v := Py.getitem coco_data "images" in Py.iter v) ;;
     image_mapping <- lift (efold add_image [] imgs) ;;
     if Py.has_key coco_data "annotations" then
       anns <- lift (let* v := Py.getitem coco_data "annotations" in Py.iter v) ;;
       annotations_by_image <- lift (efold add_annotation [] anns) ;;
       for_each annotations_by_image (convert_image labels_dir image_mapping)
     else ret tt)%monad.

(** The loop body over [coco_files], with its handler. *)
Definition process_coco_file (labels_dir json_file : path) : M ConvState unit :=
  try_except (convert_file labels_dir json_file)
    (fun e => on_base (upd_res (add_error
       ("COCO processing error in " ++ Path.name json_file ++ ": " ++ str_exn L e)))).

(** The loop body over [image_files]; the local is [copied_images]. *)
Definition copy_image (images_dir : path) (copied : Z) (img_file : path) : M State Z :=
  try_except
    (on_fs (fs_op (fun fs =>
       FS.copy2 fs img_file (Path.child images_dir (Path.name img_file)))) ;;;
     ret (copied + 1)%Z)%monad
    (fun _ => ret copied).

(** The text written to [classes.txt] for the sorted categories. *)
Definition classes_text (sorted_categories : list (json * json)) : string :=
  String.concat "" (map (fun kv => (py_str L (snd kv) ++ String "010"%char "")%string)
                        sorted_categories).

(** [[
    with open(classes_file, "w") as f:
        if all_categories: ... else: f.write("object\n")
    ]]
    The file exists, empty, as soon as it is opened. *)
Definition write_classes (classes_file : path) (cats : Py.dict json) : M State unit :=
  (on_fs (fs_op (fun fs => FS.write_file fs classes_file "")) ;;;
   text <- (match cats with
            | [] => ret ("object" ++ String "010"%char "")%string
            | _ :: _ =>
                sorted_categories <- lift (sorted_items L cats) ;;
                ret (classes_text sorted_categories)
            end) ;;
   on_fs (fs_op (fun fs => FS.write_file fs classes_file text)))%monad.

(** The [try] block of [convert_coco_to_yolo]. *)
Definition convert_body (input_path output_path : path) : M ConvState bool :=
  (let images_dir := Path.child output_path "images" in
   let labels_dir := Path.child output_path "labels" in
   on_base (on_fs (fs_op (fun fs => FS.mkdir_parents fs output_path))) ;;;
   on_base (on_fs (fs_op (fun fs => FS.mkdir fs images_dir))) ;;;
   on_base (on_fs (fs_op (fun fs => FS.mkdir fs labels_dir))) ;;;
   s <- get ;;
   coco_files <- lift (glob L (fs (base s)) input_path (Star ".json")) ;;
   match coco_files with
   | [] =>
       on_base (upd_res (add_warning "No JSON files found")) ;;;
       ret true
   | _ :: _ =>
       for_each coco_files (process_coco_file labels_dir) ;;;
       s <- get ;;
       image_files <- lift (collect_images L (fs (base s)) input_path (set_order L)) ;;
       copied_images <- on_base (loop (copy_image images_dir) 0%Z image_files) ;;
       s <- get ;;
       on_base (write_classes (Path.child output_path "classes.txt") (all_categories s)) ;;;
       on_base (upd_res (set_converted (converted_annotations s) copied_images)) ;;;
       ret true
   end)%monad.

(** The handler of [convert_coco_to_yolo]. *)
Definition convert_handler (output_path : path) (e : exn) : M State bool :=
  (upd_res (add_error ("Conversion error: " ++ str_exn L e)) ;;;
   on_fs (fs_op (fun fs => FS.mkdir_parents fs output_path)) ;;;
   on_fs (fs_op (fun fs => FS.mkdir fs (Path.child output_path "images"))) ;;;
   on_fs (fs_op (fun fs => FS.mkdir fs (Path.child output_path "labels"))) ;;;
   ret false)%monad.

(** The [try] block on the shared state: the locals start empty and are
    dropped at the end. *)
Definition run_body (input_path output_path : path) : M State bool :=
  fun s =>
    match convert_body input_path output_path
            {| base := s; all_categories := []; converted_annotations := 0 |} with
    | Ok b c => Ok b (base c)
    | Raise e c => Raise e (base c)
    end.

Definition convert_coco_to_yolo (input_path output_path : path) : M State bool :=
  try_except (run_body input_path output_path) (convert_handler output_path).

(** *** The direct copy *)

Definition count {A} (l : list A) : Z := Z.of_nat (List.length l).

Definition mismatch_warning (input_files output_files : Z) : string :=
  "File count mismatch: input=" ++ Str.of_Z input_files
    ++ ", output=" ++ Str.of_Z output_files.

(** "Verify the copy was successful": the inner [try] with its handler. *)
Definition verify_copy (input_path output_path : path) : M State unit :=
  try_except
    (s <- get ;;
     ins <- lift (glob L (fs s) input_path RStar) ;;
     outs <- lift (glob L (fs s) output_path RStar) ;;
     let input_files := count ins in
     let output_files := count outs in
     upd_res (set_copied input_files output_files) ;;;
     if negb (input_files =? output_files)%Z
     then upd_res (add_warning (mismatch_warning input_files output_files))
     else ret tt)%monad
    (fun e => upd_res (add_warning ("Could not verify file counts: " ++ str_exn L e))).

Definition copy_yolo_data_directly (input_path output_path : path) : M State bool :=
  try_except
    (s <- get ;;
     (if FS.exists_ (fs s) output_path
      then on_fs (fs_op' (fun fs => FS.rmtree fs output_path))
      else ret tt) ;;;
     on_fs (fs_op' (fun fs => FS.copytree fs input_path output_path)) ;;;
     verify_copy input_path output_path ;;;
     ret true)%monad
    (fun e =>
       (upd_res (add_error ("Copy error: " ++ str_exn L e)) ;;;
        on_fs (fs_op (fun fs => FS.mkdir_parents fs output_path)) ;;;
        ret false)%monad).

(** *** [process_data] *)

(** The decision used when the decision file is missing or unreadable. *)
Definition default_format_info : json :=
  JObj [("detected_format", JStr "unknown");
        ("confidence", JFloat 0);
        ("conversion_needed", JBool true)].

(** "Load format detection results with error handling" *)
Definition load_format_info (fs : node) (detected_format : path) : json :=
  if negb (FS.os_path_exists fs detected_format) then default_format_info
  else
    match load_json L fs detected_format with
    | inr v => v
    | inl _ => default_format_info
    end.

Definition initial_results (fmt : json) : ProcessingResults :=
  {| processing_type := "none"; success := false; detected_format := fmt;
     files_processed := 0; errors := []; warnings := [];
     timestamp := now_isoformat L;
     annotations_converted := None; images_copied := None; files_copied := None |}.

(** [[
    with open(processing_report, "w") as f:
        json.dump(processing_results, f, indent=2)
    ]] *)
Definition write_report (processing_report : path) : M State unit :=
  (s <- get ;;
   on_fs (fs_op (fun fs =>
     FS.write_file fs processing_report (json_dump L (results_json (res s))))))%monad.

(** [process_data] from line 61 on, with the dict initialised. *)
Definition process (input_path output_path processing_report : path) (format_info : json)
  : M State unit :=
  (s <- get ;;
   if negb (FS.exists_ (fs s) input_path) then
     upd_res (add_error "Input path not found") ;;;
     on_fs (fs_op (fun fs => FS.mkdir_parents fs output_path)) ;;;
     write_report processing_report
   else
     detected_format_type <- lift (Py.get format_info "detected_format" (JStr "unknown")) ;;
     (match detected_format_type with
      | JStr "coco" =>
          upd_res (set_processing_type "coco_to_yolo_conversion") ;;;
          ok <- convert_coco_to_yolo input_path output_path ;;
          upd_res (set_success ok)
      | JStr "yolo" =>
          upd_res (set_processing_type "yolo_direct_copy") ;;;
          ok <- copy_yolo_data_directly input_path output_path ;;
          upd_res (set_success ok)
      | _ =>
          upd_res (set_processing_type "unknown_format") ;;;
          upd_res (add_warning ("Unsupported format: " ++ py_str L detected_format_type)) ;;;
          on_fs (fs_op (fun fs => FS.mkdir_parents fs output_path)) ;;;
          upd_res (set_success true)
      end) ;;;
     try_except
       (on_fs (fs_op (fun fs => FS.os_makedirs fs (Path.parent processing_report))) ;;;
        write_report processing_report)
       (fun _ => ret tt))%monad.

(** [process_data]: the state is the file system; the dict
    [processing_results] is created at line 65, where
    [format_info.get] raises when the decision is not a dict. *)
Definition process_data (input_data detected_format output_data processing_report : path)
  : M node ProcessingResults :=
  fun fs0 =>
    let format_info := load_format_info fs0 detected_format in
    match Py.get format_info "detected_format" (JStr "unknown") with
    | inl e => Raise e fs0
    | inr fmt =>
        match process input_data output_data processing_report format_info
                {| fs := fs0; res := initial_results fmt |} with
        | Ok _ s => Ok (res s) (fs s)
        | Raise e s => Raise e (fs s)
        end
    end.

End WithLib.

End Processor.

(** ** Reference implementations of the library functions

    Used by the worked examples.  They follow CPython on ASCII input: JSON
    text without [\u] escapes above 127, numbers without digit separators. *)

Module Ref.

Local Open Scope string_scope.

(** The double quote character. *)
Definition dquote : ascii := ascii_of_nat 34.

(** *** Decimal text to float *)

(** The float nearest to [digits * 10^exp10]. *)
Definition of_decimal (neg : bool) (digits exp10 : Z) : float :=
  let magnitude := (exp10 + Z.log2 digits * 30103 / 100000)%Z in
  let f :=
    if (digits =? 0)%Z then zero
    else if (320 <? magnitude)%Z then infinity
    else if (magnitude <? -340)%Z then zero
    else if (0 <=? exp10)%Z then Flt.of_scaled (digits * 10 ^ exp10) 0
    else Flt.nearest_quotient digits (10 ^ (- exp10)) in
  if neg then (- f)%float else f.

Definition is_digit (c : ascii) : bool :=
  let n := nat_of_ascii c in (48 <=? n)%nat && (n <=? 57)%nat.

Definition digit_val (c : ascii) : Z := Z.of_nat (nat_of_ascii c - 48).

(** Read a run of digits: the number read after [acc], how many digits, and
    the rest. *)
Fixpoint take_digits (cs : list ascii) (acc : Z) (n : Z) : Z * Z * list ascii :=
  match cs with
  | c :: cs' =>
      if is_digit c then take_digits cs' (10 * acc + digit_val c)%Z (n + 1)%Z
      else (acc, n, cs)
  | [] => (acc, n, cs)
  end.

Definition take_sign (cs : list ascii) : bool * list ascii :=
  match cs with
  | "-"%char :: cs' => (true, cs')
  | "+"%char :: cs' => (false, cs')
  | _ => (false, cs)
  end.

(** An optional exponent part; [None] when it is malformed. *)
Definition take_exponent (cs : list ascii) : option (Z * list ascii) :=
  match cs with
  | c :: cs' =>
      if Ascii.eqb c "e" || Ascii.eqb c "E" then
        let '(neg, cs1) := take_sign cs' in
        let '(e, n, rest) := take_digits cs1 0 0 in
        if (n =? 0)%Z then None else Some (if neg then (- e)%Z else e, rest)
      else Some (0%Z, cs)
  | [] => Some (0%Z, cs)
  end.

(** [float(s)] for a stripped string [s]. *)
Definition py_float (s : string) : exn + float :=
  let bad := inl (ValueError ("could not convert string to float: " ++ s)) in
  let '(neg, cs) := take_sign (list_ascii_of_string s) in
  let word := Str.lower (string_of_list_ascii cs) in
  if String.eqb word "inf" || String.eqb word "infinity"
  then inr (if neg then neg_infinity else infinity)
  else if String.eqb word "nan" then inr nan
  else
    let '(ip, n1, r1) := take_digits cs 0 0 in
    let '(all, n2, r2) :=
      match r1 with
      | "."%char :: r => take_digits r ip 0
      | _ => (ip, 0%Z, r1)
      end in
    if (n1 + n2 =? 0)%Z then bad
    else
      match take_exponent r2 with
      | Some (e, []) => inr (of_decimal neg all (e - n2))
      | _ => bad
      end.

(** *** [repr] of a float: the shortest decimal that reads back as it *)

(** Does [c * 10^s], as the fraction [cn / cd], round to the float
    [m * 2^e]?  The fraction must lie between the midpoints to the two
    neighbouring floats, the midpoints included when [m] is even. *)
Definition in_rounding_interval (m e : Z) (cn cd : Z) : bool :=
  (* work in units of 2^(e-2): the float is 4m, the upper midpoint 4m + 2,
     the lower one 4m - 2, or 4m - 1 just above a power of two *)
  let low := if (m =? 2 ^ 52)%Z && (-1074 <? e)%Z then (4 * m - 1)%Z else (4 * m - 2)%Z in
  let high := (4 * m + 2)%Z in
  (* the candidate in the same units is cn / (cd * 2^(e-2)) *)
  let '(n, d) := if (2 <=? e)%Z then (cn, cd * 2 ^ (e - 2))%Z
                 else (cn * 2 ^ (2 - e), cd)%Z in
  if Z.even m then (low * d <=? n)%Z && (n <=? high * d)%Z
  else (low * d <? n)%Z && (n <? high * d)%Z.

(** The candidate with [n] significant digits nearest to [m * 2^e], when one
    reads back as the float: its digits as an integer and the power of ten
    of its last digit. *)
Definition candidate (m e : Z) (sci : Z) (n : Z) : option (Z * Z) :=
  let s := (sci - n + 1)%Z in
  (* the float and the unit 10^s as fractions over a common denominator *)
  let '(vn, vd) := if (0 <=? e)%Z then (m * 2 ^ e, 1)%Z else (m, 2 ^ (- e))%Z in
  let '(un, ud) := if (0 <=? s)%Z then (10 ^ s, 1)%Z else (1, 10 ^ (- s))%Z in
  let lo := ((vn * ud) / (vd * un))%Z in
  let hi := (lo + 1)%Z in
  let ok c := in_rounding_interval m e (c * un) ud in
  (* twice the distance of the float to lo and to hi, in units *)
  let below := (2 * (vn * ud - lo * vd * un))%Z in
  let whole := (2 * vd * un)%Z in
  let prefer_lo := (below * 2 <? whole)%Z || ((below * 2 =? whole)%Z && Z.even lo) in
  match ok lo, ok hi with
  | true, true => Some (if prefer_lo then lo else hi, s)
  | true, false => Some (lo, s)
  | false, true => Some (hi, s)
  | false, false => None
  end.

Fixpoint shortest (m e sci : Z) (n : Z) (fuel : nat) : Z * Z :=
  match fuel with
  | O => (0%Z, 0%Z)
  | S fuel' =>
      match candidate m e sci n with
      | Some r => r
      | None => shortest m e sci (n + 1) fuel'
      end
  end.

(** The power of ten of the first digit of [m * 2^e]. *)
Definition sci_exponent (m e : Z) : Z :=
  let est := ((Z.log2 m + e) * 30103 / 100000)%Z in
  let ge10 (k : Z) : bool := (* 10^k <= m * 2^e *)
    let '(vn, vd) := if (0 <=? e)%Z then (m * 2 ^ e, 1)%Z else (m, 2 ^ (- e))%Z in
    if (0 <=? k)%Z then (10 ^ k * vd <=? vn)%Z else (vd <=? vn * 10 ^ (- k))%Z in
  if ge10 (est + 1)%Z then (est + 1)%Z
  else if ge10 est then est
  else (est - 1)%Z.

Fixpoint strip_zeros (fuel : nat) (d s : Z) : Z * Z :=
  match fuel with
  | O => (d, s)
  | S fuel' =>
      if (d mod 10 =? 0)%Z && negb (d =? 0)%Z then strip_zeros fuel' (d / 10)%Z (s + 1)%Z
      else (d, s)
  end.

(** [repr] of the positive float [m * 2^e]. *)
Definition repr_finite (m e : Z) : string :=
  let '(d0, s0) := shortest m e (sci_exponent m e) 1 17 in
  let '(d, s) := strip_zeros 20 d0 s0 in
  let digits := Str.of_N d in
  let nd := Z.of_nat (String.length digits) in
  let sci := (s + nd - 1)%Z in
  if (-4 <=? sci)%Z && (sci <? 16)%Z then
    if (0 <=? s)%Z then digits ++ Str.repeat_char "0" (Z.to_nat s) ++ ".0"
    else if (0 <=? sci)%Z then
      substring 0 (Z.to_nat (sci + 1)) digits ++ "."
        ++ substring (Z.to_nat (sci + 1)) (Z.to_nat (nd - sci - 1)) digits
    else "0." ++ Str.repeat_char "0" (Z.to_nat (- sci - 1)) ++ digits
  else
    substring 0 1 digits
      ++ (if (1 <? nd)%Z then "." ++ substring 1 (Z.to_nat (nd - 1)) digits else "")
      ++ "e" ++ (if (sci <? 0)%Z then "-" else "+")
      ++ Str.pad_left "0" 2 (Str.of_N (Z.abs sci)).

(** [repr(x)] for a float. *)
Definition repr_float (x : float) : string :=
  match Prim2SF x with
  | S754_nan => "nan"
  | S754_infinity s => if s then "-inf" else "inf"
  | S754_zero s => if s then "-0.0" else "0.0"
  | S754_finite s m e => (if s then "-" else "") ++ repr_finite (Zpos m) e
  end.

(** *** [json.load] *)

Definition is_json_space (c : ascii) : bool :=
  let n := nat_of_ascii c in
  (n =? 32)%nat || (n =? 9)%nat || (n =? 10)%nat || (n =? 13)%nat.

Fixpoint skip_ws (cs : list ascii) : list ascii :=
  match cs with
  | c :: cs' => if is_json_space c then skip_ws cs' else cs
  | [] => []
  end.

Fixpoint starts_with (pre cs : list ascii) : option (list ascii) :=
  match pre, cs with
  | [], _ => Some cs
  | p :: pre', c :: cs' => if Ascii.eqb p c then starts_with pre' cs' else None
  | _ :: _, [] => None
  end.

Definition hex_val (c : ascii) : option nat :=
  let n := nat_of_ascii c in
  if (48 <=? n)%nat && (n <=? 57)%nat then Some (n - 48)
  else if (97 <=? n)%nat && (n <=? 102)%nat then Some (n - 87)
  else if (65 <=? n)%nat && (n <=? 70)%nat then Some (n - 55)
  else None.

(** The characters of a string literal after its opening quote. *)
Fixpoint parse_string (cs : list ascii) (acc : string) : option (string * list ascii) :=
  match cs with
  | [] => None
  | c :: cs' =>
      if Ascii.eqb c dquote then Some (acc, cs')
      else if Ascii.eqb c "\"%char then
        match cs' with
        | e :: cs'' =>
            let simple (d : ascii) := parse_string cs'' (acc ++ String d "") in
            if Ascii.eqb e "n" then simple "010"%char
            else if Ascii.eqb e "t" then simple "009"%char
            else if Ascii.eqb e "r" then simple "013"%char
            else if Ascii.eqb e "b" then simple "008"%char
            else if Ascii.eqb e "f" then simple "012"%char
            else if Ascii.eqb e "/" then simple "/"%char
            else if Ascii.eqb e "\" then simple "\"%char
            else if Ascii.eqb e dquote then simple dquote
            else None
        | [] => None
        end
      else if (nat_of_ascii c <? 32)%nat then None
      else parse_string cs' (acc ++ String c "")
  end.

(** A number: an int without fraction and exponent, else a float. *)
Definition parse_number (cs : list ascii) : option (json * list ascii) :=
  let '(neg, cs0) := match cs with
                     | "-"%char :: r => (true, r)
                     | _ => (false, cs)
                     end in
  let '(ip, n1, r1) := take_digits cs0 0 0 in
  let leading_zero := match cs0 with "0"%char :: _ => (1 <? n1)%Z | _ => false end in
  if (n1 =? 0)%Z || leading_zero then None
  else
    let frac :=
      match r1 with
      | "."%char :: r =>
          let '(all, n2, r2) := take_digits r ip 0 in
          if (n2 =? 0)%Z then None else Some (all, n2, r2)
      | _ => Some (ip, 0%Z, r1)
      end in
    match frac with
    | None => None
    | Some (all, n2, r2) =>
        let has_exp := match r2 with
                       | c :: _ => Ascii.eqb c "e" || Ascii.eqb c "E"
                       | [] => false
                       end in
        if (n2 =? 0)%Z && negb has_exp
        then Some (JInt (if neg then (- ip)%Z else ip), r2)
        else
          match take_exponent r2 with
          | Some (e, rest) => Some (JFloat (of_decimal neg all (e - n2)), rest)
          | None => None
          end
    end.

(** [d[k] = v] while an object is read: a repeated key keeps its place. *)
Fixpoint set_member (k : string) (v : json) (kvs : list (string * json)) : list (string * json) :=
  match kvs with
  | [] => [(k, v)]
  | (k', v') :: kvs' =>
      if String.eqb k k' then (k', v) :: kvs' else (k', v') :: set_member k v kvs'
  end.

Definition lit (s : string) : list ascii := list_ascii_of_string s.

Fixpoint parse_value (fuel : nat) (cs : list ascii) : option (json * list ascii) :=
  match fuel with
  | O => None
  | S fuel' =>
      match skip_ws cs with
      | [] => None
      | c :: r =>
          if Ascii.eqb c "{" then
            match skip_ws r with
            | "}"%char :: r' => Some (JObj [], r')
            | r' => parse_members fuel' r' []
            end
          else if Ascii.eqb c "[" then
            match skip_ws r with
            | "]"%char :: r' => Some (JList [], r')
            | r' => parse_items fuel' r' []
            end
          else if Ascii.eqb c dquote then
            match parse_string r "" with
            | Some (s, r') => Some (JStr s, r')
            | None => None
            end
          else
            let cs' := c :: r in
            match starts_with (lit "true") cs' with Some r => Some (JBool true, r) | None =>
            match starts_with (lit "false") cs' with Some r => Some (JBool false, r) | None =>
            match starts_with (lit "null") cs' with Some r => Some (JNull, r) | None =>
            match starts_with (lit "NaN") cs' with Some r => Some (JFloat nan, r) | None =>
            match starts_with (lit "Infinity") cs' with Some r => Some (JFloat infinity, r) | None =>
            match starts_with (lit "-Infinity") cs' with Some r => Some (JFloat neg_infinity, r) | None =>
            parse_number cs'
            end end end end end end
      end
  end
with parse_items (fuel : nat) (cs : list ascii) (acc : list json) : option (json * list ascii) :=
  match fuel with
  | O => None
  | S fuel' =>
      match parse_value fuel' cs with
      | Some (v, r) =>
          match skip_ws r with
          | ","%char :: r' => parse_items fuel' r' (acc ++ [v])
          | "]"%char :: r' => Some (JList (acc ++ [v]), r')
          | _ => None
          end
      | None => None
      end
  end
with parse_members (fuel : nat) (cs : list ascii) (acc : list (string * json))
  : option (json * list ascii) :=
  match fuel with
  | O => None
  | S fuel' =>
      match skip_ws cs with
      | q :: r =>
          if negb (Ascii.eqb q dquote) then None else
          match parse_string r "" with
          | Some (k, r1) =>
              match skip_ws r1 with
              | ":"%char :: r2 =>
                  match parse_value fuel' r2 with
                  | Some (v, r3) =>
                      match skip_ws r3 with
                      | ","%char :: r4 => parse_members fuel' r4 (set_member k v acc)
                      | "}"%char :: r4 => Some (JObj (set_member k v acc), r4)
                      | _ => None
                      end
                  | None => None
                  end
              | _ => None
              end
          | None => None
          end
      | [] => None
      end
  end.

(** [json.loads(text)] *)
Definition json_load (text : string) : exn + json :=
  let cs := list_ascii_of_string text in
  match parse_value (S (List.length cs)) cs with
  | Some (v, rest) =>
      match skip_ws rest with
      | [] => inr v
      | _ => inl (JSONDecodeError "Extra data")
      end
  | None => inl (JSONDecodeError "Expecting value")
  end.

(** *** [json.dump(v, f, indent=2)] *)

Definition hex_digit (n : nat) : ascii :=
  if (n <? 10)%nat then ascii_of_nat (48 + n) else ascii_of_nat (87 + n).

Definition escape_char (c : ascii) : string :=
  let n := nat_of_ascii c in
  if Ascii.eqb c dquote then String "\" (String dquote "")
  else if Ascii.eqb c "\" then "\\"
  else if (n =? 10)%nat then "\n"
  else if (n =? 13)%nat then "\r"
  else if (n =? 9)%nat then "\t"
  else if (n =? 8)%nat then "\b"
  else if (n =? 12)%nat then "\f"
  else if (n <? 32)%nat || (126 <? n)%nat
  then "\u00" ++ String (hex_digit (n / 16)) (String (hex_digit (n mod 16)) "")
  else String c "".

Fixpoint escape (s : string) : string :=
  match s with
  | EmptyString => ""
  | String c s' => escape_char c ++ escape s'
  end.

Definition quote (s : string) : string :=
  String dquote (escape s ++ String dquote "").

Definition json_float (x : float) : string :=
  if is_nan x then "NaN"
  else if (x =? infinity)%float then "Infinity"
  else if (x =? neg_infinity)%float then "-Infinity"
  else repr_float x.

Definition newline : string := String "010"%char "".

Definition indent (depth : nat) : string := Str.repeat_char " " (2 * depth).

Fixpoint dumps (depth : nat) (v : json) : string :=
  match v with
  | JNull => "null"
  | JBool b => if b then "true" else "false"
  | JInt z => Str.of_Z z
  | JFloat x => json_float x
  | JStr s => quote s
  | JList [] => "[]"
  | JList items =>
      "[" ++ newline ++ indent (S depth)
        ++ String.concat ("," ++ newline ++ indent (S depth)) (map (dumps (S depth)) items)
        ++ newline ++ indent depth ++ "]"
  | JObj [] => "{}"
  | JObj kvs =>
      "{" ++ newline ++ indent (S depth)
        ++ String.concat ("," ++ newline ++ indent (S depth))
             (map (fun kv => quote (fst kv) ++ ": " ++ dumps (S depth) (snd kv)) kvs)
        ++ newline ++ indent depth ++ "}"
  end.

Definition json_dump (v : json) : string := dumps 0 v.

(** *** [str] and [repr] *)

Definition py_quote (s : string) : string := "'" ++ s ++ "'".

(** [repr(v)]; strings are quoted without escapes. *)
Fixpoint py_repr (v : json) : string :=
  match v with
  | JNull => "None"
  | JBool b => if b then "True" else "False"
  | JInt z => Str.of_Z z
  | JFloat x => repr_float x
  | JStr s => py_quote s
  | JList items => "[" ++ String.concat ", " (map py_repr items) ++ "]"
  | JObj kvs =>
      "{" ++ String.concat ", "
               (map (fun kv => py_quote (fst kv) ++ ": " ++ py_repr (snd kv)) kvs) ++ "}"
  end.

Definition errno (n : string) (what : string) (p : path) : string :=
  "[Errno " ++ n ++ "] " ++ what ++ ": " ++ py_quote (String.concat "/" p).

(** [str(e)] *)
Definition str_exn (e : exn) : string :=
  match e with
  | FileNotFoundError p => errno "2" "No such file or directory" p
  | FileExistsError p => errno "17" "File exists" p
  | IsADirectoryError p => errno "21" "Is a directory" p
  | NotADirectoryError p => errno "20" "Not a directory" p
  | SameFileError p => py_quote (Path.str p) ++ " and " ++ py_quote (Path.str p)
                         ++ " are the same file"
  | OSError msg => msg
  | ShutilError p => "copytree failed below " ++ py_quote (Path.str p)
  | JSONDecodeError msg => msg
  | KeyError k => py_quote k
  | TypeError what => "unsupported operand: " ++ what
  | ValueError what => what
  | AttributeError what => "object has no attribute " ++ py_quote what
  | ZeroDivisionError => "division by zero"
  | OverflowError => "int too large to convert to float"
  end.

(** *** [sorted] *)

(** A number as a fraction, for exact comparison; [None] for NaN and the
    infinities. *)
Definition fraction (n : Py.num) : option (Z * Z) :=
  match n with
  | Py.NInt z => Some (z, 1%Z)
  | Py.NFloat x =>
      match Prim2SF x with
      | S754_zero _ => Some (0%Z, 1%Z)
      | S754_finite s m e =>
          let v := if s then Zneg m else Zpos m in
          Some (if (0 <=? e)%Z then (v * 2 ^ e, 1)%Z else (v, 2 ^ (- e))%Z)
      | _ => None
      end
  end.

(** [a < b] on keys; a TypeError between a string and a number. *)
Definition key_ltb (a b : json) : exn + bool :=
  match a, b with
  | JStr s, JStr t => inr (match String.compare s t with Lt => true | _ => false end)
  | _, _ =>
      match Py.as_num a, Py.as_num b with
      | Some x, Some y =>
          match fraction x, fraction y with
          | Some (xn, xd), Some (yn, yd) => inr (xn * yd <? yn * xd)%Z
          | _, _ =>
              match Py.to_float x, Py.to_float y with
              | inr fx, inr fy => inr (fx <? fy)%float
              | _, _ => inl OverflowError
              end
          end
      | _, _ => inl (TypeError "<")
      end
  end.

Fixpoint insert_sorted (kv : json * json) (l : list (json * json)) : exn + list (json * json) :=
  match l with
  | [] => inr [kv]
  | kv' :: l' =>
      let* smaller := key_ltb (fst kv) (fst kv') in
      if smaller then inr (kv :: l)
      else let* rest := insert_sorted kv l' in inr (kv' :: rest)
  end.

(** [sorted(d.items())]: a stable insertion sort on the keys, which are
    distinct. *)
Definition sorted_items (items : list (json * json)) : exn + list (json * json) :=
  fold_right (fun kv acc => let* l := acc in insert_sorted kv l) (inr []) items.

(** *** The reference library *)

Definition lib : Lib :=
  Build_Lib json_load json_dump str_exn py_float py_repr
    image_extensions            (* the set is iterated in the order written *)
    sorted_items
    "2024-01-01T00:00:00"       (* the clock *)
    (fun _ _ => None).          (* no I/O fault *)

End Ref.

(** ** Worked examples: documents and file systems *)

Module Examples.

Local Open Scope string_scope.

(** A COCO document: one 100 x 200 image, one annotation, one category. *)
Definition coco_doc : json :=
  JObj [("images",
         JList [JObj [("id", JInt 1); ("file_name", JStr "a.jpg");
                      ("width", JInt 100); ("height", JInt 200)]]);
        ("annotations",
         JList [JObj [("image_id", JInt 1); ("category_id", JInt 1);
                      ("bbox", JList [JInt 10; JInt 20; JInt 30; JInt 40])]]);
        ("categories",
         JList [JObj [("id", JInt 1); ("name", JStr "cat")]])].

(** The text of a JSON file holding [v]. *)
Definition text_of (v : json) : string := Ref.json_dump v.

(** An input directory and a decision file that holds the JSON array [[]]. *)
Definition fs_array_decision : node :=
  Dir [("data", Dir [("a.jpg", File "")]);
       ("work", Dir [("format.json", File "[]")])].

(** A missing input directory; the report is to go to a directory that does
    not exist yet. *)
Definition fs_missing_input : node := Dir [("work", Dir [])].

(** One COCO file at the top of the input directory. *)
Definition fs_one_coco : node :=
  Dir [("data", Dir [("instances.json", File (text_of coco_doc))]);
       ("reports", Dir [])].

(** Two images at the top of the input directory, each with a label file
    holding one valid YOLO line. *)
Definition fs_two_images : node :=
  Dir [("data",
        Dir [("a.jpg", File ""); ("a.txt", File "0 0.5 0.5 0.2 0.2");
             ("b.jpg", File ""); ("b.txt", File "1 0.1 0.1 0.3 0.3")])].

(** Only a classes file at the top of the input directory. *)
Definition fs_classes_only : node :=
  Dir [("data", Dir [("classes.txt", File "cat")])].

(** Only a file named [obj.names] at the top of the input directory. *)
Definition fs_obj_names : node :=
  Dir [("data", Dir [("obj.names", File "cat")])].

(** Nineteen plain files at the top and one COCO file in a subdirectory. *)
Definition fs_many_files : node :=
  Dir [("data",
        Dir (map (fun n => ("f" ++ Str.of_Z (Z.of_nat n) ++ ".dat", File "")) (seq 1 19)
             ++ [("annotations", Dir [("instances.json", File (text_of coco_doc))])]))].

(** The COCO annotations in a subdirectory, an unrelated JSON file at the
    top, and the decision the detector writes for this directory. *)
Definition fs_nested_coco : node :=
  Dir [("data",
        Dir [("notes.json", File "{}");
             ("annotations", Dir [("instances.json", File (text_of coco_doc))])]);
       ("work", Dir [])].

Definition fs_nested_coco_detected : node :=
  match Detector.detect_data_format Ref.lib ["data"] ["work"; "format.json"]
          ["work"; "format_report.json"] fs_nested_coco with
  | Ok _ fs' => fs'
  | Raise _ fs' => fs'
  end.

(** The annotations in a subdirectory and no JSON file at the top. *)
Definition fs_nested_only : node :=
  Dir [("data",
        Dir [("annotations", Dir [("instances.json", File (text_of coco_doc))])]);
       ("work", Dir [("format.json", File (text_of (JObj [("detected_format", JStr "coco")])))])].

(** A YOLO dataset, a stale output directory, and the decision [yolo]. *)
Definition fs_yolo : node :=
  Dir [("data",
        Dir [("classes.txt", File "cat");
             ("train", Dir [("a.jpg", File "IMG"); ("a.txt", File "0 0.5 0.5 0.2 0.2")])]);
       ("out", Dir [("stale.txt", File "old")]);
       ("work", Dir [("format.json", File (text_of (JObj [("detected_format", JStr "yolo")])))])].

(** Two files named [*.json] that are not JSON. *)
Definition fs_bad_json : node :=
  Dir [("data", Dir [("a.json", File "not json"); ("b.json", File "{")])].

(** The same input, and an output directory in which [classes.txt] is a
    directory. *)
Definition fs_blocked_classes : node :=
  Dir [("data", Dir [("a.json", File "not json"); ("b.json", File "{")]);
       ("out", Dir [("classes.txt", Dir [])])].

(** The state of the processor when it enters a conversion or a copy. *)
Definition state_of (fs : node) (fmt : string) : Processor.State :=
  {| Processor.fs := fs;
     Processor.res := Processor.initial_results Ref.lib (JStr fmt) |}.

(** An annotation of [coco_doc]. *)
Definition annotation : json :=
  JObj [("image_id", JInt 1); ("category_id", JInt 1);
        ("bbox", JList [JInt 10; JInt 20; JInt 30; JInt 40])].

(** A library whose scan of the input directory for JSON files fails. *)
Definition faulty_lib : Lib :=
  Build_Lib Ref.json_load Ref.json_dump Ref.str_exn Ref.py_float Ref.py_repr
    image_extensions Ref.sorted_items "2024-01-01T00:00:00"
    (fun p pat => match pat with
                  | Star ".json" => Some (OSError "[Errno 5] Input/output error")
                  | _ => None
                  end).

End Examples.

(** ** The scores and the decision, as functions of the input tree *)

Module Scores.

Section WithLib.

Variable L : Lib.

Definition ends (ext : string) : string -> bool := fun n => Str.ends_with n ext.

(** [json_files]: the top-level glob followed by the recursive one. *)
Definition json_files (fs : node) (p : path) : list path :=
  FS.glob_here (ends ".json") fs p ++ FS.glob_rec (ends ".json") fs p.

(** [txt_files] *)
Definition txt_files (fs : node) (p : path) : list path :=
  FS.glob_here (ends ".txt") fs p ++ FS.glob_rec (ends ".txt") fs p.

(** [image_files], for the extensions in the order [exts]. *)
Definition image_files_for (exts : list string) (fs : node) (p : path) : list path :=
  flat_map (fun ext => FS.glob_here (ends ext) fs p ++ FS.glob_rec (ends ext) fs p) exts.

Definition image_files (fs : node) (p : path) : list path :=
  image_files_for (set_order L) fs p.

Definition total (l : list Z) : Z := fold_right Z.add 0%Z l.

(** The final [coco_indicators]. *)
Definition coco_score (fs : node) (p : path) : Z :=
  total (map (Detector.coco_contribution L fs) (json_files fs p)).

(** The test of the loop over [txt_files]. *)
Definition is_classes_file (f : path) : bool :=
  Str.mem (Str.lower (Path.name f)) Detector.classes_names.

(** What the loop over [txt_files] adds to [yolo_indicators]. *)
Definition classes_score (fs : node) (p : path) : Z :=
  total (map (fun f => if is_classes_file f then 2%Z else 0%Z) (txt_files fs p)).

(** The final [yolo_annotation_count]. *)
Definition yolo_annotation_count (fs : node) (p : path) : Z :=
  fold_left (Detector.scan_image L fs) (firstn 10 (image_files fs p)) 0%Z.

(** What the annotated images add to [yolo_indicators]. *)
Definition annotation_score (n : Z) : Z :=
  if (3 <=? n)%Z then 3%Z else if (0 <? n)%Z then 1%Z else 0%Z.

(** The final [yolo_indicators]. *)
Definition yolo_score (fs : node) (p : path) : Z :=
  (classes_score fs p + annotation_score (yolo_annotation_count fs p))%Z.

End WithLib.

(** *** The decision rule in the words of the specification (4.1, step 5) *)

Inductive decision : Type := Coco | Yolo | Unknown.

(** "If coco_score >= yolo_score AND coco_score >= 2 -> coco; else if
    yolo_score >= 2 -> yolo; else unknown." *)
Definition decision_of (coco_score yolo_score : Z) : decision :=
  if (yolo_score <=? coco_score)%Z && (2 <=? coco_score)%Z then Coco
  else if (2 <=? yolo_score)%Z then Yolo
  else Unknown.

Definition format_name (d : decision) : string :=
  match d with Coco => "coco" | Yolo => "yolo" | Unknown => "unknown" end.

(** "confidence = min(0.9, 0.3 + score x 0.15)", in binary64. *)
Definition confidence_formula (score : Z) : float :=
  Flt.py_min 0.9 (0.3 + Flt.of_scaled score 0 * 0.15)%float.

Definition decision_confidence (coco_score yolo_score : Z) : float :=
  match decision_of coco_score yolo_score with
  | Coco => confidence_formula coco_score
  | Yolo => confidence_formula yolo_score
  | Unknown => 0%float
  end.

Definition decision_conversion_needed (d : decision) : bool :=
  match d with Coco => true | Yolo => false | Unknown => true end.

Definition decision_skip_conversion (d : decision) : bool :=
  match d with Coco => false | Yolo => true | Unknown => false end.

End Scores.

(** ** The state a computation ends in, whether it returns or raises *)

Definition final {S A : Type} (o : outcome S A) : S :=
  match o with
  | Ok _ s => s
  | Raise _ s => s
  end.

(** ** Paths that do not contain one another *)

Definition apart (p q : path) : Prop :=
  Path.is_prefix p q = false /\ Path.is_prefix q p = false.

(** A place where a directory can be put: a directory is there already, or
    nothing is there and no file stands on the way to it. *)
Definition can_hold_directory (fs : node) (out : path) : Prop :=
  FS.is_dir fs out = true
  \/ (FS.exists_ fs out = false
      /\ forall q, Path.is_prefix q out = true -> FS.is_file fs q = false).

(** A computation that can only return [v]. *)
Definition returns_only {S A : Type} (v : A) (m : M S A) : Prop :=
  forall s a s', m s = Ok a s' -> a = v.

(** ** The label line in the words of the specification (4.2.1) *)

Module LabelSpec.

Section WithLib.

Variable L : Lib.

(** "x_center = (x + w/2) / img_width", "y_center = (y + h/2) / img_height" *)
Definition center (x w size : json) : exn + float :=
  let* half := Py.truediv w (JInt 2) in
  let* sum := Py.add x (JFloat half) in
  Py.truediv sum size.

(** "norm_w = w/img_width", "norm_h = h/img_height" *)
Definition norm (w size : json) : exn + float := Py.truediv w size.

(** "class_id = category_id - 1 when category_id > 0 and 0 otherwise" *)
Definition yolo_class (category_id : json) : exn + json :=
  let* positive := Py.gt0 category_id in
  if positive then Py.sub category_id (JInt 1) else inr (JInt 0).

(** "{class_id} {x_center:.6f} {y_center:.6f} {norm_w:.6f} {norm_h:.6f}" *)
Definition format_line (class_id : json) (x_center y_center norm_w norm_h : float) : string :=
  py_str L class_id ++ " " ++ Flt.format_6f x_center ++ " " ++ Flt.format_6f y_center
    ++ " " ++ Flt.format_6f norm_w ++ " " ++ Flt.format_6f norm_h.

Definition label_line (category_id x y w h img_width img_height : json) : exn + string :=
  let* x_center := center x w img_width in
  let* y_center := center y h img_height in
  let* norm_w := norm w img_width in
  let* norm_h := norm h img_height in
  let* class_id := yolo_class category_id in
  inr (format_line class_id x_center y_center norm_w norm_h).

End WithLib.

(** The image metadata a COCO image entry gives: "default width=640,
    height=480 when absent". *)
Definition metadata (img_members : list (string * json)) (filename : json) : Processor.img_info :=
  (filename,
   match Py.assoc "width" img_members with Some v => v | None => JInt 640 end,
   match Py.assoc "height" img_members with Some v => v | None => JInt 480 end).

End LabelSpec.

(** ** What a computation guarantees

    [ensures P Q R m]: started in a state where [P] holds, [m] returns a
    value and a state related by [Q], or raises an exception in a state
    related to it by [R]. *)
Definition ensures {S A : Type} (P : S -> Prop) (Q : A -> S -> Prop) (R : exn -> S -> Prop)
    (m : M S A) : Prop :=
  forall s, P s ->
    match m s with
    | Ok a s' => Q a s'
    | Raise e s' => R e s'
    end.

(** A property of the state that [m] keeps, whether it returns or raises. *)
Definition preserves {S A : Type} (P : S -> Prop) (m : M S A) : Prop :=
  ensures P (fun _ => P) (fun _ => P) m.

(** ** The decision fields of [detection_results] *)

(** The fields as the dict is initialised: no decision taken. *)
Definition undecided (r : Detector.DetectionResults) : Prop :=
  Detector.conversion_needed r = true /\ Detector.skip_conversion r = false
  /\ Detector.confidence r = 0%float /\ Detector.error r = None.

(** The fields after the decision step. *)
Definition decided (r : Detector.DetectionResults) : Prop :=
  Detector.error r = None
  /\ ((Detector.detected_format r = "coco"
       /\ Detector.conversion_needed r = true /\ Detector.skip_conversion r = false
       /\ exists x, Detector.confidence r = Flt.py_min 0.9 x)
      \/ (Detector.detected_format r = "yolo"
          /\ Detector.conversion_needed r = false /\ Detector.skip_conversion r = true
          /\ exists x, Detector.confidence r = Flt.py_min 0.9 x)
      \/ (Detector.detected_format r = "unknown"
          /\ Detector.conversion_needed r = true /\ Detector.skip_conversion r = false
          /\ Detector.confidence r = 0%float)).

(** A path at which nothing can be listed: an empty directory or a file. *)
Definition lists_nothing (fs : node) (p : path) : Prop :=
  FS.lookup fs p = Some (Dir []) \/ exists d, FS.lookup fs p = Some (File d).

(** No file stands at [t] or on the way to it. *)
Definition no_file_on (fs : node) (t : path) : Prop :=
  forall q, Path.is_prefix q t = true -> FS.is_file fs q = false.

(** A place where [dump_to] can write a file: the path is plain and has a
    directory part, no file stands on the way to the directory, and no
    directory is in the place of the file. *)
Definition can_hold_file (fs : node) (p : path) : Prop :=
  Path.plain p = true
  /\ Path.parent p <> []
  /\ no_file_on fs (Path.parent p)
  /\ FS.is_dir fs p = false.

(** The places below the output directory where the conversion writes a
    file: [classes.txt], and files inside [labels/] and [images/]. *)
Definition written_below (r : path) : Prop :=
  r = ["classes.txt"] \/ (2 <= List.length r)%nat.

(** The output path as the conversion needs it: no file stands on the way to
    [images/] or to [labels/]. *)
Definition output_ready (fs : node) (out : path) : Prop :=
  no_file_on fs (Path.child out "images") /\ no_file_on fs (Path.child out "labels").

(** A report that explains a failure: when [success] is false, [errors]
    holds at least one message. *)
Definition failure_explained (r : Processor.ProcessingResults) : Prop :=
  Processor.success r = false -> Processor.errors r <> [].

(** The dict [processing_results] when the format [v] is neither [coco] nor
    [yolo]: nothing is processed, and that is a success with a warning. *)
Definition nothing_processed (L : Lib) (v : json) (r : Processor.ProcessingResults) : Prop :=
  Processor.success r = true
  /\ Processor.processing_type r = "unknown_format"
  /\ Processor.detected_format r = v
  /\ Processor.warnings r = [("Unsupported format: " ++ py_str L v)%string]
  /\ Processor.errors r = []
  /\ Processor.files_processed r = 0%Z.

(** The dict when the input path does not exist. *)
Definition input_not_found (L : Lib) (fmt : json) : Processor.ProcessingResults :=
  Processor.add_error "Input path not found" (Processor.initial_results L fmt).

(** The number of entries at and below a node, directories included: what
    [len(list(p.rglob("*")))] counts. *)
Fixpoint entries_below (n : node) : nat :=
  match n with
  | File _ => 0
  | Dir es =>
      (fix go (l : FS.entries) : nat :=
         match l with
         | [] => 0
         | (_, m) :: l' => S (entries_below m + go l')
         end) es
  end.

(** An annotation the conversion turns into a label line: one that has both
    keys. *)
Definition convertible (ann : json) : bool :=
  Py.has_key ann "bbox" && Py.has_key ann "category_id".

(** The label lines of the annotations of one image, in their order; the
    first line that cannot be built gives its exception. *)
Fixpoint label_lines (L : Lib) (img_width img_height : json) (anns : list json)
  : exn + list string :=
  match anns with
  | [] => inr []
  | ann :: anns' =>
      if convertible ann then
        let* line := Processor.yolo_line L ann img_width img_height in
        let* rest := label_lines L img_width img_height anns' in
        inr (line :: rest)
      else label_lines L img_width img_height anns'
  end.

(** The counter [converted_annotations] advanced by [k]. *)
Definition count_converted (k : Z) (c : Processor.ConvState) : Processor.ConvState :=
  {| Processor.base := Processor.base c;
     Processor.all_categories := Processor.all_categories c;
     Processor.converted_annotations := (Processor.converted_annotations c + k)%Z |}.

(** The state after the label file of one image is written. *)
Definition label_written (fs' : node) (k : Z) (c : Processor.ConvState) : Processor.ConvState :=
  {| Processor.base :=
       {| Processor.fs := fs';
          Processor.res := Processor.incr_files_processed (Processor.res (Processor.base c)) |};
     Processor.all_categories := Processor.all_categories c;
     Processor.converted_annotations := (Processor.converted_annotations c + k)%Z |}.

(** The image id under which an annotation is grouped. *)
Definition grouped_under (key : json) (ann : json) : Prop :=
  exists id, Py.getitem ann "image_id" = inr id /\ (id = key \/ Py.key_eqb id key = true).

(** The dict [format_indicators] of a completed analysis. *)
Definition indicators (coco yolo : Z) (json_files txt_files image_files : nat) (found : bool)
  : json :=
  JObj [("coco_score", JInt coco); ("yolo_score", JInt yolo);
        ("json_files_found", JInt (Z.of_nat json_files));
        ("txt_files_found", JInt (Z.of_nat txt_files));
        ("image_files_found", JInt (Z.of_nat image_files));
        ("classes_file_found", JBool found)].

(** A path strictly below [p]. *)
Definition below (p f : path) : Prop := exists r, r <> [] /\ f = p ++ r.

(** The library [L] with the set of image extensions iterated in the order
    [order]. *)
Definition with_set_order (order : list string) (L : Lib) : Lib :=
  Build_Lib (json_load L) (json_dump L) (str_exn L) (py_float L) (py_repr L)
    order (sorted_items L) (now_isoformat L) (scan_fault L).

(** Two labelled [.jpg] images and five [.png] images without labels. *)
Definition fs_mixed_images : node :=
  Dir [("data",
        Dir [("a.jpg", File ""); ("a.txt", File "0 0.5 0.5 0.2 0.2");
             ("b.jpg", File ""); ("b.txt", File "1 0.1 0.1 0.3 0.3");
             ("p1.png", File ""); ("p2.png", File ""); ("p3.png", File "");
             ("p4.png", File ""); ("p5.png", File "")])].

(** A field of a line: a string that is not empty and holds no
    whitespace. *)
Definition is_token (t : string) : bool :=
  negb (String.eqb t "")
  && forallb (fun c => negb (Text.is_space c)) (list_ascii_of_string t).

(** The items of a dict whose keys are integers above [lo], in strictly
    ascending order. *)
Fixpoint ascending_from (lo : Z) (d : Py.dict json) : bool :=
  match d with
  | (JInt i, _) :: d' => (lo <? i)%Z && ascending_from i d'
  | _ :: _ => false
  | [] => true
  end.

(** * Properties *)

(** ** Sequencing *)

Lemma bind_ok {S A B : Type} (m : M S A) (k : A -> M S B) (s : S) (a : A) (s' : S) :
  m s = Ok a s' -> bind m k s = k a s'.
Proof. intros H. unfold bind. rewrite H. reflexivity. Qed.

Lemma bind_raise {S A B : Type} (m : M S A) (k : A -> M S B) (s : S) (e : exn) (s' : S) :
  m s = Raise e s' -> bind m k s = Raise e s'.
Proof. intros H. unfold bind. rewrite H. reflexivity. Qed.

(** ** The programs on the worked examples *)

Section Evaluation.

Import Examples.
Local Open Scope string_scope.

(** The reference reader gives back the document the example files hold. *)
Lemma example_coco_text_loads : Ref.json_load (text_of coco_doc) = inr coco_doc.
Proof. vm_compute. reflexivity. Qed.

(** C1, at the failing input: the decision file holds the JSON array [[]].
    [process_data] raises an AttributeError at [format_info.get], before it
    creates the output directory or writes the report: the file system is
    left as it was. *)
Theorem process_data_raises_on_array_decision :
  Processor.process_data Ref.lib ["data"] ["work"; "format.json"] ["out"]
    ["work"; "report.json"] fs_array_decision
  = Raise (AttributeError "get") fs_array_decision.
Proof. vm_compute. reflexivity. Qed.

(** The same contract is broken on the branch for a missing input
    directory, which opens the report without creating its directory and
    outside any [try]. *)
Lemma process_data_raises_on_missing_report_dir :
  Processor.process_data Ref.lib ["data"] ["work"; "format.json"] ["out"]
    ["reports"; "report.json"] fs_missing_input
  = Raise (FileNotFoundError ["reports"; "report.json"])
      (Dir [("work", Dir []); ("out", Dir [])]).
Proof. vm_compute. reflexivity. Qed.

(** C2, at the failing input: one COCO file at the top of the input
    directory is listed by both globs and scores 6, not 3. *)
Theorem coco_score_counts_top_level_file_twice :
  let r := Detector.results (Detector.detected Ref.lib fs_one_coco ["data"]) in
  Py.getitem (Detector.format_indicators r) "coco_score" = inr (JInt 6)
  /\ Py.getitem (Detector.format_indicators r) "json_files_found" = inr (JInt 2)
  /\ FS.glob_rec (fun _ => true) fs_one_coco ["data"] = [["data"; "instances.json"]].
Proof. vm_compute. repeat split; reflexivity. Qed.

(** C5, at the failing inputs.  Two images at the top of the input
    directory, each with one valid label file, are counted as four annotated
    images and score 3 where the claim gives 1, which turns the decision from
    [unknown] into [yolo]; one classes file at the top scores 4 where the
    claim gives 2; and a file named [obj.names] scores nothing, because only
    files named [*.txt] are looked at. *)
Theorem yolo_score_counts_top_level_files_twice :
  let r := Detector.results (Detector.detected Ref.lib fs_two_images ["data"]) in
  let r' := Detector.results (Detector.detected Ref.lib fs_classes_only ["data"]) in
  let r'' := Detector.results (Detector.detected Ref.lib fs_obj_names ["data"]) in
  Py.getitem (Detector.file_analysis r) "yolo_annotation_files" = inr (JInt 4)
  /\ Py.getitem (Detector.format_indicators r) "yolo_score" = inr (JInt 3)
  /\ Detector.detected_format r = "yolo"
  /\ Py.getitem (Detector.format_indicators r') "yolo_score" = inr (JInt 4)
  /\ Py.getitem (Detector.format_indicators r'') "yolo_score" = inr (JInt 0).
Proof. vm_compute. repeat split; reflexivity. Qed.

(** C6, counterexample: with nineteen files and one subdirectory at the top
    and a COCO file in the subdirectory, the listing is cut at 20 entries
    and the COCO file is appended as the 21st. *)
Lemma files_analyzed_exceeds_twenty :
  ~ (List.length (Detector.files_analyzed
        (Detector.report (Detector.detected Ref.lib fs_many_files ["data"]))) <= 20)%nat.
Proof. vm_compute. intro H. repeat (apply le_S_n in H). inversion H. Qed.

(** C7, at the failing input: the decision is to be written to the bare
    file name [format_info.json].  [os.path.dirname] gives the empty string,
    [os.makedirs] refuses it, the handler swallows the error, and the
    function returns without the decision file; the report, which has a
    directory part, is written. *)
Theorem detector_skips_bare_file_name :
  exists fs',
    Detector.detect_data_format Ref.lib ["data"] ["format_info.json"]
      ["reports"; "format_report.json"] fs_one_coco = Ok tt fs'
    /\ FS.exists_ fs' ["format_info.json"] = false
    /\ FS.is_file fs' ["reports"; "format_report.json"] = true.
Proof. eexists. vm_compute. repeat split; reflexivity. Qed.

(** When the input directory is missing both writes share one [try]: the
    bare file name then costs the report as well. *)
Lemma detector_fallback_skips_both_files :
  Detector.detect_data_format Ref.lib ["data"] ["format_info.json"]
    ["work"; "format_report.json"] fs_missing_input = Ok tt fs_missing_input.
Proof. vm_compute. reflexivity. Qed.


End Evaluation.

(** ** The detector: scores and decision *)

Section DetectorFacts.

Variable L : Lib.

Local Open Scope Z_scope.

Lemma glob_without_fault (fs : node) (p : path) (pat : pattern) :
  scan_fault L p pat = None ->
  glob L fs p pat =
    inr match pat with
        | Star ext => FS.glob_here (Scores.ends ext) fs p
        | StarStar ext => FS.glob_rec (Scores.ends ext) fs p
        | RStar => FS.glob_rec (fun _ => true) fs p
        end.
Proof. intros H. unfold glob. rewrite H. destruct pat; reflexivity. Qed.

Lemma collect_images_without_fault (fs : node) (p : path) (exts : list string) :
  (forall pat, scan_fault L p pat = None) ->
  collect_images L fs p exts = inr (Scores.image_files_for exts fs p).
Proof.
  intros H. induction exts as [|ext exts IH]; simpl.
  - reflexivity.
  - rewrite !glob_without_fault by apply H. rewrite IH.
    unfold Scores.image_files_for. simpl. rewrite <- app_assoc. reflexivity.
Qed.

(** One pass of the loop body over [json_files]: it never raises, adds the
    contribution of the file, leaves [detection_results] alone and appends
    the file to [files_analyzed] when it has all three keys. *)
Lemma scan_json_step (fs : node) (c : Z) (f : path) (s : Detector.State) :
  exists s',
    Detector.scan_json L fs c f s = Ok (c + Detector.coco_contribution L fs f) s'
    /\ Detector.results s' = Detector.results s
    /\ Detector.files_analyzed (Detector.report s')
         = Detector.files_analyzed (Detector.report s)
             ++ (if Detector.coco_contribution L fs f =? 3 then [Path.str f] else []).
Proof.
  unfold Detector.scan_json, Detector.coco_contribution.
  unfold try_except, bind, lift, modify, ret.
  destruct (load_json L fs f) as [e|data]; simpl.
  - exists s. rewrite Z.add_0_r, app_nil_r. auto.
  - set (full := (Py.is_dict data && _)%bool).
    set (partial := (Py.is_dict data && _)%bool).
    destruct full; simpl.
    + eexists. split; [reflexivity|]. split; reflexivity.
    + destruct partial; simpl.
      * eexists. split; [reflexivity|]. split; [reflexivity|]. simpl.
        rewrite app_nil_r. reflexivity.
      * exists s. rewrite Z.add_0_r, app_nil_r. auto.
Qed.

(** The loop over [json_files]. *)
Lemma loop_scan_json (fs : node) (files : list path) :
  forall (c : Z) (s : Detector.State),
  exists s',
    Detector.loop (Detector.scan_json L fs) c files s
      = Ok (c + Scores.total (map (Detector.coco_contribution L fs) files)) s'
    /\ Detector.results s' = Detector.results s
    /\ exists extra,
         Detector.files_analyzed (Detector.report s')
           = Detector.files_analyzed (Detector.report s) ++ extra
         /\ List.length extra
              = List.length (filter (fun f => Detector.coco_contribution L fs f =? 3) files).
Proof.
  induction files as [|f files IH]; intros c s; simpl.
  - exists s. rewrite Z.add_0_r. repeat split; try reflexivity.
    exists []. rewrite app_nil_r. split; reflexivity.
  - destruct (scan_json_step fs c f s) as (s1 & Hstep & Hres1 & Hfa1).
    destruct (IH (c + Detector.coco_contribution L fs f) s1)
      as (s' & Hrun & Hres & extra & Hfa & Hlen).
    exists s'. unfold bind. rewrite Hstep, Hrun.
    split; [f_equal; lia|]. split; [congruence|].
    exists ((if Detector.coco_contribution L fs f =? 3 then [Path.str f] else []) ++ extra).
    rewrite Hfa, Hfa1, <- app_assoc. split; [reflexivity|].
    destruct (Detector.coco_contribution L fs f =? 3); simpl; congruence.
Qed.

(** One pass of the loop body over [txt_files]. *)
Lemma scan_txt_step (acc : option path * Z) (f : path) (s : Detector.State) :
  exists s' classes_file,
    Detector.scan_txt acc f s
      = Ok (classes_file, snd acc + (if Scores.is_classes_file f then 2 else 0)) s'
    /\ Detector.results s' = Detector.results s
    /\ Detector.files_analyzed (Detector.report s')
         = Detector.files_analyzed (Detector.report s)
             ++ (if Scores.is_classes_file f then [Path.str f] else []).
Proof.
  unfold Detector.scan_txt, Scores.is_classes_file.
  destruct (Str.mem (Str.lower (Path.name f)) Detector.classes_names).
  - unfold bind, modify, ret. simpl. eexists. eexists.
    split; [reflexivity|]. split; reflexivity.
  - exists s, (fst acc). unfold ret. rewrite Z.add_0_r, app_nil_r.
    destruct acc; auto.
Qed.

(** The loop over [txt_files] never raises; it adds 2 to [yolo_indicators]
    for every listed file with a classes-file name and appends that file to
    [files_analyzed]. *)
Lemma loop_scan_txt (files : list path) :
  forall (acc : option path * Z) (s : Detector.State),
  exists s' classes_file,
    Detector.loop Detector.scan_txt acc files s
      = Ok (classes_file,
            snd acc + Scores.total (map (fun f => if Scores.is_classes_file f then 2 else 0) files))
           s'
    /\ Detector.results s' = Detector.results s
    /\ exists extra,
         Detector.files_analyzed (Detector.report s')
           = Detector.files_analyzed (Detector.report s) ++ extra
         /\ List.length extra = List.length (filter Scores.is_classes_file files).
Proof.
  induction files as [|f files IH]; intros acc s; simpl.
  - exists s, (fst acc). rewrite Z.add_0_r. destruct acc. repeat split; try reflexivity.
    exists []. rewrite app_nil_r. split; reflexivity.
  - destruct (scan_txt_step acc f s) as (s1 & cf1 & Hstep & Hres1 & Hfa1).
    destruct (IH (cf1, snd acc + (if Scores.is_classes_file f then 2 else 0)) s1)
      as (s' & cf & Hrun & Hres & extra & Hfa & Hlen).
    exists s', cf. unfold bind. rewrite Hstep, Hrun. simpl.
    split; [do 2 f_equal; lia|]. split; [congruence|].
    exists ((if Scores.is_classes_file f then [Path.str f] else []) ++ extra).
    rewrite Hfa, Hfa1, <- app_assoc. split; [reflexivity|].
    destruct (Scores.is_classes_file f); simpl; congruence.
Qed.

(** The inner [try] never raises; it leaves [detection_results] alone and
    sets [files_analyzed] to at most 20 entries, when it was empty. *)
Lemma list_all_files_returns (fs : node) (p : path) (s0 : Detector.State) :
  exists all_files s1,
    Detector.list_all_files L fs p s0 = Ok all_files s1
    /\ Detector.results s1 = Detector.results s0
    /\ (Detector.files_analyzed (Detector.report s0) = [] ->
        List.length (Detector.files_analyzed (Detector.report s1)) <= 20)%nat.
Proof.
  unfold Detector.list_all_files, try_except, bind, lift, modify, ret.
  destruct (glob L fs p RStar) as [e|a].
  - exists [], s0. repeat split. intros ->. simpl. lia.
  - exists a, (Detector.set_files_analyzed (map Path.str (firstn 20 a)) s0).
    split; [reflexivity|]. split; [reflexivity|]. intros _.
    unfold Detector.set_files_analyzed. cbn [Detector.files_analyzed Detector.report].
    rewrite length_map, length_firstn. lia.
Qed.

(** The decision step completes when the score it converts is in the range
    of the floats, and sets the four fields by the rule. *)
Lemma decide_in_range (c y : Z) (s : Detector.State) :
  Flt.int_too_large c = false ->
  Flt.int_too_large y = false ->
  Detector.decide c y s
    = Ok tt (Detector.with_results
               (fun r =>
                  Detector.set_conversion
                    (Scores.decision_conversion_needed (Scores.decision_of c y))
                    (Scores.decision_skip_conversion (Scores.decision_of c y))
                    (Detector.set_confidence (Scores.decision_confidence c y)
                       (Detector.set_format
                          (Scores.format_name (Scores.decision_of c y)) r))) s).
Proof.
  intros Hc Hy.
  unfold Detector.decide, Scores.decision_confidence, Scores.decision_of,
    Scores.confidence_formula, Detector.confidence_of, Flt.of_int.
  rewrite Hc, Hy.
  destruct ((y <=? c) && (2 <=? c))%bool; [reflexivity|].
  destruct (2 <=? y); reflexivity.
Qed.

(** Without an I/O fault and with scores in the range of the floats, the
    analysis completes, and [detection_results] holds the two scores and the
    decision taken from them. *)
Lemma analyse_results (fs : node) (p : path) (s0 : Detector.State) :
  (forall pat, scan_fault L p pat = None) ->
  Flt.int_too_large (Scores.coco_score L fs p) = false ->
  Flt.int_too_large (Scores.yolo_score L fs p) = false ->
  let c := Scores.coco_score L fs p in
  let y := Scores.yolo_score L fs p in
  let d := Scores.decision_of c y in
  exists s' indicators analysis,
    Detector.analyse L fs p s0 = Ok tt s'
    /\ Detector.results s'
         = Detector.set_details indicators analysis
             (Detector.set_conversion
                (Scores.decision_conversion_needed d) (Scores.decision_skip_conversion d)
                (Detector.set_confidence (Scores.decision_confidence c y)
                   (Detector.set_format (Scores.format_name d) (Detector.results s0))))
    /\ Py.getitem indicators "coco_score" = inr (JInt c)
    /\ Py.getitem indicators "yolo_score" = inr (JInt y).
Proof.
  intros Hfault Hc Hy c y d.
  unfold Detector.analyse.
  rewrite !glob_without_fault by apply Hfault.
  rewrite collect_images_without_fault by apply Hfault.
  cbv [bind try_except lift ret modify].
  destruct (list_all_files_returns fs p s0) as (all_files & sl & Hrun0 & Hres0 & _).
  rewrite Hrun0.
  match goal with
  | |- context [Detector.loop (Detector.scan_json L fs) 0 ?files ?s] =>
      destruct (loop_scan_json fs files 0 s) as (s1 & Hrun1 & Hres1 & _)
  end.
  rewrite Hrun1.
  match goal with
  | |- context [Detector.loop Detector.scan_txt ?acc ?files s1] =>
      destruct (loop_scan_txt files acc s1) as (s2 & cf & Hrun2 & Hres2 & _)
  end.
  rewrite Hrun2. simpl snd.
  fold (Scores.json_files fs p) (Scores.txt_files fs p) (Scores.image_files L fs p).
  fold (Scores.yolo_annotation_count L fs p).
  fold (Scores.coco_score L fs p). fold (Scores.classes_score fs p).
  rewrite !Z.add_0_l.
  fold c.
  assert (Hyolo : Scores.classes_score fs p
                  + Scores.annotation_score (Scores.yolo_annotation_count L fs p) = y)
    by reflexivity.
  unfold Scores.annotation_score in Hyolo.
  destruct (3 <=? Scores.yolo_annotation_count L fs p);
    [|destruct (0 <? Scores.yolo_annotation_count L fs p)];
    try rewrite Z.add_0_r in Hyolo; rewrite Hyolo;
    rewrite (decide_in_range c y) by assumption;
    (eexists; eexists; eexists; split; [reflexivity|]; simpl;
     split; [rewrite Hres2, Hres1, Hres0; reflexivity|]; split; reflexivity).
Qed.

(** The recursive glob lists the matches at the top of the directory first:
    they are the matches of the top-level glob once more. *)
Lemma glob_rec_repeats_glob_here (sel : string -> bool) (fs : node) (p : path)
      (es : FS.entries) :
  FS.lookup fs p = Some (Dir es) ->
  FS.glob_rec sel fs p
    = FS.glob_here sel fs p
        ++ flat_map (FS.select sel)
             (flat_map (fun cn => FS.walk (p ++ [fst cn]) (snd cn)) es).
Proof.
  intros H. unfold FS.glob_rec, FS.glob_here. rewrite H. simpl. reflexivity.
Qed.

Lemma total_app (a b : list Z) :
  Scores.total (a ++ b) = Scores.total a + Scores.total b.
Proof. induction a as [|x a IH]; simpl; [reflexivity|]. rewrite IH. lia. Qed.

(** So a JSON file at the top of the input directory contributes twice to
    [coco_score]. *)
Lemma coco_score_doubles_top_level (fs : node) (p : path) (es : FS.entries) :
  FS.lookup fs p = Some (Dir es) ->
  Scores.coco_score L fs p
    = 2 * Scores.total (map (Detector.coco_contribution L fs)
                          (FS.glob_here (Scores.ends ".json") fs p))
      + Scores.total (map (Detector.coco_contribution L fs)
                        (flat_map (FS.select (Scores.ends ".json"))
                           (flat_map (fun cn => FS.walk (p ++ [fst cn]) (snd cn)) es))).
Proof.
  intros H. unfold Scores.coco_score, Scores.json_files.
  rewrite (glob_rec_repeats_glob_here _ _ _ _ H).
  rewrite !map_app, !total_app. lia.
Qed.

Lemma glob_returns (fs : node) (p : path) (pat : pattern) (l : list path) :
  glob L fs p pat = inr l ->
  l = match pat with
      | Star ext => FS.glob_here (Scores.ends ext) fs p
      | StarStar ext => FS.glob_rec (Scores.ends ext) fs p
      | RStar => FS.glob_rec (fun _ => true) fs p
      end.
Proof.
  unfold glob. destruct (scan_fault L p pat); [discriminate|].
  intros H. injection H as <-. destruct pat; reflexivity.
Qed.

(** The decision step leaves the report alone, also when it raises. *)
Lemma decide_keeps_report (c y : Z) (s : Detector.State) :
  Detector.report (final (Detector.decide c y s)) = Detector.report s.
Proof.
  unfold Detector.decide, bind, modify, lift.
  destruct ((y <=? c) && (2 <=? c))%bool; simpl.
  - destruct (Detector.confidence_of c); reflexivity.
  - destruct (2 <=? y); simpl; [|reflexivity].
    destruct (Detector.confidence_of y); reflexivity.
Qed.

(** What [files_analyzed] holds when the analysis ends, by completing or by
    raising: at most the first 20 entries of the listing, then one entry per
    listed JSON file with all three keys and one per listed classes file. *)
Lemma analyse_files_analyzed (fs : node) (p : path) (s0 : Detector.State) :
  Detector.files_analyzed (Detector.report s0) = [] ->
  exists listed extra,
    Detector.files_analyzed (Detector.report (final (Detector.analyse L fs p s0)))
      = listed ++ extra
    /\ (List.length listed <= 20)%nat
    /\ (List.length extra
        <= List.length (filter (fun f => (Detector.coco_contribution L fs f =? 3)%Z)
                          (Scores.json_files fs p))
           + List.length (filter Scores.is_classes_file (Scores.txt_files fs p)))%nat.
Proof.
  intros H0.
  unfold Detector.analyse.
  cbv [bind try_except lift ret modify].
  destruct (list_all_files_returns fs p s0) as (all_files & s1 & Hrun0 & _ & Hlen0).
  specialize (Hlen0 H0). rewrite Hrun0.
  exists (Detector.files_analyzed (Detector.report s1)).
  destruct (glob L fs p (Star ".json")) as [e|top] eqn:Etop; simpl.
  { exists []. rewrite app_nil_r. simpl. split; [reflexivity|]. split; [assumption|lia]. }
  destruct (glob L fs p (StarStar ".json")) as [e|deep] eqn:Edeep; simpl.
  { exists []. rewrite app_nil_r. simpl. split; [reflexivity|]. split; [assumption|lia]. }
  apply glob_returns in Etop, Edeep. subst top deep.
  fold (Scores.json_files fs p).
  destruct (loop_scan_json fs (Scores.json_files fs p) 0 s1)
    as (s2 & Hrun1 & _ & ej & Hfa1 & Hlen1).
  rewrite Hrun1.
  destruct (glob L fs p (Star ".txt")) as [e|top] eqn:Etop; simpl.
  { exists ej. split; [assumption|]. split; [assumption|lia]. }
  destruct (glob L fs p (StarStar ".txt")) as [e|deep] eqn:Edeep; simpl.
  { exists ej. split; [assumption|]. split; [assumption|lia]. }
  apply glob_returns in Etop, Edeep. subst top deep.
  fold (Scores.txt_files fs p).
  destruct (loop_scan_txt (Scores.txt_files fs p) (None, 0) s2)
    as (s3 & cf & Hrun2 & _ & et & Hfa2 & Hlen2).
  rewrite Hrun2. rewrite Hfa1, <- app_assoc in Hfa2.
  exists (ej ++ et).
  split; [|split; [assumption|rewrite length_app; lia]].
  destruct (collect_images L fs p (set_order L)) as [e|image_files]; simpl;
    [exact Hfa2|].
  assert (Hstep : forall (c yi : Z) (s : Detector.State) ind ana,
            Detector.files_analyzed (Detector.report (final
              match Detector.decide c yi s with
              | Ok _ s' => Ok tt (Detector.with_results (Detector.set_details ind ana) s')
              | Raise e s' => Raise e s'
              end)) = Detector.files_analyzed (Detector.report s)).
  { intros c yi s ind ana.
    pose proof (decide_keeps_report c yi s) as Hd.
    destruct (Detector.decide c yi s); simpl in *; rewrite Hd; reflexivity. }
  repeat match goal with
         | |- context [if ?b then _ else _] => destruct b
         end; rewrite Hstep; simpl; exact Hfa2.
Qed.

End DetectorFacts.

(** ** The detector: what it never does and what it reports *)

Section DetectorRobustness.

Variable L : Lib.

(** A write guarded by [try ... except Exception] returns. *)
Lemma guarded_dump_returns (p : path) (v : json) (fs : node) :
  exists fs', try_except (dump_to L p v) (fun _ => ret tt) fs = Ok tt fs'.
Proof.
  unfold try_except. destruct (dump_to L p v fs) as [[] fs'|e fs']; unfold ret; eauto.
Qed.


(** When both writes succeed, the two files hold the two dicts. *)
Lemma detect_writes_both (input_data format_info format_report : path)
      (fs fs1 fs2 fs3 fs4 : node) :
  let s := Detector.detected L fs input_data in
  FS.os_makedirs fs (Path.parent format_info) = inr fs1 ->
  FS.write_file fs1 format_info (json_dump L (Detector.results_json (Detector.results s)))
    = inr fs2 ->
  FS.os_makedirs fs2 (Path.parent format_report) = inr fs3 ->
  FS.write_file fs3 format_report (json_dump L (Detector.report_json (Detector.report s)))
    = inr fs4 ->
  Detector.detect_data_format L input_data format_info format_report fs = Ok tt fs4.
Proof.
  intros s H1 H2 H3 H4. subst s.
  unfold Detector.detect_data_format, Detector.detected in *.
  cbv beta iota delta [bind get try_except dump_to fs_op negb].
  destruct (FS.exists_ fs input_data); rewrite H1, H2, H3, H4; reflexivity.
Qed.

(** A failure of the analysis is reported as the format [error], with the
    message of the exception. *)
Lemma analysis_failure_is_reported (fs : node) (p : path) (e : exn) (s : Detector.State) :
  FS.exists_ fs p = true ->
  Detector.analyse L fs p (Detector.initial L p) = Raise e s ->
  Detector.detected_format (Detector.results (Detector.detected L fs p)) = "error"%string
  /\ Detector.error (Detector.results (Detector.detected L fs p)) = Some (str_exn L e)
  /\ Detector.report (Detector.detected L fs p) = Detector.report s.
Proof.
  intros Hex Hrun. unfold Detector.detected, Detector.analysed. rewrite Hex, Hrun.
  repeat split.
Qed.

End DetectorRobustness.

(** A scan of the input directory that fails with an I/O error: the
    decision is [error] with the message, and both files are written. *)
Lemma detector_reports_scan_failure :
  let s := Detector.detected Examples.faulty_lib Examples.fs_one_coco ["data"] in
  Detector.detected_format (Detector.results s) = "error"%string
  /\ Detector.error (Detector.results s) = Some "[Errno 5] Input/output error"%string
  /\ exists fs',
       Detector.detect_data_format Examples.faulty_lib ["data"]
         ["reports"; "format_info.json"] ["reports"; "format_report.json"]
         Examples.fs_one_coco = Ok tt fs'
       /\ FS.is_file fs' ["reports"; "format_info.json"] = true
       /\ FS.is_file fs' ["reports"; "format_report.json"] = true.
Proof.
  split; [vm_compute; reflexivity|]. split; [vm_compute; reflexivity|].
  eexists. split; [vm_compute; reflexivity|]. split; reflexivity.
Qed.

(** ** The processor: the decision file and the success flag *)

Section ProcessorFacts.

Variable L : Lib.

(** A decision file that holds JSON of another type than an object makes
    [process_data] raise before it touches the file system. *)
Lemma process_data_raises_on_non_dict
      (input_data detected_format output_data processing_report : path) (fs : node) :
  Py.is_dict (Processor.load_format_info L fs detected_format) = false ->
  Processor.process_data L input_data detected_format output_data processing_report fs
  = Raise (AttributeError "get") fs.
Proof.
  intros H. unfold Processor.process_data.
  destruct (Processor.load_format_info L fs detected_format); try discriminate; reflexivity.
Qed.

(** The report is written with whatever the dict holds; the dict is not
    changed by it. *)
Lemma guarded_report_returns (processing_report : path) (s : Processor.State) :
  exists fs',
    try_except
      (bind (Processor.on_fs (fs_op (fun fs => FS.os_makedirs fs (Path.parent processing_report))))
            (fun _ => Processor.write_report L processing_report))
      (fun _ => ret tt) s
    = Ok tt {| Processor.fs := fs'; Processor.res := Processor.res s |}.
Proof.
  unfold try_except, bind, Processor.on_fs, Processor.zoom, fs_op, Processor.write_report,
    bind, get, ret.
  destruct (FS.os_makedirs (Processor.fs s) (Path.parent processing_report)) as [e|fs1];
    simpl.
  - exists (Processor.fs s). destruct s; reflexivity.
  - unfold Processor.on_fs, Processor.zoom, fs_op. simpl.
    match goal with
    | |- context [FS.write_file fs1 processing_report ?d] =>
        destruct (FS.write_file fs1 processing_report d) as [e|fs2]
    end; [exists fs1|exists fs2]; reflexivity.
Qed.

(** For the decision [coco] and an existing input path, the flag
    [success] of the report is what [convert_coco_to_yolo] returns. *)
Lemma process_reports_conversion_flag
      (input_path output_path processing_report : path) (format_info : json)
      (s s1 : Processor.State) (b : bool) :
  FS.exists_ (Processor.fs s) input_path = true ->
  Py.get format_info "detected_format" (JStr "unknown") = inr (JStr "coco") ->
  Processor.convert_coco_to_yolo L input_path output_path
    (Processor.with_res
       (Processor.set_processing_type "coco_to_yolo_conversion" (Processor.res s)) s)
  = Ok b s1 ->
  exists fs',
    Processor.process L input_path output_path processing_report format_info s
    = Ok tt {| Processor.fs := fs';
               Processor.res := Processor.set_success b (Processor.res s1) |}.
Proof.
  intros Hex Hfmt Hconv.
  unfold Processor.process.
  rewrite (bind_ok get _ s s s eq_refl). rewrite Hex. cbv beta iota delta [negb].
  rewrite (bind_ok _ _ s (JStr "coco") s) by (unfold lift; rewrite Hfmt; reflexivity).
  cbv beta iota.
  assert (Hbranch :
    bind (Processor.upd_res (Processor.set_processing_type "coco_to_yolo_conversion"))
      (fun _ => bind (Processor.convert_coco_to_yolo L input_path output_path)
                  (fun ok => Processor.upd_res (Processor.set_success ok))) s
    = Ok tt (Processor.with_res (Processor.set_success b (Processor.res s1)) s1)).
  { rewrite (bind_ok _ _ s tt
               (Processor.with_res
                  (Processor.set_processing_type "coco_to_yolo_conversion" (Processor.res s)) s))
      by reflexivity.
    rewrite (bind_ok _ _ _ b s1 Hconv). reflexivity. }
  rewrite (bind_ok _ _ s tt _ Hbranch).
  destruct (guarded_report_returns processing_report
              (Processor.with_res (Processor.set_success b (Processor.res s1)) s1))
    as [fs' Hrep].
  exists fs'. exact Hrep.
Qed.

End ProcessorFacts.

(** C3.  When the input path exists, no directory scan fails and the two
    scores are in the range of the floats, the decision written by the
    detector follows the rule: [coco] when [coco_score >= yolo_score] and
    [coco_score >= 2], with confidence [min(0.9, 0.3 + coco_score * 0.15)],
    conversion needed and not skipped; otherwise [yolo] when
    [yolo_score >= 2], with confidence [min(0.9, 0.3 + yolo_score * 0.15)],
    conversion not needed and skipped; otherwise [unknown] with confidence
    0.0, conversion needed and not skipped.  The scores are the ones recorded
    in [format_indicators]. *)
Theorem detector_decision_rule (L : Lib) (fs : node) (p : path) :
  FS.exists_ fs p = true ->
  (forall pat, scan_fault L p pat = None) ->
  Flt.int_too_large (Scores.coco_score L fs p) = false ->
  Flt.int_too_large (Scores.yolo_score L fs p) = false ->
  let r := Detector.results (Detector.detected L fs p) in
  let c := Scores.coco_score L fs p in
  let y := Scores.yolo_score L fs p in
  Py.getitem (Detector.format_indicators r) "coco_score" = inr (JInt c)
  /\ Py.getitem (Detector.format_indicators r) "yolo_score" = inr (JInt y)
  /\ ((y <= c /\ 2 <= c)%Z ->
      Detector.detected_format r = "coco"
      /\ Detector.confidence r = Flt.py_min 0.9 (0.3 + Flt.of_scaled c 0 * 0.15)%float
      /\ Detector.conversion_needed r = true
      /\ Detector.skip_conversion r = false)
  /\ (~ (y <= c /\ 2 <= c)%Z -> (2 <= y)%Z ->
      Detector.detected_format r = "yolo"
      /\ Detector.confidence r = Flt.py_min 0.9 (0.3 + Flt.of_scaled y 0 * 0.15)%float
      /\ Detector.conversion_needed r = false
      /\ Detector.skip_conversion r = true)
  /\ (~ (y <= c /\ 2 <= c)%Z -> (y < 2)%Z ->
      Detector.detected_format r = "unknown"
      /\ Detector.confidence r = 0%float
      /\ Detector.conversion_needed r = true
      /\ Detector.skip_conversion r = false).
Proof.
  intros Hex Hfault Hc Hy r c y.
  destruct (analyse_results L fs p (Detector.initial L p) Hfault Hc Hy)
    as (s' & ind & ana & Hrun & Hres & Hci & Hyi).
  assert (Hr : r = Detector.results s').
  { unfold r, Detector.detected, Detector.analysed. rewrite Hex, Hrun. reflexivity. }
  rewrite Hr, Hres. simpl.
  fold c y. unfold Scores.decision_confidence, Scores.decision_of.
  split; [exact Hci|]. split; [exact Hyi|].
  destruct (y <=? c)%Z eqn:E1; destruct (2 <=? c)%Z eqn:E2; destruct (2 <=? y)%Z eqn:E3;
    simpl; repeat split; intros; try reflexivity; exfalso;
    rewrite ?Z.leb_le, ?Z.leb_gt in *; lia.
Qed.

(** The rule at work on the directory of [Examples.fs_nested_coco]: scores 3
    and 0, hence [coco] with confidence 0.75. *)
Lemma detector_decision_rule_witness :
  FS.exists_ Examples.fs_nested_coco ["data"] = true
  /\ (forall pat, scan_fault Ref.lib ["data"] pat = None)
  /\ Scores.coco_score Ref.lib Examples.fs_nested_coco ["data"] = 3%Z
  /\ Scores.yolo_score Ref.lib Examples.fs_nested_coco ["data"] = 0%Z
  /\ Detector.detected_format
       (Detector.results (Detector.detected Ref.lib Examples.fs_nested_coco ["data"]))
     = "coco"%string
  /\ Detector.confidence
       (Detector.results (Detector.detected Ref.lib Examples.fs_nested_coco ["data"]))
     = 0.75%float.
Proof.
  split; [reflexivity|]. split; [intros pat; reflexivity|].
  split; [vm_compute; reflexivity|]. split; [vm_compute; reflexivity|].
  destruct (detector_decision_rule Ref.lib Examples.fs_nested_coco ["data"])
    as (_ & _ & Hcoco & _);
    [reflexivity | intros pat; reflexivity | vm_compute; reflexivity
    | vm_compute; reflexivity |].
  destruct Hcoco as (Hf & Hconf & _).
  - vm_compute. split; discriminate.
  - split; [exact Hf|]. rewrite Hconf. vm_compute. reflexivity.
Defined.

(** C6, as amended.  For every library behaviour, file system and input
    path, [files_analyzed] in the report has at most 20 entries taken from
    the listing of the input directory, followed by the entries the analysis
    appends: one per listed JSON file with all three COCO keys and one per
    listed classes file.  Its length is bounded by 20 plus the number of
    these. *)
Theorem files_analyzed_bound (L : Lib) (fs : node) (p : path) :
  (List.length (Detector.files_analyzed (Detector.report (Detector.detected L fs p)))
   <= 20
      + List.length (filter (fun f => (Detector.coco_contribution L fs f =? 3)%Z)
                       (Scores.json_files fs p))
      + List.length (filter Scores.is_classes_file (Scores.txt_files fs p)))%nat.
Proof.
  unfold Detector.detected.
  destruct (FS.exists_ fs p); [|simpl; lia].
  destruct (analyse_files_analyzed L fs p (Detector.initial L p) eq_refl)
    as (listed & extra & Hfa & Hlisted & Hextra).
  assert (Hfinal : Detector.report (Detector.analysed L fs p)
                   = Detector.report (final (Detector.analyse L fs p (Detector.initial L p)))).
  { unfold Detector.analysed.
    destruct (Detector.analyse L fs p (Detector.initial L p)); reflexivity. }
  rewrite Hfinal, Hfa, length_app. lia.
Qed.

(** ** The file system: what an operation changes and what it leaves *)

Section FileSystemFacts.

Lemma assoc_set_entry_same (c : string) (n : node) (es : FS.entries) :
  FS.assoc c (FS.set_entry c n es) = Some n.
Proof.
  induction es as [|[d m] es IH]; simpl.
  - rewrite String.eqb_refl. reflexivity.
  - destruct (String.eqb c d) eqn:E; simpl; rewrite E; auto.
Qed.

Lemma assoc_set_entry_other (c d : string) (n : node) (es : FS.entries) :
  String.eqb d c = false ->
  FS.assoc d (FS.set_entry c n es) = FS.assoc d es.
Proof.
  intros Hne. induction es as [|[k m] es IH]; simpl.
  - rewrite Hne. reflexivity.
  - destruct (String.eqb c k) eqn:E; simpl.
    + apply String.eqb_eq in E. subst k. rewrite Hne. reflexivity.
    + destruct (String.eqb d k); auto.
Qed.

Lemma assoc_app_new (c d : string) (n : node) (es : FS.entries) :
  FS.assoc c es = None ->
  FS.assoc d (es ++ [(c, n)]) = if String.eqb d c then Some n else FS.assoc d es.
Proof.
  intros Hnone. induction es as [|[k m] es IH]; simpl in *.
  - reflexivity.
  - destruct (String.eqb c k) eqn:E; [discriminate|].
    destruct (String.eqb d k) eqn:E'.
    + apply String.eqb_eq in E'. subst k.
      rewrite String.eqb_sym, E. reflexivity.
    + apply IH, Hnone.
Qed.

Lemma assoc_remove_entry_same (c : string) (es : FS.entries) :
  FS.assoc c (FS.remove_entry c es) = None.
Proof.
  induction es as [|[d m] es IH]; simpl; [reflexivity|].
  destruct (String.eqb c d) eqn:E; simpl; [exact IH|]. rewrite E. exact IH.
Qed.

Lemma assoc_remove_entry_other (c d : string) (es : FS.entries) :
  String.eqb d c = false ->
  FS.assoc d (FS.remove_entry c es) = FS.assoc d es.
Proof.
  intros Hne. induction es as [|[k m] es IH]; simpl; [reflexivity|].
  destruct (String.eqb c k) eqn:E; simpl.
  - apply String.eqb_eq in E. subst k. rewrite Hne. exact IH.
  - destruct (String.eqb d k); auto.
Qed.

Lemma lookup_cons (es : FS.entries) (c : string) (p : path) :
  FS.lookup (Dir es) (c :: p)
  = match FS.assoc c es with
    | Some n' => FS.lookup n' p
    | None => None
    end.
Proof. reflexivity. Qed.

Lemma remove_at_deep (es : FS.entries) (c c' : string) (p : path) :
  FS.remove_at (Dir es) (c :: c' :: p)
  = match FS.assoc c es with
    | Some n' => Dir (FS.set_entry c (FS.remove_at n' (c' :: p)) es)
    | None => Dir es
    end.
Proof. reflexivity. Qed.

Lemma graft_deep (es : FS.entries) (c c' : string) (p : path) (t : node) :
  FS.graft (Dir es) (c :: c' :: p) t
  = match FS.assoc c es with
    | Some n' => Dir (FS.set_entry c (FS.graft n' (c' :: p) t) es)
    | None => Dir es
    end.
Proof. reflexivity. Qed.

Lemma mkdir_at_cons (parents : bool) (full : path) (es : FS.entries) (c : string) (p : path) :
  FS.mkdir_at parents full (Dir es) (c :: p)
  = match FS.assoc c es with
    | Some n' =>
        match FS.mkdir_at parents full n' p with
        | inr n'' => inr (Dir (FS.set_entry c n'' es))
        | inl e => inl e
        end
    | None =>
        match p with
        | [] => inr (Dir (es ++ [(c, Dir [])]))
        | _ :: _ =>
            if parents then inr (Dir (es ++ [(c, FS.fresh_dirs p)]))
            else inl (FileNotFoundError full)
        end
    end.
Proof. reflexivity. Qed.

Lemma lookup_fresh_dirs (p : path) : FS.lookup (FS.fresh_dirs p) p = Some (Dir []).
Proof.
  induction p as [|c p IH]; simpl; [reflexivity|].
  rewrite String.eqb_refl. exact IH.
Qed.

Lemma resolve_lookup (full : path) (n : node) (p : path) (x : node) :
  FS.lookup n p = Some x -> FS.resolve full n p = inr x.
Proof.
  revert n. induction p as [|c p IH]; intros n H; simpl in *.
  - congruence.
  - destruct n as [|es]; [discriminate|].
    destruct (FS.assoc c es); [auto|discriminate].
Qed.

Lemma apart_cons (c d : string) (p q : path) :
  apart (c :: p) (d :: q) -> String.eqb d c = false \/ (c = d /\ apart p q).
Proof.
  unfold apart. simpl. intros [H1 H2].
  destruct (String.eqb d c) eqn:E; [right|left; reflexivity].
  apply String.eqb_eq in E. subst d. rewrite String.eqb_refl in *. auto.
Qed.

Lemma apart_nil_l (q : path) : ~ apart [] q.
Proof. unfold apart. simpl. intros [H _]. discriminate. Qed.

Lemma apart_nil_r (p : path) : ~ apart p [].
Proof. unfold apart. simpl. intros [_ H]. destruct p; discriminate. Qed.

Lemma apart_sym (p q : path) : apart p q -> apart q p.
Proof. unfold apart. tauto. Qed.

(** *** Creating directories *)

(** A successful [mkdir] leaves a directory at its path. *)
Lemma mkdir_at_is_dir (parents : bool) (full p : path) :
  forall n n', FS.mkdir_at parents full n p = inr n' -> FS.is_dir n' p = true.
Proof.
  unfold FS.is_dir.
  induction p as [|c p IH]; intros n n' H; destruct n as [d|es]; simpl in H;
    try discriminate.
  - injection H as <-. reflexivity.
  - destruct (FS.assoc c es) as [m|] eqn:E.
    + destruct (FS.mkdir_at parents full m p) as [e|m'] eqn:E'; [discriminate|].
      injection H as <-. simpl. rewrite assoc_set_entry_same. eapply IH, E'.
    + destruct p as [|c' p'].
      * injection H as <-. simpl.
        rewrite (assoc_app_new _ _ _ _ E), String.eqb_refl. reflexivity.
      * destruct parents; [|discriminate]. injection H as <-.
        change (Dir [(c', FS.fresh_dirs p')]) with (FS.fresh_dirs (c' :: p')).
        rewrite lookup_cons, (assoc_app_new _ _ _ _ E), String.eqb_refl.
        rewrite lookup_fresh_dirs. reflexivity.
Qed.

Lemma lookup_fresh_dirs_apart (p q : path) :
  apart p q -> FS.lookup (FS.fresh_dirs p) q = None.
Proof.
  revert q. induction p as [|c p IH]; intros q Hap.
  - exfalso. eapply apart_nil_l, Hap.
  - destruct q as [|d q]; [exfalso; eapply apart_nil_r, Hap|].
    simpl. destruct (apart_cons _ _ _ _ Hap) as [Hne|[<- Hap']].
    + rewrite Hne. reflexivity.
    + rewrite String.eqb_refl. apply IH, Hap'.
Qed.

(** It changes nothing at a path apart from its own. *)
Lemma mkdir_at_frame (parents : bool) (full p : path) :
  forall n n' q,
    FS.mkdir_at parents full n p = inr n' -> apart p q ->
    FS.lookup n' q = FS.lookup n q.
Proof.
  induction p as [|c p IH]; intros n n' q H Hap.
  - exfalso. eapply apart_nil_l, Hap.
  - destruct q as [|d q]; [exfalso; eapply apart_nil_r, Hap|].
    destruct n as [x|es]; simpl in H; [discriminate|].
    destruct (FS.assoc c es) as [m|] eqn:E.
    + destruct (FS.mkdir_at parents full m p) as [e|m'] eqn:E'; [discriminate|].
      injection H as <-. simpl.
      destruct (apart_cons _ _ _ _ Hap) as [Hne|[<- Hap']].
      * rewrite (assoc_set_entry_other _ _ _ _ Hne). reflexivity.
      * rewrite assoc_set_entry_same, E. eapply IH; eassumption.
    + assert (Hnew : forall t, FS.lookup t q = None \/ String.eqb d c = false ->
                FS.lookup (Dir (es ++ [(c, t)])) (d :: q) = FS.lookup (Dir es) (d :: q)).
      { intros t Ht. simpl. rewrite (assoc_app_new _ _ _ _ E).
        destruct (String.eqb d c) eqn:Edc; [|reflexivity].
        apply String.eqb_eq in Edc. subst d. rewrite E.
        destruct Ht as [Ht|Ht]; [exact Ht|discriminate]. }
      assert (Hcase : String.eqb d c = false \/ (c = d /\ apart p q))
        by (apply apart_cons, Hap).
      destruct p as [|c' p'].
      * injection H as <-. apply Hnew.
        destruct Hcase as [Hne|[_ Hap']]; [right; exact Hne|].
        exfalso. eapply apart_nil_l, Hap'.
      * destruct parents; [|discriminate]. injection H as <-. apply Hnew.
        destruct Hcase as [Hne|[_ Hap']]; [right; exact Hne|].
        left. exact (lookup_fresh_dirs_apart (c' :: p') q Hap').
Qed.

(** A directory that exists still exists after a [mkdir]. *)
Lemma mkdir_at_keeps_dirs (parents : bool) (full p : path) :
  forall n n' q,
    FS.mkdir_at parents full n p = inr n' -> FS.is_dir n q = true ->
    FS.is_dir n' q = true.
Proof.
  unfold FS.is_dir.
  induction p as [|c p IH]; intros n n' q H Hq;
    destruct n as [x|es]; simpl in H; try discriminate.
  - injection H as <-. exact Hq.
  - destruct q as [|d q].
    + destruct (FS.assoc c es) as [m|].
      * destruct (FS.mkdir_at parents full m p); [discriminate|].
        injection H as <-. reflexivity.
      * destruct p; [injection H as <-; reflexivity|].
        destruct parents; [injection H as <-; reflexivity|discriminate].
    + simpl in Hq. destruct (String.eqb d c) eqn:Edc.
      * apply String.eqb_eq in Edc. subst d.
        destruct (FS.assoc c es) as [m|] eqn:E; [|discriminate].
        destruct (FS.mkdir_at parents full m p) as [e|m'] eqn:E'; [discriminate|].
        injection H as <-. simpl. rewrite assoc_set_entry_same. eapply IH; eassumption.
      * destruct (FS.assoc c es) as [m|] eqn:E.
        -- destruct (FS.mkdir_at parents full m p); [discriminate|].
           injection H as <-. simpl. rewrite (assoc_set_entry_other _ _ _ _ Edc). exact Hq.
        -- assert (Hnew : forall t, match FS.lookup (Dir (es ++ [(c, t)])) (d :: q) with
                                    | Some (Dir _) => true
                                    | _ => false
                                    end = true).
           { intros t. simpl. rewrite (assoc_app_new _ _ _ _ E), Edc. exact Hq. }
           destruct p; [injection H as <-; apply Hnew|].
           destruct parents; [injection H as <-; apply Hnew|discriminate].
Qed.

(** [mkdir(parents=True, exist_ok=True)] succeeds when no file is in the way. *)
Lemma mkdir_at_succeeds (full p : path) :
  forall n,
    (forall q, Path.is_prefix q p = true -> FS.is_file n q = false) ->
    exists n', FS.mkdir_at true full n p = inr n'.
Proof.
  induction p as [|c p IH]; intros n Hfree.
  - destruct n as [x|es].
    + specialize (Hfree [] eq_refl). discriminate.
    + exists (Dir es). reflexivity.
  - destruct n as [x|es].
    + specialize (Hfree [] eq_refl). discriminate.
    + simpl. destruct (FS.assoc c es) as [m|] eqn:E.
      * destruct (IH m) as [m' Hm'].
        { intros q Hq. specialize (Hfree (c :: q)). simpl in Hfree.
          rewrite String.eqb_refl in Hfree. specialize (Hfree Hq).
          unfold FS.is_file in *. simpl in Hfree. rewrite E in Hfree. exact Hfree. }
        rewrite Hm'. eauto.
      * destruct p; eauto.
Qed.

(** *** Removing a tree *)

Lemma lookup_remove_at_same (p : path) :
  forall n, p <> [] -> FS.lookup (FS.remove_at n p) p = None.
Proof.
  induction p as [|c p IH]; intros n Hne; [congruence|].
  destruct n as [x|es]; [destruct p; reflexivity|].
  destruct p as [|c' p'].
  - simpl. rewrite assoc_remove_entry_same. reflexivity.
  - rewrite remove_at_deep.
    destruct (FS.assoc c es) as [m|] eqn:E.
    + rewrite lookup_cons, assoc_set_entry_same. apply IH. discriminate.
    + rewrite lookup_cons, E. reflexivity.
Qed.

Lemma lookup_remove_at_frame (p : path) :
  forall n q, apart p q -> FS.lookup (FS.remove_at n p) q = FS.lookup n q.
Proof.
  induction p as [|c p IH]; intros n q Hap.
  - exfalso. eapply apart_nil_l, Hap.
  - destruct q as [|d q]; [exfalso; eapply apart_nil_r, Hap|].
    destruct n as [x|es]; [destruct p; reflexivity|].
    destruct p as [|c' p'].
    + simpl. destruct (apart_cons _ _ _ _ Hap) as [Hne|[_ Hap']].
      * rewrite (assoc_remove_entry_other _ _ _ Hne). reflexivity.
      * exfalso. eapply apart_nil_l, Hap'.
    + rewrite remove_at_deep.
      destruct (FS.assoc c es) as [m|] eqn:E; [|reflexivity].
      rewrite !lookup_cons.
      destruct (apart_cons _ _ _ _ Hap) as [Hne|[<- Hap']].
      * rewrite (assoc_set_entry_other _ _ _ _ Hne). reflexivity.
      * rewrite assoc_set_entry_same, E. apply IH, Hap'.
Qed.

(** A directory that was removed can be created again. *)
Lemma mkdir_after_remove (full p : path) :
  forall n x,
    p <> [] -> FS.lookup n p = Some x ->
    exists n', FS.mkdir_at true full (FS.remove_at n p) p = inr n'.
Proof.
  induction p as [|c p IH]; intros n x Hne Hx; [congruence|].
  destruct n as [y|es]; [discriminate|].
  simpl in Hx. destruct (FS.assoc c es) as [m|] eqn:E; [|discriminate].
  destruct p as [|c' p'].
  - simpl. rewrite assoc_remove_entry_same. eauto.
  - rewrite remove_at_deep, E.
    destruct (IH m x) as [m' Hm']; [discriminate|exact Hx|].
    rewrite mkdir_at_cons, assoc_set_entry_same, Hm'. eauto.
Qed.

(** *** Placing a tree *)

Lemma lookup_graft_same (p : path) (t : node) :
  forall n x, FS.lookup n p = Some x -> FS.lookup (FS.graft n p t) p = Some t.
Proof.
  induction p as [|c p IH]; intros n x Hx; [reflexivity|].
  destruct n as [y|es]; [discriminate|].
  simpl in Hx. destruct (FS.assoc c es) as [m|] eqn:E; [|discriminate].
  destruct p as [|c' p'].
  - simpl. rewrite assoc_set_entry_same. reflexivity.
  - rewrite graft_deep, E, lookup_cons, assoc_set_entry_same.
    eapply IH, Hx.
Qed.

Lemma lookup_graft_frame (p : path) (t : node) :
  forall n q, apart p q -> FS.lookup (FS.graft n p t) q = FS.lookup n q.
Proof.
  induction p as [|c p IH]; intros n q Hap.
  - exfalso. eapply apart_nil_l, Hap.
  - destruct q as [|d q]; [exfalso; eapply apart_nil_r, Hap|].
    destruct n as [x|es]; [reflexivity|].
    destruct p as [|c' p'].
    + simpl. destruct (apart_cons _ _ _ _ Hap) as [Hne|[_ Hap']].
      * rewrite (assoc_set_entry_other _ _ _ _ Hne). reflexivity.
      * exfalso. eapply apart_nil_l, Hap'.
    + rewrite graft_deep.
      destruct (FS.assoc c es) as [m|] eqn:E; [|reflexivity].
      rewrite !lookup_cons.
      destruct (apart_cons _ _ _ _ Hap) as [Hne|[<- Hap']].
      * rewrite (assoc_set_entry_other _ _ _ _ Hne). reflexivity.
      * rewrite assoc_set_entry_same, E. apply IH, Hap'.
Qed.

(** *** Paths that are not above the place of a change *)

Lemma set_entry_same_id (c : string) (m : node) (es : FS.entries) :
  FS.assoc c es = Some m -> FS.set_entry c m es = es.
Proof.
  induction es as [|[d k] es IH]; simpl; [discriminate|].
  destruct (String.eqb c d) eqn:E.
  - intros H. injection H as ->. reflexivity.
  - intros H. rewrite (IH H). reflexivity.
Qed.

Lemma lookup_below_file (d : string) (q : path) (x : string) :
  FS.lookup (File x) (d :: q) = None.
Proof. reflexivity. Qed.

Lemma lookup_fresh_dirs_off (p : path) :
  forall q, Path.is_prefix q p = false -> FS.lookup (FS.fresh_dirs p) q = None.
Proof.
  induction p as [|c p IH]; intros q H.
  - destruct q; [discriminate|reflexivity].
  - destruct q as [|d q]; [discriminate|].
    simpl in *.
    destruct (String.eqb d c); [apply IH, H|reflexivity].
Qed.

(** A [mkdir] changes nothing at a path that is not on the way to it. *)
Lemma mkdir_at_frame_off (parents : bool) (full p : path) :
  forall n n' q,
    FS.mkdir_at parents full n p = inr n' -> Path.is_prefix q p = false ->
    FS.lookup n' q = FS.lookup n q.
Proof.
  induction p as [|c p IH]; intros n n' q H Hq.
  - destruct n; simpl in H; [discriminate|]. injection H as <-. reflexivity.
  - destruct q as [|d q]; [discriminate|].
    destruct n as [x|es]; [discriminate|].
    rewrite mkdir_at_cons in H. simpl in Hq.
    destruct (String.eqb d c) eqn:Edc.
    + apply String.eqb_eq in Edc. subst d. simpl in Hq.
      destruct (FS.assoc c es) as [m|] eqn:E.
      * destruct (FS.mkdir_at parents full m p) as [e|m'] eqn:E'; [discriminate|].
        injection H as <-. rewrite !lookup_cons, assoc_set_entry_same, E.
        eapply IH; eassumption.
      * assert (Hnew : forall t, FS.lookup t q = None ->
                  FS.lookup (Dir (es ++ [(c, t)])) (c :: q) = FS.lookup (Dir es) (c :: q)).
        { intros t Ht. rewrite !lookup_cons, (assoc_app_new _ _ _ _ E), String.eqb_refl, E.
          exact Ht. }
        destruct p as [|c' p'].
        -- injection H as <-. apply Hnew. destruct q; [discriminate|reflexivity].
        -- destruct parents; [|discriminate]. injection H as <-. apply Hnew.
           exact (lookup_fresh_dirs_off (c' :: p') q Hq).
    + destruct (FS.assoc c es) as [m|] eqn:E.
      * destruct (FS.mkdir_at parents full m p) as [e|m'] eqn:E'; [discriminate|].
        injection H as <-. rewrite !lookup_cons, (assoc_set_entry_other _ _ _ _ Edc).
        reflexivity.
      * assert (Hnew : forall t,
                  FS.lookup (Dir (es ++ [(c, t)])) (d :: q) = FS.lookup (Dir es) (d :: q)).
        { intros t. rewrite !lookup_cons, (assoc_app_new _ _ _ _ E), Edc. reflexivity. }
        destruct p as [|c' p']; [injection H as <-; apply Hnew|].
        destruct parents; [injection H as <-; apply Hnew|discriminate].
Qed.

(** Writing a file changes nothing at a path that is not on the way to it. *)
Lemma write_at_frame_off (full p : path) (data : string) :
  forall n n' q,
    FS.write_at full n p data = inr n' -> Path.is_prefix q p = false ->
    FS.lookup n' q = FS.lookup n q.
Proof.
  induction p as [|c p IH]; intros n n' q H Hq; [discriminate|].
  destruct q as [|d q]; [discriminate|].
  destruct n as [x|es]; [discriminate|].
  simpl in Hq. simpl in H.
  destruct (String.eqb d c) eqn:Edc.
  - apply String.eqb_eq in Edc. subst d. simpl in Hq.
    destruct p as [|c' p'].
    + assert (Hq' : exists d' q', q = d' :: q') by (destruct q; [discriminate|eauto]).
      destruct Hq' as (d' & q' & ->).
      destruct (FS.assoc c es) as [[x|x]|] eqn:E; try discriminate.
      * injection H as <-. rewrite !lookup_cons, assoc_set_entry_same, E. reflexivity.
      * destruct (FS.name_ok c); [|discriminate]. injection H as <-.
        rewrite !lookup_cons, assoc_set_entry_same, E. reflexivity.
    + destruct (FS.assoc c es) as [m|] eqn:E; [|discriminate].
      destruct (FS.write_at full m (c' :: p') data) as [e|m'] eqn:E'; [discriminate|].
      injection H as <-. rewrite !lookup_cons, assoc_set_entry_same, E.
      eapply IH; eassumption.
  - assert (Hset : forall t, FS.lookup (Dir (FS.set_entry c t es)) (d :: q)
                             = FS.lookup (Dir es) (d :: q)).
    { intros t. rewrite !lookup_cons, (assoc_set_entry_other _ _ _ _ Edc). reflexivity. }
    destruct p as [|c' p'].
    + destruct (FS.assoc c es) as [[x|x]|] eqn:E; try discriminate.
      * injection H as <-. apply Hset.
      * destruct (FS.name_ok c); [|discriminate]. injection H as <-. apply Hset.
    + destruct (FS.assoc c es) as [m|] eqn:E; [|discriminate].
      destruct (FS.write_at full m (c' :: p') data) as [e|m'] eqn:E'; [discriminate|].
      injection H as <-. apply Hset.
Qed.

Lemma is_prefix_removelast (q p : path) :
  Path.is_prefix q (removelast p) = true -> Path.is_prefix q p = true.
Proof.
  revert q. induction p as [|c p IH]; intros q H; [exact H|].
  destruct q as [|d q]; [reflexivity|].
  destruct p as [|c' p']; [discriminate|].
  change (removelast (c :: c' :: p')) with (c :: removelast (c' :: p')) in H.
  simpl in H. simpl. destruct (String.eqb d c); [|discriminate].
  simpl in *. apply IH, H.
Qed.

End FileSystemFacts.

(** ** The direct copy *)

Section DirectCopyFacts.

Variable L : Lib.

(** The verification step never raises and never touches the file system
    or the list of errors; a mismatch of the two counts appends a warning. *)
Lemma verify_copy_returns (inp out : path) (s : Processor.State) :
  exists r',
    Processor.verify_copy L inp out s = Ok tt {| Processor.fs := Processor.fs s; Processor.res := r' |}
    /\ Processor.errors r' = Processor.errors (Processor.res s)
    /\ (forall ins outs,
          glob L (Processor.fs s) inp RStar = inr ins ->
          glob L (Processor.fs s) out RStar = inr outs ->
          Processor.warnings r'
          = Processor.warnings (Processor.res s)
              ++ (if (Processor.count ins =? Processor.count outs)%Z then []
                  else [Processor.mismatch_warning (Processor.count ins)
                          (Processor.count outs)])).
Proof.
  unfold Processor.verify_copy, try_except, bind, get, lift, Processor.upd_res, modify, ret.
  destruct (glob L (Processor.fs s) inp RStar) as [e|ins].
  - eexists. split; [reflexivity|]. split; [reflexivity|]. intros; discriminate.
  - destruct (glob L (Processor.fs s) out RStar) as [e|outs].
    + eexists. split; [reflexivity|]. split; [reflexivity|]. intros; discriminate.
    + destruct (Processor.count ins =? Processor.count outs)%Z eqn:E; simpl.
      * eexists. split; [reflexivity|]. split; [reflexivity|].
        intros ins' outs' Hi Ho. injection Hi as <-. injection Ho as <-.
        rewrite E. simpl. rewrite app_nil_r. reflexivity.
      * eexists. split; [reflexivity|]. split; [reflexivity|].
        intros ins' outs' Hi Ho. injection Hi as <-. injection Ho as <-.
        rewrite E. reflexivity.
Qed.

(** Once the old output is removed and the tree is copied, the function
    returns true whatever the verification finds. *)
Lemma copy_returns_true (inp out : path) (s : Processor.State) (fs1 fs2 : node) :
  (if FS.exists_ (Processor.fs s) out
   then FS.rmtree (Processor.fs s) out = inr fs1
   else fs1 = Processor.fs s) ->
  FS.copytree fs1 inp out = inr fs2 ->
  exists r',
    Processor.copy_yolo_data_directly L inp out s
      = Ok true {| Processor.fs := fs2; Processor.res := r' |}
    /\ Processor.errors r' = Processor.errors (Processor.res s)
    /\ (forall ins outs,
          glob L fs2 inp RStar = inr ins ->
          glob L fs2 out RStar = inr outs ->
          Processor.warnings r'
          = Processor.warnings (Processor.res s)
              ++ (if (Processor.count ins =? Processor.count outs)%Z then []
                  else [Processor.mismatch_warning (Processor.count ins)
                          (Processor.count outs)])).
Proof.
  intros Hrm Hcp.
  unfold Processor.copy_yolo_data_directly.
  unfold try_except at 1. unfold bind at 1. unfold get at 1.
  assert (Hsteps :
    bind (if FS.exists_ (Processor.fs s) out
          then Processor.on_fs (fs_op' (fun fs => FS.rmtree fs out))
          else ret tt)
         (fun _ => bind (Processor.on_fs (fs_op' (fun fs => FS.copytree fs inp out)))
                     (fun _ => bind (Processor.verify_copy L inp out) (fun _ => ret true))) s
    = bind (Processor.verify_copy L inp out) (fun _ => ret true)
        {| Processor.fs := fs2; Processor.res := Processor.res s |}).
  { unfold bind at 1.
    assert (H1 : (if FS.exists_ (Processor.fs s) out
                  then Processor.on_fs (fs_op' (fun fs => FS.rmtree fs out))
                  else ret tt) s
                 = Ok tt {| Processor.fs := fs1; Processor.res := Processor.res s |}).
    { destruct (FS.exists_ (Processor.fs s) out).
      - unfold Processor.on_fs, Processor.zoom, fs_op'. rewrite Hrm. reflexivity.
      - subst fs1. destruct s; reflexivity. }
    rewrite H1. unfold bind at 1.
    unfold Processor.on_fs, Processor.zoom, fs_op'. simpl. rewrite Hcp. reflexivity. }
  rewrite Hsteps.
  destruct (verify_copy_returns inp out
              {| Processor.fs := fs2; Processor.res := Processor.res s |})
    as (r' & Hrun & Herr & Hwarn).
  unfold bind, ret. rewrite Hrun. exists r'. simpl in *. auto.
Qed.

(** The two file-system steps of the copy, for an input directory and an
    output place apart from it: the old output is removed, and the output
    holds exactly the entries of the input. *)
Lemma copy_steps (fs : node) (inp out : path) (es : FS.entries) :
  FS.lookup fs inp = Some (Dir es) ->
  apart inp out ->
  can_hold_directory fs out ->
  exists fs1 fs2,
    (if FS.exists_ fs out then FS.rmtree fs out = inr fs1 else fs1 = fs)
    /\ FS.copytree fs1 inp out = inr fs2
    /\ FS.lookup fs2 out = Some (Dir es)
    /\ FS.lookup fs2 inp = Some (Dir es)
    /\ forall q, apart out q -> FS.lookup fs2 q = FS.lookup fs q.
Proof.
  intros Hin Hap Hout.
  assert (Hne : out <> []) by (intros ->; eapply apart_nil_r, Hap).
  (* the state after the removal *)
  assert (Hfs1 : exists fs1,
            (if FS.exists_ fs out then FS.rmtree fs out = inr fs1 else fs1 = fs)
            /\ (forall q, apart out q -> FS.lookup fs1 q = FS.lookup fs q)
            /\ FS.exists_ fs1 out = false
            /\ exists fs1', FS.mkdir_at true out fs1 out = inr fs1').
  { destruct Hout as [Hdir|[Hnone Hfree]].
    - unfold FS.is_dir in Hdir. unfold FS.exists_.
      destruct (FS.lookup fs out) as [[d|x]|] eqn:E; try discriminate.
      exists (FS.remove_at fs out). split.
      + unfold FS.rmtree. destruct out as [|c out']; [congruence|].
        rewrite (resolve_lookup _ _ _ _ E). reflexivity.
      + split; [intros q Hq; apply lookup_remove_at_frame, Hq|].
        split; [rewrite lookup_remove_at_same by exact Hne; reflexivity|].
        eapply mkdir_after_remove; eassumption.
    - exists fs. rewrite Hnone. split; [reflexivity|]. split; [reflexivity|].
      split; [reflexivity|]. apply mkdir_at_succeeds, Hfree. }
  destruct Hfs1 as (fs1 & Hrm & Hframe1 & Hnone1 & fs1' & Hmk).
  assert (Hin1 : FS.lookup fs1 inp = Some (Dir es))
    by (rewrite Hframe1 by (apply apart_sym, Hap); exact Hin).
  assert (Hframe : forall q, apart out q ->
                     FS.lookup (FS.graft fs1' out (Dir es)) q = FS.lookup fs q).
  { intros q Hq. rewrite lookup_graft_frame by exact Hq.
    rewrite (mkdir_at_frame _ _ _ _ _ _ Hmk) by exact Hq. apply Hframe1, Hq. }
  exists fs1, (FS.graft fs1' out (Dir es)).
  split; [exact Hrm|].
  assert (Hout1' : exists x, FS.lookup fs1' out = Some x).
  { pose proof (mkdir_at_is_dir _ _ _ _ _ Hmk) as Hd. unfold FS.is_dir in Hd.
    destruct (FS.lookup fs1' out); [eauto|discriminate]. }
  destruct Hout1' as [x Hx].
  split; [|split; [|split]].
  - unfold FS.copytree. rewrite (resolve_lookup _ _ _ _ Hin1), Hnone1.
    unfold FS.os_makedirs. destruct out as [|c out']; [congruence|].
    rewrite Hmk. unfold FS.copies_into_itself.
    destruct Hap as [Hpre _]. rewrite Hpre. reflexivity.
  - eapply lookup_graft_same, Hx.
  - rewrite Hframe by (apply apart_sym, Hap). exact Hin.
  - exact Hframe.
Qed.

End DirectCopyFacts.

(** ** The processor on a YOLO dataset *)

Section ProcessorRuns.

Variable L : Lib.

(** Writing the report changes nothing at a path that is not on the way to
    the report, and nothing in the dict. *)
Lemma guarded_report_frame (processing_report : path) (s : Processor.State) :
  exists fs',
    try_except
      (bind (Processor.on_fs (fs_op (fun fs => FS.os_makedirs fs (Path.parent processing_report))))
            (fun _ => Processor.write_report L processing_report))
      (fun _ => ret tt) s
    = Ok tt {| Processor.fs := fs'; Processor.res := Processor.res s |}
    /\ forall q, Path.is_prefix q processing_report = false ->
                 FS.lookup fs' q = FS.lookup (Processor.fs s) q.
Proof.
  unfold try_except, bind, Processor.on_fs, Processor.zoom, fs_op, Processor.write_report,
    bind, get, ret.
  destruct (FS.os_makedirs (Processor.fs s) (Path.parent processing_report)) as [e|fs1] eqn:E1;
    simpl.
  - exists (Processor.fs s). split; [destruct s; reflexivity|]. reflexivity.
  - assert (H1 : forall q, Path.is_prefix q processing_report = false ->
                           FS.lookup fs1 q = FS.lookup (Processor.fs s) q).
    { intros q Hq. unfold FS.os_makedirs in E1.
      destruct (Path.parent processing_report) as [|c d] eqn:Ep; [discriminate|].
      eapply mkdir_at_frame_off; [exact E1|].
      destruct (Path.is_prefix q (c :: d)) eqn:Epre; [|reflexivity].
      rewrite <- Ep in Epre. unfold Path.parent in Epre.
      apply is_prefix_removelast in Epre. congruence. }
    unfold Processor.on_fs, Processor.zoom, fs_op. simpl.
    match goal with
    | |- context [FS.write_file fs1 processing_report ?d] =>
        destruct (FS.write_file fs1 processing_report d) as [e|fs2] eqn:E2
    end.
    + exists fs1. split; [reflexivity|exact H1].
    + exists fs2. split; [reflexivity|]. intros q Hq. rewrite <- (H1 q Hq).
      unfold FS.write_file in E2.
      destruct (existsb FS.has_nul processing_report); [discriminate|].
      eapply write_at_frame_off; eassumption.
Qed.

(** The decision read depends on the decision file only. *)
Lemma load_format_info_lookup (fs fs' : node) (detected_format : path) :
  FS.lookup fs' detected_format = FS.lookup fs detected_format ->
  Processor.load_format_info L fs' detected_format
  = Processor.load_format_info L fs detected_format.
Proof.
  intros H. unfold Processor.load_format_info, FS.os_path_exists, FS.exists_.
  destruct detected_format as [|c p]; [reflexivity|].
  rewrite H. destruct (FS.lookup fs (c :: p)) as [x|] eqn:E; [|reflexivity].
  simpl negb. cbv iota. unfold load_json, FS.read_file.
  rewrite (resolve_lookup _ _ _ _ E), (resolve_lookup _ _ _ _ H). reflexivity.
Qed.

(** One run of [process_data] with the decision [yolo]: the output holds
    the entries of the input, the report says success, and paths apart from
    the output and not on the way to the report are as before. *)
Lemma process_data_yolo
      (input_data detected_format output_data processing_report : path)
      (fs : node) (es : FS.entries) :
  Py.get (Processor.load_format_info L fs detected_format) "detected_format" (JStr "unknown")
    = inr (JStr "yolo") ->
  FS.lookup fs input_data = Some (Dir es) ->
  apart input_data output_data ->
  can_hold_directory fs output_data ->
  Path.is_prefix output_data processing_report = false ->
  Path.is_prefix input_data processing_report = false ->
  exists r fs',
    Processor.process_data L input_data detected_format output_data processing_report fs
      = Ok r fs'
    /\ Processor.success r = true
    /\ Processor.errors r = []
    /\ FS.lookup fs' output_data = Some (Dir es)
    /\ FS.lookup fs' input_data = Some (Dir es)
    /\ forall q, apart output_data q -> Path.is_prefix q processing_report = false ->
                 FS.lookup fs' q = FS.lookup fs q.
Proof.
  intros Hfmt Hin Hap Hout Hrep_out Hrep_in.
  unfold Processor.process_data. rewrite Hfmt.
  set (s0 := {| Processor.fs := fs;
                Processor.res := Processor.initial_results L (JStr "yolo") |}).
  destruct (copy_steps fs input_data output_data es Hin Hap Hout)
    as (fs1 & fs2 & Hrm & Hcp & Hout2 & Hin2 & Hframe).
  set (s1 := Processor.with_res
               (Processor.set_processing_type "yolo_direct_copy" (Processor.res s0)) s0).
  destruct (copy_returns_true L input_data output_data s1 fs1 fs2 Hrm Hcp)
    as (r' & Hcopy & Herr & _).
  set (s2 := {| Processor.fs := fs2; Processor.res := Processor.set_success true r' |}).
  destruct (guarded_report_frame processing_report s2) as (fs' & Hreport & Hframe').
  assert (Hrun : Processor.process L input_data output_data processing_report
                   (Processor.load_format_info L fs detected_format) s0
                 = Ok tt {| Processor.fs := fs'; Processor.res := Processor.res s2 |}).
  { unfold Processor.process.
    rewrite (bind_ok get _ s0 s0 s0 eq_refl).
    assert (Hex : FS.exists_ (Processor.fs s0) input_data = true)
      by (unfold FS.exists_; simpl; rewrite Hin; reflexivity).
    rewrite Hex. cbv beta iota delta [negb].
    rewrite (bind_ok _ _ s0 (JStr "yolo") s0) by (unfold lift; rewrite Hfmt; reflexivity).
    cbv beta iota.
    assert (Hbranch :
      bind (Processor.upd_res (Processor.set_processing_type "yolo_direct_copy"))
        (fun _ => bind (Processor.copy_yolo_data_directly L input_data output_data)
                    (fun ok => Processor.upd_res (Processor.set_success ok))) s0
      = Ok tt s2).
    { rewrite (bind_ok _ _ s0 tt s1) by reflexivity.
      rewrite (bind_ok _ _ _ _ _ Hcopy). reflexivity. }
    rewrite (bind_ok _ _ s0 tt _ Hbranch). exact Hreport. }
  rewrite Hrun. simpl.
  exists (Processor.set_success true r'), fs'.
  split; [reflexivity|]. split; [reflexivity|]. split; [simpl; rewrite Herr; reflexivity|].
  split; [rewrite Hframe' by exact Hrep_out; exact Hout2|].
  split; [rewrite Hframe' by exact Hrep_in; exact Hin2|].
  intros q Hq Hq'. rewrite Hframe' by exact Hq'. apply Hframe, Hq.
Qed.

End ProcessorRuns.

(** C8.  For an input directory and an output path apart from it, at which
    a directory can be put, both plain paths, and a tree below the input
    whose paths stay plain in the copy: the direct copy returns true;
    whatever the output held before, it then holds exactly the entries of
    the input, and the input is as it was; no error is recorded; and a second
    run on the result returns true and leaves the same output.  The same
    holds for two runs of [process_data] with the decision [yolo], when the
    decision file and the report have plain paths and the report is written
    outside the input and the output and does not replace the decision file.
    Moreover, whenever the removal and the copy succeed, the function returns
    true without recording an error, and a mismatch of the two file counts
    only appends a warning. *)
Theorem direct_copy_replaces_output (L : Lib) (inp out : path) :
  (forall (s : Processor.State) (es : FS.entries),
     Path.plain inp = true ->
     Path.plain out = true ->
     FS.copy_fits (Processor.fs s) inp out = true ->
     FS.lookup (Processor.fs s) inp = Some (Dir es) ->
     apart inp out ->
     can_hold_directory (Processor.fs s) out ->
     exists s1,
       Processor.copy_yolo_data_directly L inp out s = Ok true s1
       /\ FS.lookup (Processor.fs s1) out = Some (Dir es)
       /\ FS.lookup (Processor.fs s1) inp = Some (Dir es)
       /\ Processor.errors (Processor.res s1) = Processor.errors (Processor.res s)
       /\ exists s2,
            Processor.copy_yolo_data_directly L inp out s1 = Ok true s2
            /\ FS.lookup (Processor.fs s2) out = FS.lookup (Processor.fs s1) out
            /\ FS.lookup (Processor.fs s2) inp = FS.lookup (Processor.fs s1) inp)
  /\ (forall (decision report : path) (fs : node) (es : FS.entries),
        Path.plain inp = true ->
        Path.plain out = true ->
        Path.plain decision = true ->
        Path.plain report = true ->
        FS.copy_fits fs inp out = true ->
        Py.get (Processor.load_format_info L fs decision) "detected_format" (JStr "unknown")
          = inr (JStr "yolo") ->
        FS.lookup fs inp = Some (Dir es) ->
        apart inp out ->
        can_hold_directory fs out ->
        Path.is_prefix out report = false ->
        Path.is_prefix inp report = false ->
        apart out decision ->
        Path.is_prefix decision report = false ->
        exists r1 fs1 r2 fs2,
          Processor.process_data L inp decision out report fs = Ok r1 fs1
          /\ Processor.success r1 = true
          /\ FS.lookup fs1 out = Some (Dir es)
          /\ Processor.process_data L inp decision out report fs1 = Ok r2 fs2
          /\ Processor.success r2 = true
          /\ FS.lookup fs2 out = FS.lookup fs1 out)
  /\ (forall (s : Processor.State) (fs1 fs2 : node) (ins outs : list path),
        (if FS.exists_ (Processor.fs s) out
         then FS.rmtree (Processor.fs s) out = inr fs1
         else fs1 = Processor.fs s) ->
        FS.copytree fs1 inp out = inr fs2 ->
        glob L fs2 inp RStar = inr ins ->
        glob L fs2 out RStar = inr outs ->
        Processor.count ins <> Processor.count outs ->
        exists r',
          Processor.copy_yolo_data_directly L inp out s
            = Ok true {| Processor.fs := fs2; Processor.res := r' |}
          /\ Processor.errors r' = Processor.errors (Processor.res s)
          /\ Processor.warnings r'
             = Processor.warnings (Processor.res s)
                 ++ [Processor.mismatch_warning (Processor.count ins)
                       (Processor.count outs)]).
Proof.
  assert (Hrun : forall (s : Processor.State) (es : FS.entries),
            FS.lookup (Processor.fs s) inp = Some (Dir es) ->
            apart inp out ->
            can_hold_directory (Processor.fs s) out ->
            exists s1,
              Processor.copy_yolo_data_directly L inp out s = Ok true s1
              /\ FS.lookup (Processor.fs s1) out = Some (Dir es)
              /\ FS.lookup (Processor.fs s1) inp = Some (Dir es)
              /\ Processor.errors (Processor.res s1) = Processor.errors (Processor.res s)).
  { intros s es Hin Hap Hout.
    destruct (copy_steps (Processor.fs s) inp out es Hin Hap Hout)
      as (fs1 & fs2 & Hrm & Hcp & Hout2 & Hin2 & _).
    destruct (copy_returns_true L inp out s fs1 fs2 Hrm Hcp) as (r' & Hrun & Herr & _).
    eexists. split; [exact Hrun|]. simpl. auto. }
  split; [|split].
  - intros s es _ _ _ Hin Hap Hout.
    destruct (Hrun s es Hin Hap Hout) as (s1 & Hrun1 & Hout1 & Hin1 & Herr1).
    exists s1. repeat (split; [assumption|]).
    destruct (Hrun s1 es Hin1 Hap) as (s2 & Hrun2 & Hout2 & Hin2 & _).
    { left. unfold FS.is_dir. rewrite Hout1. reflexivity. }
    exists s2. split; [assumption|]. split; congruence.
  - intros decision report fs es _ _ _ _ _ Hfmt Hin Hap Hout Hro Hri Hdec Hrd.
    destruct (process_data_yolo L inp decision out report fs es Hfmt Hin Hap Hout Hro Hri)
      as (r1 & fs1 & Hrun1 & Hok1 & _ & Hout1 & Hin1 & Hframe1).
    assert (Hfmt1 : Py.get (Processor.load_format_info L fs1 decision) "detected_format"
                      (JStr "unknown") = inr (JStr "yolo")).
    { rewrite (load_format_info_lookup L fs fs1 decision); [exact Hfmt|].
      apply Hframe1; assumption. }
    destruct (process_data_yolo L inp decision out report fs1 es Hfmt1 Hin1 Hap)
      as (r2 & fs2 & Hrun2 & Hok2 & _ & Hout2 & _); try assumption.
    { left. unfold FS.is_dir. rewrite Hout1. reflexivity. }
    exists r1, fs1, r2, fs2. repeat (split; [assumption|]). congruence.
  - intros s fs1 fs2 ins outs Hrm Hcp Hins Houts Hdiff.
    destruct (copy_returns_true L inp out s fs1 fs2 Hrm Hcp) as (r' & Hrun' & Herr & Hwarn).
    exists r'. split; [assumption|]. split; [assumption|].
    rewrite (Hwarn ins outs Hins Houts).
    destruct (Processor.count ins =? Processor.count outs)%Z eqn:E; [|reflexivity].
    apply Z.eqb_eq in E. contradiction.
Qed.

(** ** The COCO to YOLO conversion: control flow *)

Section ConversionFacts.

Variable L : Lib.

Lemma returns_only_ret {S A : Type} (v : A) : returns_only (S := S) v (ret v).
Proof. intros s a s' H. unfold ret in H. congruence. Qed.

Lemma returns_only_bind {S A B : Type} (v : B) (m : M S A) (k : A -> M S B) :
  (forall a, returns_only v (k a)) -> returns_only v (bind m k).
Proof.
  intros Hk s b s' H. unfold bind in H.
  destruct (m s) as [a s1|e s1]; [|discriminate]. eapply Hk, H.
Qed.

(** The [try] block of the conversion returns nothing but true. *)
Lemma convert_body_returns_true (inp out : path) :
  returns_only true (Processor.convert_body L inp out).
Proof.
  unfold Processor.convert_body.
  repeat (apply returns_only_bind; intros).
  match goal with
  | |- returns_only _ (match ?l with [] => _ | _ :: _ => _ end) => destruct l
  end; repeat (apply returns_only_bind; intros); apply returns_only_ret.
Qed.

Lemma run_body_returns_true (inp out : path) :
  returns_only true (Processor.run_body L inp out).
Proof.
  intros s b s' H. unfold Processor.run_body in H.
  destruct (Processor.convert_body L inp out _) as [b' c|e c] eqn:E; [|discriminate].
  assert (b' = b) by congruence. subst b'. eapply convert_body_returns_true, E.
Qed.

(** The loop body over one COCO file never raises: its handler records the
    failure in [errors] and the loop goes on. *)
Lemma process_coco_file_returns (labels_dir f : path) (c : Processor.ConvState) :
  exists c', Processor.process_coco_file L labels_dir f c = Ok tt c'.
Proof.
  unfold Processor.process_coco_file, try_except.
  destruct (Processor.convert_file L labels_dir f c) as [[] c'|e c'].
  - eauto.
  - unfold Processor.on_base, Processor.zoom, Processor.upd_res, modify. eauto.
Qed.

Lemma coco_loop_returns (labels_dir : path) (files : list path) :
  forall c, exists c',
    for_each files (Processor.process_coco_file L labels_dir) c = Ok tt c'.
Proof.
  induction files as [|f files IH]; intros c; simpl.
  - unfold ret. eauto.
  - unfold bind. destruct (process_coco_file_returns labels_dir f c) as [c1 H1].
    rewrite H1. apply IH.
Qed.

(** A file that cannot be read or parsed adds one entry to [errors] and
    changes nothing else. *)
Lemma process_unreadable_file (labels_dir f : path) (c : Processor.ConvState) (e : exn) :
  load_json L (Processor.fs (Processor.base c)) f = inl e ->
  Processor.process_coco_file L labels_dir f c
  = Ok tt (Processor.with_base
             (Processor.with_res
                (Processor.add_error
                   ("COCO processing error in " ++ Path.name f ++ ": " ++ str_exn L e)
                   (Processor.res (Processor.base c)))
                (Processor.base c)) c).
Proof.
  intros H.
  unfold Processor.process_coco_file, try_except, Processor.convert_file, bind, get, lift.
  rewrite H. reflexivity.
Qed.

(** When every listed file fails so, the loop completes with one error per
    file. *)
Lemma coco_loop_all_unreadable (labels_dir : path) (files : list path) :
  forall c,
    (forall f, In f files ->
       exists e, load_json L (Processor.fs (Processor.base c)) f = inl e) ->
    exists c',
      for_each files (Processor.process_coco_file L labels_dir) c = Ok tt c'
      /\ Processor.fs (Processor.base c') = Processor.fs (Processor.base c)
      /\ List.length (Processor.errors (Processor.res (Processor.base c')))
         = (List.length (Processor.errors (Processor.res (Processor.base c)))
            + List.length files)%nat.
Proof.
  induction files as [|f files IH]; intros c Hall; simpl.
  - exists c. unfold ret. repeat split. lia.
  - destruct (Hall f (or_introl eq_refl)) as [e He].
    unfold bind. rewrite (process_unreadable_file labels_dir f c e He).
    destruct (IH (Processor.with_base
                    (Processor.with_res
                       (Processor.add_error
                          ("COCO processing error in " ++ Path.name f ++ ": " ++ str_exn L e)
                          (Processor.res (Processor.base c)))
                       (Processor.base c)) c))
      as (c' & Hrun & Hfs & Hlen).
    { intros g Hg. simpl. apply Hall. right. exact Hg. }
    exists c'. split; [exact Hrun|]. split; [rewrite Hfs; reflexivity|].
    rewrite Hlen. simpl. rewrite length_app. simpl. lia.
Qed.

(** When the handler of the conversion returns, the two directories
    exist. *)
Lemma convert_handler_creates_directories (out : path) (e : exn)
      (s s' : Processor.State) (b : bool) :
  Processor.convert_handler L out e s = Ok b s' ->
  b = false
  /\ FS.is_dir (Processor.fs s') (Path.child out "images") = true
  /\ FS.is_dir (Processor.fs s') (Path.child out "labels") = true
  /\ Processor.errors (Processor.res s')
     = Processor.errors (Processor.res s) ++ ["Conversion error: " ++ str_exn L e]%string.
Proof.
  unfold Processor.convert_handler, bind, Processor.upd_res, modify, Processor.on_fs,
    Processor.zoom, fs_op, ret. simpl.
  destruct (FS.mkdir_parents (Processor.fs s) out) as [e1|fs1]; [discriminate|].
  simpl.
  destruct (FS.mkdir fs1 (Path.child out "images")) as [e2|fs2] eqn:E2; [discriminate|].
  simpl.
  destruct (FS.mkdir fs2 (Path.child out "labels")) as [e3|fs3] eqn:E3; [discriminate|].
  simpl. intros H. injection H as <- <-. simpl.
  split; [reflexivity|]. split; [|split; [|reflexivity]].
  - eapply mkdir_at_keeps_dirs; [exact E3|]. eapply mkdir_at_is_dir, E2.
  - eapply mkdir_at_is_dir, E3.
Qed.

End ConversionFacts.

(** C10.  [convert_coco_to_yolo] returns true whenever its [try] block
    completes; the loop over the JSON files always completes, a file that
    cannot be parsed only adding an entry to [errors]; the function returns
    false only when the block raised outside that loop, in which case
    [images/] and [labels/] exist afterwards and the failure is recorded; and
    what it returns is the [success] of the processing report. *)
Theorem conversion_success_flag (L : Lib) (inp out : path) (s : Processor.State) :
  (forall b s', Processor.run_body L inp out s = Ok b s' ->
                b = true /\ Processor.convert_coco_to_yolo L inp out s = Ok true s')
  /\ (forall labels_dir files c,
        exists c', for_each files (Processor.process_coco_file L labels_dir) c = Ok tt c')
  /\ (forall labels_dir files c,
        (forall f, In f files ->
           exists e, load_json L (Processor.fs (Processor.base c)) f = inl e) ->
        exists c',
          for_each files (Processor.process_coco_file L labels_dir) c = Ok tt c'
          /\ List.length (Processor.errors (Processor.res (Processor.base c')))
             = (List.length (Processor.errors (Processor.res (Processor.base c)))
                + List.length files)%nat)
  /\ (forall s', Processor.convert_coco_to_yolo L inp out s = Ok false s' ->
        (exists e s1,
           Processor.run_body L inp out s = Raise e s1
           /\ Processor.errors (Processor.res s')
              = Processor.errors (Processor.res s1)
                  ++ ["Conversion error: " ++ str_exn L e]%string)
        /\ FS.is_dir (Processor.fs s') (Path.child out "images") = true
        /\ FS.is_dir (Processor.fs s') (Path.child out "labels") = true)
  /\ (forall report format_info s0 b s1,
        FS.exists_ (Processor.fs s0) inp = true ->
        Py.get format_info "detected_format" (JStr "unknown") = inr (JStr "coco") ->
        Processor.convert_coco_to_yolo L inp out
          (Processor.with_res
             (Processor.set_processing_type "coco_to_yolo_conversion" (Processor.res s0)) s0)
        = Ok b s1 ->
        exists s2,
          Processor.process L inp out report format_info s0 = Ok tt s2
          /\ Processor.success (Processor.res s2) = b).
Proof.
  split; [|split; [|split; [|split]]].
  - intros b s' H. pose proof (run_body_returns_true L inp out s b s' H) as ->.
    split; [reflexivity|]. unfold Processor.convert_coco_to_yolo, try_except.
    rewrite H. reflexivity.
  - intros labels_dir files c. apply coco_loop_returns.
  - intros labels_dir files c Hall.
    destruct (coco_loop_all_unreadable L labels_dir files c Hall) as (c' & Hrun & _ & Hlen).
    eauto.
  - intros s' H. unfold Processor.convert_coco_to_yolo, try_except in H.
    destruct (Processor.run_body L inp out s) as [b s1|e s1] eqn:E.
    + pose proof (run_body_returns_true L inp out s b s1 E) as ->.
      discriminate.
    + destruct (convert_handler_creates_directories L out e s1 s' false H)
        as (_ & Himg & Hlab & Herr).
      split; [exists e, s1; auto|]. auto.
  - intros report format_info s0 b s1 Hex Hfmt Hconv.
    destruct (process_reports_conversion_flag L inp out report format_info s0 s1 b
                Hex Hfmt Hconv) as [fs' Hrun].
    eexists. split; [exact Hrun|]. reflexivity.
Qed.



(** ** The COCO to YOLO conversion: label lines *)

Section LabelFacts.

Variable L : Lib.

Local Open Scope string_scope.

Lemma getitem_has_key (v : json) (k : string) (x : json) :
  Py.getitem v k = inr x -> Py.has_key v k = true.
Proof.
  destruct v; simpl; try discriminate.
  destruct (Py.assoc k members); [reflexivity|discriminate].
Qed.

(** The line the code builds is the line of the specification. *)
Lemma yolo_line_is_label_line (ann x y w h cid img_width img_height : json) :
  Py.getitem ann "bbox" = inr (JList [x; y; w; h]) ->
  Py.getitem ann "category_id" = inr cid ->
  Processor.yolo_line L ann img_width img_height
  = LabelSpec.label_line L cid x y w h img_width img_height.
Proof.
  intros Hb Hc.
  unfold Processor.yolo_line, LabelSpec.label_line, LabelSpec.center, LabelSpec.norm,
    LabelSpec.yolo_class, LabelSpec.format_line, Processor.class_id_of.
  rewrite Hb, Hc. simpl.
  destruct (Py.truediv w (JInt 2)) as [e|hw]; [reflexivity|]. simpl.
  destruct (Py.add x (JFloat hw)) as [e|sx]; [reflexivity|]. simpl.
  destruct (Py.truediv sx img_width) as [e|xc]; [reflexivity|]. simpl.
  destruct (Py.truediv h (JInt 2)) as [e|hh]; [reflexivity|]. simpl.
  destruct (Py.add y (JFloat hh)) as [e|sy]; [reflexivity|]. simpl.
  destruct (Py.truediv sy img_height) as [e|yc]; [reflexivity|]. simpl.
  destruct (Py.truediv w img_width) as [e|nw]; [reflexivity|]. simpl.
  destruct (Py.truediv h img_height) as [e|nh]; reflexivity.
Qed.

Lemma float_of_two : Flt.of_int 2 = inr 2%float.
Proof. vm_compute. reflexivity. Qed.

Lemma two_is_not_zero : is_zero 2 = false.
Proof. vm_compute. reflexivity. Qed.

Lemma truediv_floats (a b : float) :
  is_zero b = false -> Py.truediv (JFloat a) (JFloat b) = inr (a / b)%float.
Proof.
  intros H. cbv beta iota delta [Py.truediv Py.as_num Py.to_float Flt.truediv].
  rewrite H. reflexivity.
Qed.

Lemma truediv_float_by_two (a : float) :
  Py.truediv (JFloat a) (JInt 2) = inr (a / 2)%float.
Proof.
  cbv beta iota delta [Py.truediv Py.as_num Py.to_float Flt.truediv].
  rewrite float_of_two, two_is_not_zero. reflexivity.
Qed.

Lemma add_floats (a b : float) :
  Py.add (JFloat a) (JFloat b) = inr (JFloat (a + b)%float).
Proof. reflexivity. Qed.

(** On floats, with an image that has a width and a height, the centre is
    [(x + w / 2) / size] in binary64 arithmetic. *)
Lemma center_of_floats (x w size : float) :
  is_zero size = false ->
  LabelSpec.center (JFloat x) (JFloat w) (JFloat size) = inr ((x + w / 2) / size)%float.
Proof.
  intros H. unfold LabelSpec.center.
  rewrite truediv_float_by_two. cbv beta iota delta [ebind].
  rewrite add_floats. cbv beta iota.
  apply truediv_floats, H.
Qed.

Lemma norm_of_floats (w size : float) :
  is_zero size = false ->
  LabelSpec.norm (JFloat w) (JFloat size) = inr (w / size)%float.
Proof. intros H. apply truediv_floats, H. Qed.

Lemma yolo_class_of_int (c : Z) :
  LabelSpec.yolo_class (JInt c) = inr (JInt (if (0 <? c)%Z then c - 1 else 0)%Z).
Proof.
  unfold LabelSpec.yolo_class. simpl. destruct (0 <? c)%Z; reflexivity.
Qed.

End LabelFacts.

(** C4.  For an annotation with [bbox = [x, y, w, h]] and a [category_id],
    and the image metadata [img_width], [img_height] its [image_id] maps to:
    - the conversion appends to the lines of the image exactly the line
      "{class_id} {x_center:.6f} {y_center:.6f} {norm_w:.6f} {norm_h:.6f}"
      of the specification, or raises where a step of its arithmetic does;
    - for float values and an image of non-zero width and height this is
      [(x + w/2)/img_width], [(y + h/2)/img_height], [w/img_width],
      [h/img_height] in binary64, with [class_id = category_id - 1] for a
      positive integer id and 0 otherwise;
    - the metadata of an image entry has width 640 and height 480 where the
      entry has none;
    - bbox [10, 20, 30, 40] on a 100 x 200 image gives 0.25, 0.20, 0.30,
      0.20, and category 1 gives class 0, as does category 0. *)
Theorem yolo_label_line (L : Lib) :
  (forall ann x y w h cid img_width img_height lines c,
     Py.getitem ann "bbox" = inr (JList [x; y; w; h]) ->
     Py.getitem ann "category_id" = inr cid ->
     Processor.convert_annotation L img_width img_height lines ann c
     = match LabelSpec.label_line L cid x y w h img_width img_height with
       | inr line =>
           Ok (lines ++ [line])
              {| Processor.base := Processor.base c;
                 Processor.all_categories := Processor.all_categories c;
                 Processor.converted_annotations :=
                   (Processor.converted_annotations c + 1)%Z |}
       | inl e => Raise e c
       end)
  /\ (forall (cid : Z) (x y w h img_width img_height : float),
        is_zero img_width = false ->
        is_zero img_height = false ->
        LabelSpec.label_line L (JInt cid) (JFloat x) (JFloat y) (JFloat w) (JFloat h)
          (JFloat img_width) (JFloat img_height)
        = inr (Str.of_Z (if (0 <? cid)%Z then cid - 1 else 0)
               ++ " " ++ Flt.format_6f ((x + w / 2) / img_width)
               ++ " " ++ Flt.format_6f ((y + h / 2) / img_height)
               ++ " " ++ Flt.format_6f (w / img_width)
               ++ " " ++ Flt.format_6f (h / img_height))%string%float)
  /\ (forall mapping members filename id,
        Py.assoc "file_name" members = Some filename ->
        Py.assoc "id" members = Some id ->
        Py.hashable id = true ->
        Processor.add_image mapping (JObj members)
        = inr (Py.dict_set id (LabelSpec.metadata members filename) mapping))
  /\ LabelSpec.label_line L (JInt 1) (JInt 10) (JInt 20) (JInt 30) (JInt 40)
       (JInt 100) (JInt 200) = inr "0 0.250000 0.200000 0.300000 0.200000"%string
  /\ LabelSpec.yolo_class (JInt 0) = inr (JInt 0).
Proof.
  split; [|split; [|split; [|split]]].
  - intros ann x y w h cid img_width img_height lines c Hb Hc.
    unfold Processor.convert_annotation.
    rewrite (getitem_has_key _ _ _ Hb), (getitem_has_key _ _ _ Hc). simpl.
    unfold bind, lift, modify, ret.
    rewrite (yolo_line_is_label_line L ann x y w h cid img_width img_height Hb Hc).
    destruct (LabelSpec.label_line L cid x y w h img_width img_height); reflexivity.
  - intros cid x y w h img_width img_height Hw Hh.
    unfold LabelSpec.label_line.
    rewrite !center_of_floats, !norm_of_floats, yolo_class_of_int by assumption.
    reflexivity.
  - intros mapping members filename id Hf Hi Hh.
    unfold Processor.add_image, LabelSpec.metadata. simpl.
    rewrite Hf, Hi. simpl.
    destruct (Py.assoc "width" members); destruct (Py.assoc "height" members);
      simpl; rewrite Hh; reflexivity.
  - vm_compute. reflexivity.
  - reflexivity.
Qed.

(** ** The theorems at work on the examples *)

Section Witnesses.

Import Examples.
Local Open Scope string_scope.

(** C4 on the annotation of [coco_doc], on float values, and through the
    whole of [process_data]: the label file of the image holds the line. *)
Lemma yolo_label_line_witness :
  (exists c',
     Processor.convert_annotation Ref.lib (JInt 100) (JInt 200) [] annotation
       {| Processor.base := state_of fs_one_coco "coco";
          Processor.all_categories := []; Processor.converted_annotations := 0 |}
     = Ok ["0 0.250000 0.200000 0.300000 0.200000"] c')
  /\ LabelSpec.label_line Ref.lib (JInt 3) (JFloat 10.5) (JFloat 20) (JFloat 30) (JFloat 40)
       (JFloat 640) (JFloat 480) = inr "2 0.039844 0.083333 0.046875 0.083333"
  /\ exists r fs',
       Processor.process_data Ref.lib ["data"] ["work"; "format.json"] ["out"]
         ["work"; "report.json"]
         (Dir [("data", Dir [("instances.json", File (text_of coco_doc))]);
               ("work", Dir [("format.json",
                              File (text_of (JObj [("detected_format", JStr "coco")])))])])
       = Ok r fs'
       /\ FS.read_file fs' ["out"; "labels"; "a.txt"]
          = inr "0 0.250000 0.200000 0.300000 0.200000".
Proof.
  split; [|split].
  - eexists.
    rewrite (proj1 (yolo_label_line Ref.lib) annotation
               (JInt 10) (JInt 20) (JInt 30) (JInt 40) (JInt 1)) by reflexivity.
    vm_compute. reflexivity.
  - rewrite (proj1 (proj2 (yolo_label_line Ref.lib))) by (vm_compute; reflexivity).
    vm_compute. reflexivity.
  - eexists. eexists. split; vm_compute; reflexivity.
Defined.

(** C8 on [fs_yolo]: the stale output is replaced by a copy of the input,
    also through two runs of [process_data]; and with the output inside the
    input the two counts differ (9 and 4), which is recorded as a warning
    while the copy returns true. *)
Lemma direct_copy_replaces_output_witness :
  apart ["data"] ["out"]
  /\ can_hold_directory fs_yolo ["out"]
  /\ FS.copy_fits fs_yolo ["data"] ["out"] = true
  /\ (exists s1,
        Processor.copy_yolo_data_directly Ref.lib ["data"] ["out"] (state_of fs_yolo "yolo")
        = Ok true s1
        /\ FS.lookup (Processor.fs s1) ["out"] = FS.lookup fs_yolo ["data"])
  /\ (exists r1 fs1 r2 fs2,
        Processor.process_data Ref.lib ["data"] ["work"; "format.json"] ["out"]
          ["work"; "report.json"] fs_yolo = Ok r1 fs1
        /\ Processor.process_data Ref.lib ["data"] ["work"; "format.json"] ["out"]
             ["work"; "report.json"] fs1 = Ok r2 fs2
        /\ FS.lookup fs2 ["out"] = FS.lookup fs_yolo ["data"])
  /\ (exists r',
        Processor.copy_yolo_data_directly Ref.lib ["data"] ["data"; "copy"]
          (state_of fs_yolo "yolo")
        = Ok true r'
        /\ Processor.errors (Processor.res r') = []
        /\ Processor.warnings (Processor.res r')
           = ["File count mismatch: input=9, output=4"]).
Proof.
  assert (Hap : apart ["data"] ["out"]) by (split; reflexivity).
  assert (Hout : can_hold_directory fs_yolo ["out"]) by (left; reflexivity).
  split; [exact Hap|]. split; [exact Hout|]. split; [reflexivity|]. split; [|split].
  - destruct (proj1 (direct_copy_replaces_output Ref.lib ["data"] ["out"])
                (state_of fs_yolo "yolo") _ eq_refl eq_refl eq_refl eq_refl Hap Hout)
      as (s1 & Hrun & Hlook & _).
    exists s1. split; [exact Hrun|]. rewrite Hlook. reflexivity.
  - edestruct (proj1 (proj2 (direct_copy_replaces_output Ref.lib ["data"] ["out"]))
                 ["work"; "format.json"] ["work"; "report.json"] fs_yolo)
      as (r1 & fs1 & r2 & fs2 & Hrun1 & _ & Hout1 & Hrun2 & _ & Hout2).
    + reflexivity.
    + reflexivity.
    + reflexivity.
    + reflexivity.
    + reflexivity.
    + vm_compute. reflexivity.
    + reflexivity.
    + exact Hap.
    + exact Hout.
    + reflexivity.
    + reflexivity.
    + split; reflexivity.
    + reflexivity.
    + exists r1, fs1, r2, fs2. split; [exact Hrun1|]. split; [exact Hrun2|].
      rewrite Hout2, Hout1. reflexivity.
  - edestruct (proj2 (proj2 (direct_copy_replaces_output Ref.lib ["data"] ["data"; "copy"]))
                 (state_of fs_yolo "yolo")) as (r' & Hrun & Herr & Hwarn).
    + vm_compute. reflexivity.
    + vm_compute. reflexivity.
    + vm_compute. reflexivity.
    + vm_compute. reflexivity.
    + vm_compute. discriminate.
    + eexists. split; [exact Hrun|]. simpl. split; [exact Herr|].
      rewrite Hwarn. vm_compute. reflexivity.
Defined.

(** C10 on two unparseable JSON files: the conversion returns true with two
    entries in [errors]; and with [classes.txt] blocked by a directory it
    returns false after creating [images/] and [labels/]. *)
Lemma conversion_success_flag_witness :
  (exists s',
     Processor.convert_coco_to_yolo Ref.lib ["data"] ["out"] (state_of fs_bad_json "coco")
     = Ok true s'
     /\ List.length (Processor.errors (Processor.res s')) = 2%nat)
  /\ (exists s',
        Processor.convert_coco_to_yolo Ref.lib ["data"] ["out"]
          (state_of fs_blocked_classes "coco") = Ok false s'
        /\ FS.is_dir (Processor.fs s') ["out"; "images"] = true
        /\ FS.is_dir (Processor.fs s') ["out"; "labels"] = true).
Proof.
  split.
  - edestruct (proj1 (conversion_success_flag Ref.lib ["data"] ["out"]
                        (state_of fs_bad_json "coco"))) as [_ Hrun].
    + vm_compute. reflexivity.
    + eexists. split; [exact Hrun|]. vm_compute. reflexivity.
  - assert (Hrun : exists s',
              Processor.convert_coco_to_yolo Ref.lib ["data"] ["out"]
                (state_of fs_blocked_classes "coco") = Ok false s')
      by (eexists; vm_compute; reflexivity).
    destruct Hrun as [s' Hrun]. exists s'. split; [exact Hrun|].
    destruct (proj1 (proj2 (proj2 (proj2 (conversion_success_flag Ref.lib ["data"] ["out"]
                                            (state_of fs_blocked_classes "coco"))))) s' Hrun)
      as (_ & Himg & Hlab).
    split; assumption.
Defined.

End Witnesses.

(** ** Plain paths *)

Section PlainPaths.

Lemma entry_name_ok (c : string) : Path.entry_name c = true -> FS.name_ok c = true.
Proof.
  unfold Path.entry_name, FS.name_ok, FS.has_nul. intros H.
  repeat (apply andb_true_iff in H; destruct H as [H ?]).
  apply andb_true_iff. split; assumption.
Qed.

Lemma plain_components (p : path) :
  Path.plain p = true -> forall c, In c p -> Path.entry_name c = true.
Proof.
  unfold Path.plain. intros H c Hc. apply andb_true_iff in H. destruct H as [H _].
  rewrite forallb_forall in H. exact (H c Hc).
Qed.

(** No component of a plain path holds a NUL byte. *)
Lemma plain_no_nul (p : path) : Path.plain p = true -> existsb FS.has_nul p = false.
Proof.
  intros H. destruct (existsb FS.has_nul p) eqn:E; [|reflexivity].
  apply existsb_exists in E. destruct E as (c & Hc & Hnul).
  pose proof (entry_name_ok c (plain_components p H c Hc)) as Hok.
  unfold FS.name_ok in Hok. rewrite Hnul in Hok. discriminate.
Qed.

(** The name of a plain path can be given to a new entry. *)
Lemma plain_name_ok (p : path) :
  Path.plain p = true -> p <> [] -> FS.name_ok (Path.name p) = true.
Proof.
  intros H Hne. apply entry_name_ok, (plain_components p H).
  unfold Path.name. destruct (exists_last Hne) as (q & c & ->).
  rewrite last_last. apply in_or_app. right. left. reflexivity.
Qed.

(** No component of a plain path is the name of the parent directory. *)
Lemma plain_no_dotdot (p : path) : Path.plain p = true -> ~ In ".." p.
Proof.
  intros H Hin. pose proof (plain_components p H _ Hin) as Hc. discriminate.
Qed.

End PlainPaths.

Section Guarantees.

Context {S : Type}.

Lemma ensures_ret {A} (P : S -> Prop) (Q : A -> S -> Prop) R (a : A) :
  (forall s, P s -> Q a s) -> ensures P Q R (ret a).
Proof. intros H s Hs. apply H, Hs. Qed.

Lemma ensures_bind {A B} (P : S -> Prop) (Q' : A -> S -> Prop) (Q : B -> S -> Prop) R
      (m : M S A) (k : A -> M S B) :
  ensures P Q' R m -> (forall a, ensures (Q' a) Q R (k a)) -> ensures P Q R (bind m k).
Proof.
  intros Hm Hk s Hs. unfold bind. specialize (Hm s Hs).
  destruct (m s) as [a s'|e s']; [apply Hk, Hm|exact Hm].
Qed.

Lemma ensures_try_except {A} (P : S -> Prop) (Q : A -> S -> Prop) (R' R : exn -> S -> Prop)
      (m : M S A) (h : exn -> M S A) :
  ensures P Q R' m -> (forall e, ensures (R' e) Q R (h e)) -> ensures P Q R (try_except m h).
Proof.
  intros Hm Hh s Hs. unfold try_except. specialize (Hm s Hs).
  destruct (m s) as [a s'|e s']; [exact Hm|apply Hh, Hm].
Qed.

Lemma ensures_weaken {A} (P P' : S -> Prop) (Q Q' : A -> S -> Prop) (R R' : exn -> S -> Prop)
      (m : M S A) :
  ensures P' Q' R' m ->
  (forall s, P s -> P' s) -> (forall a s, Q' a s -> Q a s) -> (forall e s, R' e s -> R e s) ->
  ensures P Q R m.
Proof.
  intros Hm HP HQ HR s Hs. specialize (Hm s (HP s Hs)).
  destruct (m s); auto.
Qed.

Lemma preserves_ret {A} (P : S -> Prop) (a : A) : preserves P (ret a).
Proof. apply ensures_ret. auto. Qed.

Lemma preserves_raise {A} (P : S -> Prop) (e : exn) : preserves P (raise (A := A) e).
Proof. intros s Hs. exact Hs. Qed.

Lemma preserves_bind {A B} (P : S -> Prop) (m : M S A) (k : A -> M S B) :
  preserves P m -> (forall a, preserves P (k a)) -> preserves P (bind m k).
Proof. intros Hm Hk. eapply ensures_bind; [exact Hm|exact Hk]. Qed.

Lemma preserves_try_except {A} (P : S -> Prop) (m : M S A) (h : exn -> M S A) :
  preserves P m -> (forall e, preserves P (h e)) -> preserves P (try_except m h).
Proof. intros Hm Hh. eapply ensures_try_except; [exact Hm|exact Hh]. Qed.

Lemma preserves_get (P : S -> Prop) : preserves P get.
Proof. intros s Hs. exact Hs. Qed.

Lemma preserves_lift {A} (P : S -> Prop) (r : exn + A) : preserves P (lift r).
Proof. intros s Hs. unfold lift. destruct r; exact Hs. Qed.

Lemma preserves_modify (P : S -> Prop) (f : S -> S) :
  (forall s, P s -> P (f s)) -> preserves P (modify f).
Proof. intros H s Hs. apply H, Hs. Qed.

Lemma preserves_for_each {X} (P : S -> Prop) (body : X -> M S unit) (l : list X) :
  (forall x, preserves P (body x)) -> preserves P (for_each l body).
Proof.
  intros H. induction l as [|x l IH]; simpl.
  - apply preserves_ret.
  - apply preserves_bind; [apply H|intros _; exact IH].
Qed.

Lemma preserves_final {A} (P : S -> Prop) (m : M S A) (s : S) :
  preserves P m -> P s -> P (final (m s)).
Proof. intros H Hs. specialize (H s Hs). destruct (m s); exact H. Qed.

End Guarantees.

(** ** File-system steps and what they leave alone *)

Section Steps.

Lemma preserves_fs_op (P : node -> Prop) (f : node -> exn + node) :
  (forall fs fs', f fs = inr fs' -> P fs -> P fs') -> preserves P (fs_op f).
Proof.
  intros H fs Hfs. unfold fs_op. destruct (f fs) as [e|fs'] eqn:E; [exact Hfs|].
  eapply H; eassumption.
Qed.

Lemma preserves_fs_op' (P : node -> Prop) (f : node -> exn * node + node) :
  (forall fs fs', f fs = inr fs' -> P fs -> P fs') ->
  (forall fs e fs', f fs = inl (e, fs') -> P fs -> P fs') ->
  preserves P (fs_op' f).
Proof.
  intros H H' fs Hfs. unfold fs_op'. destruct (f fs) as [[e fs']|fs'] eqn:E.
  - eapply H'; eassumption.
  - eapply H; eassumption.
Qed.

Lemma os_makedirs_frame_off (fs fs' : node) (d q : path) :
  FS.os_makedirs fs d = inr fs' -> Path.is_prefix q d = false ->
  FS.lookup fs' q = FS.lookup fs q.
Proof.
  unfold FS.os_makedirs. destruct d as [|c d]; [discriminate|].
  intros H Hq. eapply mkdir_at_frame_off; eassumption.
Qed.

Lemma write_file_frame_off (fs fs' : node) (p q : path) (data : string) :
  FS.write_file fs p data = inr fs' -> Path.is_prefix q p = false ->
  FS.lookup fs' q = FS.lookup fs q.
Proof.
  unfold FS.write_file. destruct (existsb FS.has_nul p); [discriminate|].
  intros H Hq. eapply write_at_frame_off; eassumption.
Qed.

Lemma not_prefix_of_parent (q p : path) :
  Path.is_prefix q p = false -> Path.is_prefix q (Path.parent p) = false.
Proof.
  intros H. destruct (Path.is_prefix q (Path.parent p)) eqn:E; [|reflexivity].
  apply is_prefix_removelast in E. congruence.
Qed.

(** Writing a dict to [p] changes nothing at a path that is not on the way
    to [p]. *)
Lemma dump_to_frame (L : Lib) (p : path) (v : json) (q : path) (x : option node) :
  Path.is_prefix q p = false ->
  preserves (fun fs => FS.lookup fs q = x) (dump_to L p v).
Proof.
  intros Hq. unfold dump_to.
  apply preserves_bind; [|intros _]; apply preserves_fs_op; intros fs fs' H Hfs.
  - rewrite (os_makedirs_frame_off _ _ _ _ H (not_prefix_of_parent _ _ Hq)). exact Hfs.
  - rewrite (write_file_frame_off _ _ _ _ _ H Hq). exact Hfs.
Qed.

End Steps.

(** The detector changes nothing but its two output files and the
    directories on the way to them: for plain output paths, whatever is
    listed at a plain path [q] that is not on the way to an output file (and
    is not one of them) is the same after the call, whether the writes
    succeed or fail and whether the input path exists or not. *)
Theorem detector_touches_only_its_outputs
        (L : Lib) (input_data format_info format_report : path) (fs : node) (q : path) :
  Path.plain format_info = true ->
  Path.plain format_report = true ->
  Path.plain q = true ->
  Path.is_prefix q format_info = false ->
  Path.is_prefix q format_report = false ->
  FS.lookup (final (Detector.detect_data_format L input_data format_info format_report fs)) q
  = FS.lookup fs q.
Proof.
  intros _ _ _ Hi Hr.
  apply (preserves_final (fun fs' => FS.lookup fs' q = FS.lookup fs q)); [|reflexivity].
  unfold Detector.detect_data_format.
  apply preserves_bind; [apply preserves_get|]. intros fs0.
  destruct (negb (FS.exists_ fs0 input_data)).
  - apply preserves_try_except; [|intros; apply preserves_ret].
    apply preserves_bind; [|intros _]; apply dump_to_frame; assumption.
  - apply preserves_bind; [|intros _];
      (apply preserves_try_except; [|intros; apply preserves_ret]);
      apply dump_to_frame; assumption.
Qed.

Lemma detector_touches_only_its_outputs_witness :
  FS.lookup (final (Detector.detect_data_format Ref.lib ["data"] ["work"; "format.json"]
                      ["work"; "format_report.json"] Examples.fs_nested_coco)) ["data"]
  = FS.lookup Examples.fs_nested_coco ["data"].
Proof.
  apply (detector_touches_only_its_outputs Ref.lib); reflexivity.
Defined.


Section DecisionInvariants.

Variable L : Lib.

Lemma preserves_detector_loop {S A X : Type} (P : S -> Prop) (body : A -> X -> M S A)
      (l : list X) :
  (forall a x, preserves P (body a x)) -> forall a, preserves P (Detector.loop body a l).
Proof.
  intros H. induction l as [|x l IH]; intros a; simpl.
  - apply preserves_ret.
  - apply preserves_bind; [apply H|intros a'; apply IH].
Qed.

Let P0 (s : Detector.State) : Prop := undecided (Detector.results s).

Lemma scan_json_keeps_results (fs : node) (c : Z) (f : path) :
  preserves P0 (Detector.scan_json L fs c f).
Proof.
  unfold Detector.scan_json.
  apply preserves_try_except; [|intros; apply preserves_ret].
  apply preserves_bind; [apply preserves_lift|]. intros data.
  repeat match goal with
         | |- preserves _ (if ?b then _ else _) => destruct b
         | |- preserves _ (bind _ _) => apply preserves_bind; [|intros]
         | |- preserves _ (modify _) => apply preserves_modify; intros s Hs; exact Hs
         | |- preserves _ (ret _) => apply preserves_ret
         end.
Qed.

Lemma scan_txt_keeps_results (acc : option path * Z) (f : path) :
  preserves P0 (Detector.scan_txt acc f).
Proof.
  unfold Detector.scan_txt.
  repeat match goal with
         | |- preserves _ (if ?b then _ else _) => destruct b
         | |- preserves _ (bind _ _) => apply preserves_bind; [|intros]
         | |- preserves _ (modify _) => apply preserves_modify; intros s Hs; exact Hs
         | |- preserves _ (ret _) => apply preserves_ret
         end.
Qed.

Lemma list_all_files_keeps_results (fs : node) (p : path) :
  preserves P0 (Detector.list_all_files L fs p).
Proof.
  unfold Detector.list_all_files.
  apply preserves_try_except; [|intros; apply preserves_ret].
  apply preserves_bind; [apply preserves_lift|intros].
  apply preserves_bind; [|intros; apply preserves_ret].
  apply preserves_modify. intros s Hs. exact Hs.
Qed.

(** The decision step: it decides, or it raises with no decision taken. *)
Lemma decide_decides (c y : Z) :
  ensures P0 (fun _ s => decided (Detector.results s)) (fun _ s => P0 s)
    (Detector.decide c y).
Proof.
  intros s (Hn & Hs & Hc & He). unfold Detector.decide, bind, modify, lift.
  destruct ((y <=? c)%Z && (2 <=? c)%Z)%bool; simpl.
  - destruct (Detector.confidence_of c) as [e|x] eqn:E; simpl.
    + unfold P0, undecided; simpl; repeat split; assumption.
    + split; [exact He|]. left. repeat split.
      unfold Detector.confidence_of in E. destruct (Flt.of_int c); [discriminate|].
      injection E as <-. eexists; reflexivity.
  - destruct (2 <=? y)%Z; simpl.
    + destruct (Detector.confidence_of y) as [e|x] eqn:E; simpl.
      * unfold P0, undecided; simpl; repeat split; assumption.
      * split; [exact He|]. right. left. repeat split.
        unfold Detector.confidence_of in E. destruct (Flt.of_int y); [discriminate|].
        injection E as <-. eexists; reflexivity.
    + split; [exact He|]. right. right. repeat split.
Qed.

(** The analysis ends with a decision, or raises with none taken. *)
Lemma analyse_decides (fs : node) (p : path) :
  ensures P0 (fun _ s => decided (Detector.results s)) (fun _ s => P0 s)
    (Detector.analyse L fs p).
Proof.
  unfold Detector.analyse.
  eapply ensures_bind; [apply list_all_files_keeps_results|]. intros all_files.
  eapply ensures_bind; [apply preserves_lift|]. intros top_json.
  eapply ensures_bind; [apply preserves_lift|]. intros deep_json.
  eapply ensures_bind;
    [apply preserves_detector_loop; intros; apply scan_json_keeps_results|].
  intros coco.
  eapply ensures_bind; [apply preserves_lift|]. intros top_txt.
  eapply ensures_bind; [apply preserves_lift|]. intros deep_txt.
  eapply ensures_bind;
    [apply preserves_detector_loop; intros; apply scan_txt_keeps_results|].
  intros [classes_file yolo].
  eapply ensures_bind; [apply preserves_lift|]. intros image_files.
  apply (ensures_bind P0 (fun _ => P0)).
  { change (preserves P0
              (if (3 <=? fold_left (Detector.scan_image L fs) (firstn 10 image_files) 0)%Z
               then bind (modify (Detector.add_logic
                            ("Found " ++ Str.of_Z (fold_left (Detector.scan_image L fs)
                                                     (firstn 10 image_files) 0%Z)
                             ++ " files with YOLO format annotations")))
                         (fun _ => ret (yolo + 3)%Z)
               else if (0 <? fold_left (Detector.scan_image L fs) (firstn 10 image_files) 0)%Z
               then bind (modify (Detector.add_logic
                            ("Found " ++ Str.of_Z (fold_left (Detector.scan_image L fs)
                                                     (firstn 10 image_files) 0%Z)
                             ++ " files with possible YOLO annotations")))
                         (fun _ => ret (yolo + 1)%Z)
               else ret yolo)).
    destruct (3 <=? _)%Z; [|destruct (0 <? _)%Z];
      try (apply preserves_bind; [apply preserves_modify; intros s0 Hs0; exact Hs0|intros]);
      apply preserves_ret. }
  intros yolo'.
  eapply ensures_bind; [apply decide_decides|]. intros u.
  intros s Hs. exact Hs.
Qed.

Lemma py_min_at_most (a x : float) :
  (a <=? a)%float = true -> (Flt.py_min a x <=? a)%float = true.
Proof.
  intros Ha. unfold Flt.py_min. destruct (x <? a)%float eqn:E; [|exact Ha].
  rewrite ltb_spec in E. rewrite leb_spec.
  unfold SFltb in E. unfold SFleb. destruct (SFcompare (Prim2SF x) (Prim2SF a)) as [[]|];
    try discriminate; reflexivity.
Qed.

End DecisionInvariants.

(** Whatever the input and however the analysis ends, the decision the
    detector hands to [json.dump] is consistent: the format is one of
    [coco], [yolo], [unknown] and [error]; [skip_conversion] is set exactly
    for [yolo], and [conversion_needed] is its negation; the key [error] is
    present exactly for the format [error]; the confidence is at most 0.9
    (so it is not NaN), and it is 0.0 for [unknown] and [error]. *)
Theorem detector_decision_is_consistent (L : Lib) (fs : node) (p : path) :
  let r := Detector.results (Detector.detected L fs p) in
  In (Detector.detected_format r) ["coco"; "yolo"; "unknown"; "error"]
  /\ Detector.conversion_needed r = negb (Detector.skip_conversion r)
  /\ (Detector.skip_conversion r = true <-> Detector.detected_format r = "yolo")
  /\ (Detector.error r <> None <-> Detector.detected_format r = "error")
  /\ (Detector.confidence r <=? 0.9)%float = true
  /\ (Detector.detected_format r = "unknown" \/ Detector.detected_format r = "error" ->
      Detector.confidence r = 0%float).
Proof.
  intros r.
  assert (H : decided r
              \/ (Detector.detected_format r = "error" /\ Detector.error r <> None
                  /\ Detector.conversion_needed r = true
                  /\ Detector.skip_conversion r = false
                  /\ Detector.confidence r = 0%float)).
  { subst r. unfold Detector.detected.
    destruct (FS.exists_ fs p).
    - unfold Detector.analysed.
      pose proof (analyse_decides L fs p (Detector.initial L p)) as Hrun.
      destruct (Detector.analyse L fs p (Detector.initial L p)) as [[] s|e s].
      + left. apply Hrun. repeat split.
      + right. destruct Hrun as (Hn & Hs & Hc & He); [repeat split|].
        simpl. repeat split; try assumption. discriminate.
    - left. split; [reflexivity|]. right. right. repeat split. }
  destruct H as [[He [H|[H|H]]]|H].
  - destruct H as (Hf & Hn & Hs & x & Hc). rewrite Hf, Hn, Hs, He, Hc.
    split; [simpl; auto|]. split; [reflexivity|].
    split; [split; discriminate|]. split; [split; [congruence|discriminate]|].
    split; [apply py_min_at_most; reflexivity|]. intros [?|?]; discriminate.
  - destruct H as (Hf & Hn & Hs & x & Hc). rewrite Hf, Hn, Hs, He, Hc.
    split; [simpl; auto|]. split; [reflexivity|].
    split; [split; reflexivity|]. split; [split; [congruence|discriminate]|].
    split; [apply py_min_at_most; reflexivity|]. intros [?|?]; discriminate.
  - destruct H as (Hf & Hn & Hs & Hc). rewrite Hf, Hn, Hs, He, Hc.
    split; [simpl; auto|]. split; [reflexivity|].
    split; [split; discriminate|]. split; [split; [congruence|discriminate]|].
    split; [reflexivity|]. reflexivity.
  - destruct H as (Hf & He & Hn & Hs & Hc). rewrite Hf, Hn, Hs, Hc.
    split; [simpl; auto 6|]. split; [reflexivity|].
    split; [split; discriminate|]. split; [split; [reflexivity|intros _; exact He]|].
    split; [reflexivity|]. reflexivity.
Qed.

Section EmptyInput.

Variable L : Lib.

Lemma glob_here_nothing (sel : string -> bool) (fs : node) (p : path) :
  lists_nothing fs p -> FS.glob_here sel fs p = [].
Proof. unfold FS.glob_here. intros [H|[d H]]; rewrite H; reflexivity. Qed.

Lemma glob_rec_nothing (sel : string -> bool) (fs : node) (p : path) :
  lists_nothing fs p -> FS.glob_rec sel fs p = [].
Proof. unfold FS.glob_rec. intros [H|[d H]]; rewrite H; reflexivity. Qed.

Lemma image_files_nothing (exts : list string) (fs : node) (p : path) :
  lists_nothing fs p -> Scores.image_files_for exts fs p = [].
Proof.
  intros H. unfold Scores.image_files_for.
  induction exts as [|ext exts IH]; simpl; [reflexivity|].
  rewrite IH, glob_here_nothing, glob_rec_nothing by exact H. reflexivity.
Qed.

Lemma analyse_nothing (fs : node) (p : path) (s0 : Detector.State) :
  lists_nothing fs p ->
  (forall pat, scan_fault L p pat = None) ->
  Detector.analyse L fs p s0
  = Ok tt (Detector.with_results
             (fun r =>
                Detector.set_details
                  (JObj [("coco_score", JInt 0); ("yolo_score", JInt 0);
                         ("json_files_found", JInt 0); ("txt_files_found", JInt 0);
                         ("image_files_found", JInt 0); ("classes_file_found", JBool false)])
                  (JObj [("total_json_files", JInt 0); ("total_txt_files", JInt 0);
                         ("total_image_files", JInt 0); ("yolo_annotation_files", JInt 0);
                         ("classes_file_path", JNull)])
                  (Detector.set_conversion true false
                     (Detector.set_confidence 0
                        (Detector.set_format "unknown" r))))
             (Detector.set_files_analyzed [] s0)).
Proof.
  intros Hn Hfault.
  unfold Detector.analyse, Detector.list_all_files.
  rewrite !(glob_without_fault L) by apply Hfault.
  rewrite (collect_images_without_fault L) by apply Hfault.
  rewrite (image_files_nothing _ _ _ Hn).
  rewrite !glob_here_nothing, !glob_rec_nothing by exact Hn.
  reflexivity.
Qed.

End EmptyInput.

(** An input path at which nothing can be listed, an empty directory or a
    regular file, is analysed without an error: when no scan fails, the
    format is [unknown] with confidence 0.0, every score and count is 0, no
    classes file is found, and the report lists no file and no reason. *)
Theorem detector_on_empty_input (L : Lib) (fs : node) (p : path) :
  lists_nothing fs p ->
  (forall pat, scan_fault L p pat = None) ->
  let s := Detector.detected L fs p in
  Detector.results s
  = {| Detector.detected_format := "unknown";
       Detector.confidence := 0;
       Detector.format_indicators :=
         JObj [("coco_score", JInt 0); ("yolo_score", JInt 0);
               ("json_files_found", JInt 0); ("txt_files_found", JInt 0);
               ("image_files_found", JInt 0); ("classes_file_found", JBool false)];
       Detector.file_analysis :=
         JObj [("total_json_files", JInt 0); ("total_txt_files", JInt 0);
               ("total_image_files", JInt 0); ("yolo_annotation_files", JInt 0);
               ("classes_file_path", JNull)];
       Detector.conversion_needed := true;
       Detector.skip_conversion := false;
       Detector.error := None |}
  /\ Detector.files_analyzed (Detector.report s) = []
  /\ Detector.detection_logic (Detector.report s) = []
  /\ Detector.report_error (Detector.report s) = None.
Proof.
  intros Hn Hfault s. subst s. unfold Detector.detected, Detector.analysed.
  assert (Hex : FS.exists_ fs p = true).
  { unfold FS.exists_. destruct Hn as [H|[d H]]; rewrite H; reflexivity. }
  rewrite Hex, (analyse_nothing L fs p _ Hn Hfault).
  repeat split.
Qed.

Lemma detector_on_empty_input_witness :
  Detector.detected_format
    (Detector.results (Detector.detected Ref.lib (Dir [("data", Dir [])]) ["data"]))
  = "unknown"
  /\ Detector.detected_format
       (Detector.results
          (Detector.detected Ref.lib (Dir [("data", File "not a directory")]) ["data"]))
     = "unknown".
Proof.
  split.
  - destruct (detector_on_empty_input Ref.lib (Dir [("data", Dir [])]) ["data"]) as [H _].
    + left. reflexivity.
    + intros pat. reflexivity.
    + rewrite H. reflexivity.
  - destruct (detector_on_empty_input Ref.lib (Dir [("data", File "not a directory")])
                ["data"]) as [H _].
    + right. eexists. reflexivity.
    + intros pat. reflexivity.
    + rewrite H. reflexivity.
Defined.

Section WritingFiles.

Lemma is_file_fresh_dirs (p q : path) : FS.is_file (FS.fresh_dirs p) q = false.
Proof.
  unfold FS.is_file. revert q. induction p as [|c p IH]; intros q.
  - destruct q as [|d q]; reflexivity.
  - destruct q as [|d q]; [reflexivity|]. simpl.
    destruct (String.eqb d c); [apply IH|reflexivity].
Qed.

(** A [mkdir] creates no file and removes none. *)
Lemma mkdir_at_is_file (parents : bool) (full p : path) :
  forall n n' q, FS.mkdir_at parents full n p = inr n' -> FS.is_file n' q = FS.is_file n q.
Proof.
  induction p as [|c p IH]; intros n n' q H.
  - destruct n; simpl in H; [discriminate|]. injection H as <-. reflexivity.
  - destruct n as [x|es]; [discriminate|].
    rewrite mkdir_at_cons in H.
    destruct q as [|d q].
    { destruct (FS.assoc c es) as [m|].
      - destruct (FS.mkdir_at parents full m p); [discriminate|]. injection H as <-. reflexivity.
      - destruct p; [injection H as <-; reflexivity|].
        destruct parents; [injection H as <-; reflexivity|discriminate]. }
    unfold FS.is_file. rewrite !lookup_cons.
    destruct (FS.assoc c es) as [m|] eqn:E.
    + destruct (FS.mkdir_at parents full m p) as [e|m'] eqn:E'; [discriminate|].
      injection H as <-. rewrite lookup_cons.
      destruct (String.eqb d c) eqn:Edc.
      * apply String.eqb_eq in Edc. subst d. rewrite assoc_set_entry_same, E.
        apply (IH m m' q E').
      * rewrite (assoc_set_entry_other _ _ _ _ Edc). reflexivity.
    + assert (Hnew : forall t, (forall q', FS.is_file t q' = false) ->
                match FS.lookup (Dir (es ++ [(c, t)])) (d :: q) with
                | Some (File _) => true | _ => false end
                = match FS.assoc d es with
                  | Some n0 => match FS.lookup n0 q with Some (File _) => true | _ => false end
                  | None => false
                  end).
      { intros t Ht. rewrite lookup_cons, (assoc_app_new _ _ _ _ E).
        destruct (String.eqb d c) eqn:Edc.
        - apply String.eqb_eq in Edc. subst d. rewrite E. apply Ht.
        - destruct (FS.assoc d es) as [n0|]; reflexivity. }
      destruct p as [|c' p'].
      * injection H as <-.
        rewrite (Hnew (Dir [])); [|intros q'; destruct q'; reflexivity].
        destruct (FS.assoc d es); reflexivity.
      * destruct parents; [|discriminate]. injection H as <-.
        etransitivity;
          [exact (Hnew (FS.fresh_dirs (c' :: p')) (fun q' => is_file_fresh_dirs _ q'))|].
        destruct (FS.assoc d es); reflexivity.
Qed.

(** A successful write leaves the file at its path. *)
Lemma lookup_after_write_at (full p : path) (data : string) :
  forall n n', FS.write_at full n p data = inr n' -> FS.lookup n' p = Some (File data).
Proof.
  induction p as [|c p IH]; intros n n' H; [discriminate|].
  destruct n as [x|es]; [discriminate|]. simpl in H.
  destruct p as [|c' p'].
  - destruct (FS.assoc c es) as [[x|x]|]; try discriminate.
    + injection H as <-. rewrite lookup_cons, assoc_set_entry_same. reflexivity.
    + destruct (FS.name_ok c); [|discriminate]. injection H as <-.
      rewrite lookup_cons, assoc_set_entry_same. reflexivity.
  - destruct (FS.assoc c es) as [m|]; [|discriminate].
    destruct (FS.write_at full m (c' :: p') data) as [e|m'] eqn:E'; [discriminate|].
    injection H as <-. rewrite lookup_cons, assoc_set_entry_same. eapply IH, E'.
Qed.

(** It creates no file but its own and removes none. *)
Lemma write_at_is_file (full p : path) (data : string) :
  forall n n' q, FS.write_at full n p data = inr n' -> q <> p ->
                 FS.is_file n' q = FS.is_file n q.
Proof.
  induction p as [|c p IH]; intros n n' q H Hq; [discriminate|].
  destruct n as [x|es]; [discriminate|].
  destruct q as [|d q].
  { simpl in H. destruct p.
    - destruct (FS.assoc c es) as [[x|x]|]; try discriminate.
      + injection H as <-. reflexivity.
      + destruct (FS.name_ok c); [|discriminate]. injection H as <-. reflexivity.
    - destruct (FS.assoc c es) as [m|]; [|discriminate].
      destruct (FS.write_at full m (s :: p) data); [discriminate|].
      injection H as <-. reflexivity. }
  destruct (String.eqb d c) eqn:Edc.
  - apply String.eqb_eq in Edc. subst d.
    assert (Hq' : q <> p) by congruence.
    simpl in H. unfold FS.is_file.
    destruct p as [|c' p'].
    + destruct q as [|d' q']; [congruence|].
      destruct (FS.assoc c es) as [[x|x]|] eqn:E; try discriminate.
      * injection H as <-. rewrite !lookup_cons, assoc_set_entry_same, E. reflexivity.
      * destruct (FS.name_ok c); [|discriminate]. injection H as <-.
        rewrite !lookup_cons, assoc_set_entry_same, E. reflexivity.
    + destruct (FS.assoc c es) as [m|] eqn:E; [|discriminate].
      destruct (FS.write_at full m (c' :: p') data) as [e|m'] eqn:E'; [discriminate|].
      injection H as <-. rewrite !lookup_cons, assoc_set_entry_same, E.
      apply (IH m m' q E' Hq').
  - unfold FS.is_file.
    assert (Hpre : Path.is_prefix (d :: q) (c :: p) = false) by (simpl; rewrite Edc; reflexivity).
    rewrite (write_at_frame_off _ _ _ _ _ _ H Hpre). reflexivity.
Qed.

(** A directory that exists is still one after a write. *)
Lemma write_at_keeps_dirs (full p : path) (data : string) :
  forall n n' q, FS.write_at full n p data = inr n' -> FS.is_dir n q = true ->
                 FS.is_dir n' q = true.
Proof.
  induction p as [|c p IH]; intros n n' q H Hq; [discriminate|].
  destruct n as [x|es]; [discriminate|].
  destruct q as [|d q].
  { simpl in H. destruct p.
    - destruct (FS.assoc c es) as [[x|x]|]; try discriminate.
      + injection H as <-. reflexivity.
      + destruct (FS.name_ok c); [|discriminate]. injection H as <-. reflexivity.
    - destruct (FS.assoc c es) as [m|]; [|discriminate].
      destruct (FS.write_at full m (s :: p) data); [discriminate|].
      injection H as <-. reflexivity. }
  destruct (String.eqb d c) eqn:Edc.
  - apply String.eqb_eq in Edc. subst d.
    simpl in H. unfold FS.is_dir in *. rewrite lookup_cons in Hq.
    destruct p as [|c' p'].
    + destruct (FS.assoc c es) as [[x|x]|] eqn:E; try discriminate.
      destruct q; discriminate.
    + destruct (FS.assoc c es) as [m|] eqn:E; [|discriminate].
      destruct (FS.write_at full m (c' :: p') data) as [e|m'] eqn:E'; [discriminate|].
      injection H as <-. rewrite lookup_cons, assoc_set_entry_same.
      apply (IH m m' q E' Hq).
  - unfold FS.is_dir in *.
    assert (Hpre : Path.is_prefix (d :: q) (c :: p) = false) by (simpl; rewrite Edc; reflexivity).
    rewrite (write_at_frame_off _ _ _ _ _ _ H Hpre). exact Hq.
Qed.

(** A write succeeds when the directory of the file exists, the name can be
    used, and no directory is in the place of the file. *)
Lemma write_at_succeeds (full p : path) (data : string) :
  forall n,
    p <> [] -> FS.is_dir n (Path.parent p) = true -> FS.is_dir n p = false ->
    FS.name_ok (Path.name p) = true ->
    exists n', FS.write_at full n p data = inr n'.
Proof.
  unfold Path.parent, Path.name, FS.is_dir.
  induction p as [|c p IH]; intros n Hne Hpar Hp Hname; [congruence|].
  destruct p as [|c' p'].
  - simpl in Hpar. destruct n as [x|es]; [discriminate|]. simpl in *.
    destruct (FS.assoc c es) as [[x|x]|]; [eauto|discriminate|].
    rewrite Hname. eauto.
  - change (removelast (c :: c' :: p')) with (c :: removelast (c' :: p')) in Hpar.
    change (last (c :: c' :: p') "") with (last (c' :: p') "") in Hname.
    destruct n as [x|es]; [discriminate|].
    rewrite lookup_cons in Hpar, Hp.
    simpl. destruct (FS.assoc c es) as [m|]; [|discriminate].
    destruct (IH m) as [m' Hm']; try assumption; [discriminate|].
    simpl in Hm'. rewrite Hm'. eauto.
Qed.

Lemma read_file_of_lookup (fs : node) (p : path) (data : string) :
  existsb FS.has_nul p = false -> FS.lookup fs p = Some (File data) ->
  FS.read_file fs p = inr data.
Proof.
  intros Hn H. unfold FS.read_file. rewrite Hn, (resolve_lookup _ _ _ _ H). reflexivity.
Qed.

Lemma is_prefix_firstn (q t : path) :
  Path.is_prefix q t = true -> q = firstn (List.length q) t.
Proof.
  revert t. induction q as [|c q IH]; intros t H; [reflexivity|].
  destruct t as [|d t]; [discriminate|]. simpl in *.
  apply andb_true_iff in H. destruct H as [H1 H2].
  apply String.eqb_eq in H1. subst d. f_equal. apply IH, H2.
Qed.

Lemma is_prefix_length (q t : path) :
  Path.is_prefix q t = true -> (List.length q <= List.length t)%nat.
Proof.
  revert t. induction q as [|c q IH]; intros t H; simpl; [lia|].
  destruct t as [|d t]; [discriminate|]. simpl in *.
  apply andb_true_iff in H. destruct H as [_ H]. apply IH in H. lia.
Qed.

(** [no_file_on] can be checked prefix by prefix. *)
Lemma no_file_on_by_check (fs : node) (t : path) :
  forallb (fun k => negb (FS.is_file fs (firstn k t))) (seq 0 (S (List.length t))) = true ->
  no_file_on fs t.
Proof.
  intros H q Hq. rewrite forallb_forall in H.
  specialize (H (List.length q)).
  rewrite <- (is_prefix_firstn _ _ Hq) in H.
  apply negb_true_iff, H, in_seq. pose proof (is_prefix_length _ _ Hq). lia.
Qed.

Lemma is_prefix_refl (p : path) : Path.is_prefix p p = true.
Proof. induction p as [|c p IH]; simpl; [reflexivity|]. rewrite String.eqb_refl. exact IH. Qed.

Lemma is_prefix_trans (p q r : path) :
  Path.is_prefix p q = true -> Path.is_prefix q r = true -> Path.is_prefix p r = true.
Proof.
  revert q r. induction p as [|c p IH]; intros q r H1 H2; [reflexivity|].
  destruct q as [|d q]; [discriminate|]. destruct r as [|e r]; [discriminate|].
  simpl in *. apply andb_true_iff in H1, H2. destruct H1 as [H1 H1'], H2 as [H2 H2'].
  apply String.eqb_eq in H1, H2. subst. rewrite String.eqb_refl. simpl. eapply IH; eassumption.
Qed.

Lemma is_prefix_parent (p : path) : Path.is_prefix (Path.parent p) p = true.
Proof.
  unfold Path.parent. induction p as [|c p IH]; [reflexivity|].
  destruct p as [|c' p']; [reflexivity|].
  change (removelast (c :: c' :: p')) with (c :: removelast (c' :: p')).
  simpl. rewrite String.eqb_refl. exact IH.
Qed.

Lemma not_prefix_of_own_parent (p : path) :
  p <> [] -> Path.is_prefix p (Path.parent p) = false.
Proof.
  unfold Path.parent. induction p as [|c p IH]; intros Hne; [congruence|].
  destruct p as [|c' p']; [reflexivity|].
  change (removelast (c :: c' :: p')) with (c :: removelast (c' :: p')).
  simpl. rewrite String.eqb_refl. apply IH. discriminate.
Qed.

Variable L : Lib.

(** Where a file can be written, [dump_to] writes it; another place where a
    file could be written, apart from the first, is still one. *)
Lemma dump_to_writes (p : path) (v : json) (fs : node) :
  can_hold_file fs p ->
  exists fs',
    dump_to L p v fs = Ok tt fs'
    /\ FS.lookup fs' p = Some (File (json_dump L v))
    /\ (forall q, Path.is_prefix q p = false -> FS.lookup fs' q = FS.lookup fs q)
    /\ (forall p', apart p p' -> can_hold_file fs p' -> can_hold_file fs' p').
Proof.
  intros (Hplain & Hpar & Hfree & Hdir).
  assert (Hne : p <> []) by (intros ->; apply Hpar; reflexivity).
  pose proof (plain_no_nul p Hplain) as Hnul.
  pose proof (plain_name_ok p Hplain Hne) as Hname.
  destruct (mkdir_at_succeeds (Path.parent p) (Path.parent p) fs Hfree) as [fs1 H1].
  assert (Hmk : FS.os_makedirs fs (Path.parent p) = inr fs1).
  { unfold FS.os_makedirs. destruct (Path.parent p); [congruence|exact H1]. }
  assert (Hdir1 : FS.is_dir fs1 p = false).
  { unfold FS.is_dir in *.
    rewrite (mkdir_at_frame_off _ _ _ _ _ _ H1 (not_prefix_of_own_parent p Hne)). exact Hdir. }
  destruct (write_at_succeeds p p (json_dump L v) fs1 Hne
              (mkdir_at_is_dir _ _ _ _ _ H1) Hdir1 Hname) as [fs2 H2].
  exists fs2. unfold dump_to, bind, fs_op. rewrite Hmk.
  unfold FS.write_file. rewrite Hnul, H2.
  split; [reflexivity|]. split; [eapply lookup_after_write_at, H2|].
  split.
  - intros q Hq. rewrite (write_at_frame_off _ _ _ _ _ _ H2 Hq).
    apply (mkdir_at_frame_off _ _ _ _ _ _ H1 (not_prefix_of_parent _ _ Hq)).
  - intros p' [Hpp' Hp'p] (Hplain' & Hpar' & Hfree' & Hdir').
    repeat (split; [assumption|]). split.
    + intros q Hq.
      assert (Hqp : q <> p).
      { intros ->. rewrite (is_prefix_trans _ _ _ Hq (is_prefix_parent p')) in Hpp'.
        discriminate. }
      rewrite (write_at_is_file _ _ _ _ _ _ H2 Hqp), (mkdir_at_is_file _ _ _ _ _ q H1).
      apply Hfree', Hq.
    + unfold FS.is_dir in *.
      rewrite (write_at_frame_off _ _ _ _ _ _ H2 Hp'p).
      rewrite (mkdir_at_frame_off _ _ _ _ _ _ H1 (not_prefix_of_parent _ _ Hp'p)).
      exact Hdir'.
Qed.

End WritingFiles.

(** The two writes of the detector, where both files can be written. *)
Lemma detector_writes_the_dicts
      (L : Lib) (input_data format_info format_report : path) (fs : node) :
  Path.plain input_data = true ->
  can_hold_file fs format_info ->
  can_hold_file fs format_report ->
  apart format_info format_report ->
  let s := Detector.detected L fs input_data in
  exists fs',
    Detector.detect_data_format L input_data format_info format_report fs = Ok tt fs'
    /\ FS.lookup fs' format_info
       = Some (File (json_dump L (Detector.results_json (Detector.results s))))
    /\ FS.lookup fs' format_report
       = Some (File (json_dump L (Detector.report_json (Detector.report s)))).
Proof.
  intros _ Hi Hr Hap s.
  destruct (dump_to_writes L format_info (Detector.results_json (Detector.results s)) fs Hi)
    as (fs1 & Hrun1 & Hfile1 & _ & Hkeep).
  destruct (dump_to_writes L format_report (Detector.report_json (Detector.report s)) fs1
              (Hkeep _ Hap Hr)) as (fs2 & Hrun2 & Hfile2 & Hframe2 & _).
  exists fs2.
  split; [|split; [rewrite (Hframe2 _ (proj1 Hap)); exact Hfile1|exact Hfile2]].
  subst s. unfold Detector.detect_data_format, Detector.detected in *.
  unfold bind at 1. unfold get.
  destruct (FS.exists_ fs input_data); cbv beta iota delta [negb].
  - unfold bind, try_except. rewrite Hrun1. unfold try_except. rewrite Hrun2. reflexivity.
  - unfold try_except, bind. rewrite Hrun1, Hrun2. reflexivity.
Qed.



(** ** The processor: what its steps keep *)

Section ProcessorSteps.

Lemma format_cases {T : Type} (P : T -> Prop) (v : json) (A B C : T) :
  P A -> P B -> P C ->
  P match v with
    | JStr "coco" => A
    | JStr "yolo" => B
    | _ => C
    end.
Proof.
  intros HA HB HC.
  destruct v as [| | | |s| |]; try exact HC.
  repeat (match goal with
          | |- P match ?s with EmptyString => _ | String _ _ => _ end =>
              destruct s as [|[[] [] [] [] [] [] [] []] ?]
          end; try exact HC);
    assumption.
Qed.

Lemma preserves_on_fs {A : Type} (Q : node -> Prop) (m : M node A) :
  preserves Q m -> preserves (fun s => Q (Processor.fs s)) (Processor.on_fs m).
Proof.
  intros H s Hs. unfold Processor.on_fs, Processor.zoom.
  specialize (H (Processor.fs s) Hs). destruct (m (Processor.fs s)); exact H.
Qed.

Lemma preserves_on_base {A : Type} (P : Processor.State -> Prop) (m : M Processor.State A) :
  preserves P m -> preserves (fun c => P (Processor.base c)) (Processor.on_base m).
Proof.
  intros H c Hc. unfold Processor.on_base, Processor.zoom.
  specialize (H (Processor.base c) Hc). destruct (m (Processor.base c)); exact H.
Qed.

Lemma preserves_upd_res (P : Processor.State -> Prop)
      (f : Processor.ProcessingResults -> Processor.ProcessingResults) :
  (forall s, P s -> P (Processor.with_res (f (Processor.res s)) s)) ->
  preserves P (Processor.upd_res f).
Proof. intros H. apply preserves_modify. exact H. Qed.

Lemma preserves_processor_loop {S A X : Type} (P : S -> Prop) (body : A -> X -> M S A)
      (l : list X) :
  (forall a x, preserves P (body a x)) -> forall a, preserves P (Processor.loop body a l).
Proof.
  intros H. induction l as [|x l IH]; intros a; simpl.
  - apply preserves_ret.
  - apply preserves_bind; [apply H|intros a'; apply IH].
Qed.

End ProcessorSteps.

(** One step of a proof that a computation keeps a property of the state. *)
Ltac keep_step :=
  match goal with
  | |- preserves _ (ret _) => apply preserves_ret
  | |- preserves _ get => apply preserves_get
  | |- preserves _ (lift _) => apply preserves_lift
  | |- preserves _ (bind _ _) => apply preserves_bind; [|intros]
  | |- preserves _ (try_except _ _) => apply preserves_try_except; [|intros]
  | |- preserves _ (for_each _ _) => apply preserves_for_each; intros
  | |- preserves _ (Processor.loop _ _ _) => apply preserves_processor_loop; intros
  | |- preserves _ (if ?b then _ else _) => destruct b
  | |- preserves _ (Processor.on_base _) => apply preserves_on_base
  end.

Section TreeOperations.

Lemma rmtree_frame (fs : node) (p t : path) :
  apart p t ->
  match FS.rmtree fs p with
  | inr fs' => FS.lookup fs' t = FS.lookup fs t
  | inl (_, fs') => FS.lookup fs' t = FS.lookup fs t
  end.
Proof.
  intros Hap. unfold FS.rmtree.
  destruct p as [|c o]; [exfalso; eapply apart_nil_l, Hap|].
  destruct (FS.resolve (c :: o) fs (c :: o)) as [e|[d|es]]; try reflexivity.
  apply lookup_remove_at_frame, Hap.
Qed.

Lemma os_makedirs_frame (fs fs1 : node) (p t : path) :
  FS.os_makedirs fs p = inr fs1 -> apart p t -> FS.lookup fs1 t = FS.lookup fs t.
Proof.
  unfold FS.os_makedirs. destruct p as [|c o]; [discriminate|].
  intros H Hap. eapply mkdir_at_frame; eassumption.
Qed.

Lemma copytree_frame (fs : node) (src dst t : path) :
  apart dst t ->
  match FS.copytree fs src dst with
  | inr fs' => FS.lookup fs' t = FS.lookup fs t
  | inl (_, fs') => FS.lookup fs' t = FS.lookup fs t
  end.
Proof.
  intros Hap. unfold FS.copytree.
  destruct (FS.resolve src fs src) as [e|[d|es]]; try reflexivity.
  destruct (FS.exists_ fs dst); [reflexivity|].
  destruct (FS.os_makedirs fs dst) as [e|fs1] eqn:E; [reflexivity|].
  destruct (FS.copies_into_itself fs src dst).
  - eapply os_makedirs_frame; eassumption.
  - rewrite (lookup_graft_frame _ _ _ _ Hap). eapply os_makedirs_frame; eassumption.
Qed.

End TreeOperations.

(** ** The processor: a property of the file system that its steps keep

    [Q] is a property of the file system that every step the processor takes
    below the output path keeps: a [mkdir] at or below the output, a write to
    [classes.txt] or into [labels/] or [images/], the removal of the output
    and the copy of a tree onto it, and the two steps that write the report.
    [Q0] is what holds before the output directory is created. *)

Section ProcessorKeeps.

Variable L : Lib.
Variables (out report : path).
Variables (Q0 Q : node -> Prop).

Hypothesis Hweaken : forall fs, Q fs -> Q0 fs.
Hypothesis Hfirst :
  ensures Q0 (fun _ => Q) (fun _ => Q0) (fs_op (fun fs => FS.mkdir_parents fs out)).
Hypothesis Hmkdir :
  forall parents r,
    preserves Q (fs_op (fun fs => FS.mkdir_at parents (out ++ r) fs (out ++ r))).
Hypothesis Hwrite :
  forall r data, written_below r ->
    preserves Q (fs_op (fun fs => FS.write_file fs (out ++ r) data)).
Hypothesis Hrmtree : preserves Q (fs_op' (fun fs => FS.rmtree fs out)).
Hypothesis Hcopytree :
  forall inp, preserves Q (fs_op' (fun fs => FS.copytree fs inp out)).
Hypothesis Hreport_dir :
  preserves Q (fs_op (fun fs => FS.os_makedirs fs (Path.parent report))).
Hypothesis Hreport :
  forall data, preserves Q (fs_op (fun fs => FS.write_file fs report data)).

Let P0 (s : Processor.State) : Prop := Q0 (Processor.fs s).
Let P (s : Processor.State) : Prop := Q (Processor.fs s).
Let PC0 (c : Processor.ConvState) : Prop := P0 (Processor.base c).
Let PC (c : Processor.ConvState) : Prop := P (Processor.base c).

(** Copying a file to a place inside [images/]. *)
Lemma copy2_below_keeps (src : path) (c : string) :
  preserves Q (fs_op (fun fs => FS.copy2 fs src (out ++ ["images"; c]))).
Proof.
  intros fs Hfs. unfold fs_op, FS.copy2.
  destruct (FS.exists_ fs src && _ && _)%bool; [exact Hfs|].
  destruct (FS.read_file fs src) as [e|data]; [exact Hfs|].
  destruct (FS.is_dir fs (out ++ ["images"; c])).
  - unfold Path.child. rewrite <- app_assoc.
    apply (Hwrite (["images"; c] ++ [Path.name src]) data); [right; simpl; lia|exact Hfs].
  - apply (Hwrite ["images"; c] data); [right; simpl; lia|exact Hfs].
Qed.

Lemma upd_res_keeps (R : node -> Prop)
      (f : Processor.ProcessingResults -> Processor.ProcessingResults) :
  preserves (fun s => R (Processor.fs s)) (Processor.upd_res f).
Proof. apply preserves_upd_res. intros s Hs. exact Hs. Qed.

Lemma mkdir_out_keeps :
  preserves P (Processor.on_fs (fs_op (fun fs => FS.mkdir_parents fs out))).
Proof.
  apply preserves_on_fs. unfold FS.mkdir_parents.
  pose proof (Hmkdir true []) as H. rewrite app_nil_r in H. exact H.
Qed.

Lemma mkdir_child_keeps (c : string) :
  preserves P (Processor.on_fs (fs_op (fun fs => FS.mkdir fs (Path.child out c)))).
Proof. apply preserves_on_fs. apply (Hmkdir false [c]). Qed.

Lemma write_report_keeps : preserves P (Processor.write_report L report).
Proof.
  unfold Processor.write_report. apply preserves_bind; [apply preserves_get|]. intros s.
  apply preserves_on_fs, Hreport.
Qed.

Lemma guarded_report_keeps :
  preserves P
    (try_except
       (bind (Processor.on_fs (fs_op (fun fs => FS.os_makedirs fs (Path.parent report))))
             (fun _ => Processor.write_report L report))
       (fun _ => ret tt)).
Proof.
  apply preserves_try_except; [|intros; apply preserves_ret].
  apply preserves_bind; [|intros; apply write_report_keeps].
  apply preserves_on_fs, Hreport_dir.
Qed.

Lemma convert_annotation_keeps (w h : json) (lines : list string) (ann : json) :
  preserves PC (Processor.convert_annotation L w h lines ann).
Proof.
  unfold Processor.convert_annotation.
  repeat keep_step. apply preserves_modify. intros c Hc. exact Hc.
Qed.

Lemma convert_image_keeps (mapping : Py.dict Processor.img_info) (group : json * list json) :
  preserves PC (Processor.convert_image L (Path.child out "labels") mapping group).
Proof.
  unfold Processor.convert_image. destruct group as [img_id annotations].
  destruct (Py.dict_find img_id mapping) as [[[filename w] h]|]; [|apply preserves_ret].
  repeat keep_step.
  - apply convert_annotation_keeps.
  - apply preserves_on_fs. unfold Path.child. rewrite <- app_assoc.
    apply Hwrite. right. simpl. lia.
  - apply (upd_res_keeps Q).
Qed.

Lemma convert_file_keeps (f : path) :
  preserves PC (Processor.convert_file L (Path.child out "labels") f).
Proof.
  unfold Processor.convert_file.
  apply preserves_bind; [apply preserves_get|]. intros s.
  apply preserves_bind; [apply preserves_lift|]. intros coco_data.
  destruct (negb (Py.is_dict coco_data) || negb (Py.has_key coco_data "images"))%bool;
    [apply preserves_ret|].
  apply preserves_bind.
  { destruct (Py.has_key coco_data "categories"); [|apply preserves_ret].
    apply preserves_bind; [apply preserves_lift|]. intros cats.
    apply preserves_for_each. intros cat c Hc.
    unfold bind, get, lift, put.
    destruct (Processor.add_category (Processor.all_categories c) cat); exact Hc. }
  intros _.
  apply preserves_bind; [apply preserves_lift|]. intros imgs.
  apply preserves_bind; [apply preserves_lift|]. intros image_mapping.
  destruct (Py.has_key coco_data "annotations"); [|apply preserves_ret].
  apply preserves_bind; [apply preserves_lift|]. intros anns.
  apply preserves_bind; [apply preserves_lift|]. intros groups.
  apply preserves_for_each. intros group. apply convert_image_keeps.
Qed.

Lemma process_coco_file_keeps (f : path) :
  preserves PC (Processor.process_coco_file L (Path.child out "labels") f).
Proof.
  unfold Processor.process_coco_file.
  apply preserves_try_except; [apply convert_file_keeps|]. intros e.
  apply preserves_on_base, (upd_res_keeps Q).
Qed.

Lemma copy_image_keeps (copied : Z) (img : path) :
  preserves P (Processor.copy_image (Path.child out "images") copied img).
Proof.
  unfold Processor.copy_image.
  apply preserves_try_except; [|intros; apply preserves_ret].
  apply preserves_bind; [|intros; apply preserves_ret].
  apply preserves_on_fs. unfold Path.child. rewrite <- app_assoc. apply copy2_below_keeps.
Qed.

Lemma write_classes_keeps (cats : Py.dict json) :
  preserves P (Processor.write_classes L (Path.child out "classes.txt") cats).
Proof.
  unfold Processor.write_classes.
  apply preserves_bind; [apply preserves_on_fs, Hwrite; left; reflexivity|]. intros _.
  apply preserves_bind.
  - destruct cats; [apply preserves_ret|].
    apply preserves_bind; [apply preserves_lift|intros; apply preserves_ret].
  - intros text. apply preserves_on_fs, Hwrite. left. reflexivity.
Qed.

(** The [try] block of the conversion: [Q] holds once the output directory
    is created, and [Q0] when the block raises. *)
Lemma convert_body_ensures (inp : path) :
  ensures PC0 (fun _ => PC) (fun _ => PC0) (Processor.convert_body L inp out).
Proof.
  assert (Hraise : forall (A : Type) (m : M Processor.ConvState A),
            preserves PC m -> ensures PC (fun _ => PC) (fun _ => PC0) m).
  { intros A m Hm. eapply ensures_weaken; [exact Hm| | |]; auto.
    intros e c Hc. apply Hweaken, Hc. }
  unfold Processor.convert_body.
  apply (ensures_bind PC0 (fun _ => PC)).
  { intros c Hc. unfold Processor.on_base, Processor.on_fs, Processor.zoom.
    specialize (Hfirst (Processor.fs (Processor.base c)) Hc).
    destruct (fs_op _ (Processor.fs (Processor.base c))); exact Hfirst. }
  intros _. apply Hraise.
  apply preserves_bind; [apply preserves_on_base, mkdir_child_keeps|]. intros _.
  apply preserves_bind; [apply preserves_on_base, mkdir_child_keeps|]. intros _.
  apply preserves_bind; [apply preserves_get|]. intros s.
  apply preserves_bind; [apply preserves_lift|]. intros coco_files.
  destruct coco_files as [|f files].
  - apply preserves_bind; [apply preserves_on_base, (upd_res_keeps Q)|].
    intros; apply preserves_ret.
  - apply preserves_bind; [apply preserves_for_each; intros; apply process_coco_file_keeps|].
    intros _.
    apply preserves_bind; [apply preserves_get|]. intros s1.
    apply preserves_bind; [apply preserves_lift|]. intros image_files.
    apply preserves_bind.
    { apply preserves_on_base, preserves_processor_loop. intros. apply copy_image_keeps. }
    intros copied.
    apply preserves_bind; [apply preserves_get|]. intros s2.
    apply preserves_bind; [apply preserves_on_base, write_classes_keeps|]. intros _.
    apply preserves_bind; [apply preserves_on_base, (upd_res_keeps Q)|].
    intros; apply preserves_ret.
Qed.

Lemma run_body_ensures (inp : path) :
  ensures P0 (fun _ => P) (fun _ => P0) (Processor.run_body L inp out).
Proof.
  intros s Hs. unfold Processor.run_body.
  pose proof (convert_body_ensures inp
                {| Processor.base := s; Processor.all_categories := [];
                   Processor.converted_annotations := 0 |} Hs) as H.
  destruct (Processor.convert_body L inp out _); exact H.
Qed.

Lemma verify_copy_keeps (R : node -> Prop) (inp : path) :
  preserves (fun s => R (Processor.fs s)) (Processor.verify_copy L inp out).
Proof.
  unfold Processor.verify_copy.
  apply preserves_try_except; [|intros; apply (upd_res_keeps R)].
  repeat keep_step; try apply (upd_res_keeps R).
Qed.

End ProcessorKeeps.

(** ** The processor: what it leaves alone *)

Section ProcessorFrame.

Variable L : Lib.
Variables (out report q : path) (x : option node).
Hypothesis Hout : apart out q.
Hypothesis Hreport : Path.is_prefix q report = false.

Lemma is_prefix_app_l (p r t : path) :
  Path.is_prefix (p ++ r) t = true -> Path.is_prefix p t = true.
Proof.
  revert t. induction p as [|c p IH]; intros t H; [reflexivity|].
  destruct t as [|d t]; [discriminate|]. simpl in *.
  destruct (String.eqb c d); [|discriminate]. simpl in *. apply IH, H.
Qed.

Lemma is_prefix_app_cases (t p r : path) :
  Path.is_prefix t (p ++ r) = true ->
  Path.is_prefix t p = true \/ Path.is_prefix p t = true.
Proof.
  revert t. induction p as [|c p IH]; intros t H; [right; reflexivity|].
  destruct t as [|d t]; [left; reflexivity|]. simpl in *.
  rewrite (String.eqb_sym c d).
  destruct (String.eqb d c); [|discriminate]. simpl in *. apply IH, H.
Qed.

Lemma apart_below (p r t : path) : apart p t -> apart (p ++ r) t.
Proof.
  intros [H1 H2]. split.
  - destruct (Path.is_prefix (p ++ r) t) eqn:E; [|reflexivity].
    apply is_prefix_app_l in E. congruence.
  - destruct (Path.is_prefix t (p ++ r)) eqn:E; [|reflexivity].
    apply is_prefix_app_cases in E. destruct E; congruence.
Qed.

Let Q (fs : node) : Prop := FS.lookup fs q = x.
Let P (s : Processor.State) : Prop := Q (Processor.fs s).

Lemma frame_mkdir (parents : bool) (r : path) :
  preserves Q (fs_op (fun fs => FS.mkdir_at parents (out ++ r) fs (out ++ r))).
Proof.
  apply preserves_fs_op. intros fs fs' H Hfs. unfold Q in *.
  rewrite (mkdir_at_frame _ _ _ _ _ _ H (apart_below _ r _ Hout)). exact Hfs.
Qed.

Lemma frame_write (r : path) (data : string) :
  preserves Q (fs_op (fun fs => FS.write_file fs (out ++ r) data)).
Proof.
  apply preserves_fs_op. intros fs fs' H Hfs. unfold Q in *.
  rewrite (write_file_frame_off _ _ _ _ _ H (proj2 (apart_below _ r _ Hout))). exact Hfs.
Qed.

Lemma frame_rmtree : preserves Q (fs_op' (fun fs => FS.rmtree fs out)).
Proof.
  intros fs Hfs. unfold fs_op', Q in *.
  pose proof (rmtree_frame fs out q Hout) as H.
  destruct (FS.rmtree fs out) as [[e fs']|fs']; simpl; congruence.
Qed.

Lemma frame_copytree (inp : path) : preserves Q (fs_op' (fun fs => FS.copytree fs inp out)).
Proof.
  intros fs Hfs. unfold fs_op', Q in *.
  pose proof (copytree_frame fs inp out q Hout) as H.
  destruct (FS.copytree fs inp out) as [[e fs']|fs']; simpl; congruence.
Qed.

Lemma frame_report_dir :
  preserves Q (fs_op (fun fs => FS.os_makedirs fs (Path.parent report))).
Proof.
  apply preserves_fs_op. intros fs fs' H Hfs. unfold Q in *.
  rewrite (os_makedirs_frame_off _ _ _ _ H (not_prefix_of_parent _ _ Hreport)). exact Hfs.
Qed.

Lemma frame_report (data : string) :
  preserves Q (fs_op (fun fs => FS.write_file fs report data)).
Proof.
  apply preserves_fs_op. intros fs fs' H Hfs. unfold Q in *.
  rewrite (write_file_frame_off _ _ _ _ _ H Hreport). exact Hfs.
Qed.

Lemma frame_first :
  ensures Q (fun _ => Q) (fun _ => Q) (fs_op (fun fs => FS.mkdir_parents fs out)).
Proof.
  unfold FS.mkdir_parents. pose proof (frame_mkdir true []) as H.
  rewrite app_nil_r in H. exact H.
Qed.

Lemma convert_keeps (inp : path) : preserves P (Processor.convert_coco_to_yolo L inp out).
Proof.
  unfold Processor.convert_coco_to_yolo.
  apply preserves_try_except.
  - apply (run_body_ensures L out Q Q (fun _ H => H) frame_first frame_mkdir
             (fun r data _ => frame_write r data)).
  - intros e. unfold Processor.convert_handler.
    apply preserves_bind; [apply (upd_res_keeps Q)|]. intros _.
    apply preserves_bind; [apply (mkdir_out_keeps out Q frame_mkdir)|]. intros _.
    apply preserves_bind; [apply (mkdir_child_keeps out Q frame_mkdir)|]. intros _.
    apply preserves_bind; [apply (mkdir_child_keeps out Q frame_mkdir)|]. intros _.
    apply preserves_ret.
Qed.

Lemma copy_keeps (inp : path) : preserves P (Processor.copy_yolo_data_directly L inp out).
Proof.
  unfold Processor.copy_yolo_data_directly.
  apply preserves_try_except.
  - apply preserves_bind; [apply preserves_get|]. intros s.
    apply preserves_bind.
    { destruct (FS.exists_ (Processor.fs s) out); [|apply preserves_ret].
      apply preserves_on_fs, frame_rmtree. }
    intros _.
    apply preserves_bind; [apply preserves_on_fs, frame_copytree|]. intros _.
    apply preserves_bind; [apply (verify_copy_keeps L out Q)|intros; apply preserves_ret].
  - intros e.
    apply preserves_bind; [apply (upd_res_keeps Q)|]. intros _.
    apply preserves_bind; [apply (mkdir_out_keeps out Q frame_mkdir)|].
    intros; apply preserves_ret.
Qed.

Lemma process_keeps (inp : path) (format_info : json) :
  preserves P (Processor.process L inp out report format_info).
Proof.
  unfold Processor.process.
  apply preserves_bind; [apply preserves_get|]. intros s.
  destruct (negb (FS.exists_ (Processor.fs s) inp)).
  - apply preserves_bind; [apply (upd_res_keeps Q)|]. intros _.
    apply preserves_bind; [apply (mkdir_out_keeps out Q frame_mkdir)|]. intros _.
    apply (write_report_keeps L report Q frame_report).
  - apply preserves_bind; [apply preserves_lift|]. intros fmt.
    apply preserves_bind;
      [|intros; apply (guarded_report_keeps L report Q frame_report_dir frame_report)].
    apply (format_cases (fun m => preserves P m)).
    + apply preserves_bind; [apply (upd_res_keeps Q)|]. intros _.
      apply preserves_bind; [apply convert_keeps|intros; apply (upd_res_keeps Q)].
    + apply preserves_bind; [apply (upd_res_keeps Q)|]. intros _.
      apply preserves_bind; [apply copy_keeps|intros; apply (upd_res_keeps Q)].
    + apply preserves_bind; [apply (upd_res_keeps Q)|]. intros _.
      apply preserves_bind; [apply (upd_res_keeps Q)|]. intros _.
      apply preserves_bind; [apply (mkdir_out_keeps out Q frame_mkdir)|].
      intros; apply (upd_res_keeps Q).
Qed.

End ProcessorFrame.

(** [process_data] changes nothing outside the output directory, the
    report and the directories on the way to them: for a plain output path
    and a plain report path, whatever is listed at a plain path [q] that is
    apart from the output directory and not on the way to the report is the
    same after the call, however the call ends.  In particular the input
    directory is left as it is when it is apart from the output and the
    report is not written into it. *)
Theorem process_data_touches_only_output_and_report
        (L : Lib) (input_data detected_format output_data processing_report : path)
        (fs : node) (q : path) :
  Path.plain output_data = true ->
  Path.plain processing_report = true ->
  Path.plain q = true ->
  apart output_data q ->
  Path.is_prefix q processing_report = false ->
  FS.lookup
    (final (Processor.process_data L input_data detected_format output_data
              processing_report fs)) q
  = FS.lookup fs q.
Proof.
  intros _ _ _ Hout Hreport. unfold Processor.process_data.
  destruct (Py.get _ "detected_format" (JStr "unknown")) as [e|fmt]; [reflexivity|].
  pose proof (process_keeps L output_data processing_report q (FS.lookup fs q) Hout Hreport
                input_data (Processor.load_format_info L fs detected_format)
                {| Processor.fs := fs; Processor.res := Processor.initial_results L fmt |}
                eq_refl) as H.
  destruct (Processor.process L input_data output_data processing_report _ _); exact H.
Qed.

Lemma process_data_touches_only_output_and_report_witness :
  FS.lookup
    (final (Processor.process_data Ref.lib ["data"] ["work"; "format.json"] ["out"]
              ["work"; "report.json"] Examples.fs_nested_coco_detected)) ["data"]
  = FS.lookup Examples.fs_nested_coco_detected ["data"].
Proof.
  apply (process_data_touches_only_output_and_report Ref.lib);
    [reflexivity|reflexivity|reflexivity|split; reflexivity|reflexivity].
Defined.

(** ** The file system: files in the way *)

Section FilesInTheWay.

Lemma is_prefix_app_r (t p r : path) :
  Path.is_prefix t p = true -> Path.is_prefix t (p ++ r) = true.
Proof.
  revert p. induction t as [|c t IH]; intros p H; [reflexivity|].
  destruct p as [|d p]; [discriminate|]. simpl in *.
  destruct (String.eqb c d); [|discriminate]. simpl in *. apply IH, H.
Qed.

Lemma is_prefix_app_same (p r t : path) :
  Path.is_prefix (p ++ r) (p ++ t) = Path.is_prefix r t.
Proof.
  induction p as [|c p IH]; [reflexivity|]. simpl. rewrite String.eqb_refl. exact IH.
Qed.

Lemma no_file_on_prefix (fs : node) (p r : path) :
  no_file_on fs (p ++ r) -> no_file_on fs p.
Proof. intros H t Ht. apply H, is_prefix_app_r, Ht. Qed.

Lemma no_file_on_after_mkdir (parents : bool) (full p t : path) (fs fs' : node) :
  FS.mkdir_at parents full fs p = inr fs' -> no_file_on fs t -> no_file_on fs' t.
Proof.
  intros H Hfs u Hu. rewrite (mkdir_at_is_file _ _ _ _ _ u H). apply Hfs, Hu.
Qed.

Lemma no_file_on_after_write (p t : path) (data : string) (fs fs' : node) :
  FS.write_file fs p data = inr fs' -> Path.is_prefix p t = false ->
  no_file_on fs t -> no_file_on fs' t.
Proof.
  unfold FS.write_file. destruct (existsb FS.has_nul p); [discriminate|].
  intros H Hp Hfs u Hu.
  rewrite (write_at_is_file _ _ _ _ _ u H); [apply Hfs, Hu|].
  intros ->. congruence.
Qed.

Lemma written_below_not_on_the_way (out r : path) (c : string) :
  written_below r -> c = "images" \/ c = "labels" ->
  Path.is_prefix (out ++ r) (out ++ [c]) = false.
Proof.
  intros Hr Hc. rewrite is_prefix_app_same.
  destruct Hr as [->|Hlen].
  - destruct Hc as [->| ->]; reflexivity.
  - destruct r as [|a [|b r]]; simpl in Hlen; try lia.
    simpl. rewrite andb_false_r. reflexivity.
Qed.

(** A directory can be created in an existing directory when no file has
    its name. *)
Lemma mkdir_child_succeeds (full p : path) (c : string) :
  forall n,
    FS.is_dir n p = true -> FS.is_file n (p ++ [c]) = false ->
    exists n', FS.mkdir_at false full n (p ++ [c]) = inr n'.
Proof.
  unfold FS.is_dir, FS.is_file.
  induction p as [|d p IH]; intros n Hd Hf.
  - destruct n as [x|es]; [discriminate|]. simpl in *.
    destruct (FS.assoc c es) as [[x|x]|]; [discriminate| |]; eauto.
  - destruct n as [x|es]; [discriminate|].
    rewrite <- app_comm_cons, mkdir_at_cons. rewrite <- app_comm_cons, lookup_cons in Hf.
    rewrite lookup_cons in Hd.
    destruct (FS.assoc d es) as [m|]; [|discriminate].
    destruct (IH m Hd Hf) as [m' Hm']. rewrite Hm'. eauto.
Qed.

(** Removing a tree creates no file. *)
Lemma remove_at_is_file (p : path) :
  forall n t, FS.is_file (FS.remove_at n p) t = true -> FS.is_file n t = true.
Proof.
  unfold FS.is_file.
  induction p as [|c p IH]; intros n t H; [exact H|].
  destruct n as [x|es]; [destruct p; exact H|].
  destruct t as [|d t]; [destruct p; simpl in H; [discriminate|];
                         destruct (FS.assoc c es); discriminate|].
  destruct p as [|c' p'].
  - simpl in H. simpl.
    destruct (String.eqb d c) eqn:Edc.
    + apply String.eqb_eq in Edc. subst d. rewrite assoc_remove_entry_same in H. discriminate.
    + rewrite (assoc_remove_entry_other _ _ _ Edc) in H. exact H.
  - rewrite remove_at_deep in H.
    destruct (FS.assoc c es) as [m|] eqn:E; [|exact H].
    rewrite lookup_cons in H. rewrite lookup_cons.
    destruct (String.eqb d c) eqn:Edc.
    + apply String.eqb_eq in Edc. subst d. rewrite assoc_set_entry_same in H. rewrite E.
      apply IH, H.
    + rewrite (assoc_set_entry_other _ _ _ _ Edc) in H. exact H.
Qed.

Lemma no_file_on_after_rmtree (fs : node) (p t : path) :
  no_file_on fs t ->
  match FS.rmtree fs p with
  | inr fs' => no_file_on fs' t
  | inl (_, fs') => no_file_on fs' t
  end.
Proof.
  intros H. unfold FS.rmtree.
  destruct p as [|c o].
  - destruct fs as [x|es]; [exact H|].
    intros u Hu. unfold FS.is_file. destruct u; reflexivity.
  - destruct (FS.resolve (c :: o) fs (c :: o)) as [e|[d|es]]; try exact H.
    intros u Hu. destruct (FS.is_file (FS.remove_at fs (c :: o)) u) eqn:E; [|reflexivity].
    apply remove_at_is_file in E. rewrite (H u Hu) in E. discriminate.
Qed.

Lemma no_file_on_after_makedirs (fs fs' : node) (p t : path) :
  FS.os_makedirs fs p = inr fs' -> no_file_on fs t -> no_file_on fs' t.
Proof.
  unfold FS.os_makedirs. destruct p; [discriminate|]. apply no_file_on_after_mkdir.
Qed.

(** The copy of a tree: when it succeeds the destination is a directory,
    and when it fails no file has appeared. *)
Lemma copytree_outcome (fs : node) (src dst : path) :
  no_file_on fs dst ->
  match FS.copytree fs src dst with
  | inr fs' => FS.is_dir fs' dst = true
  | inl (_, fs') => no_file_on fs' dst
  end.
Proof.
  intros H. unfold FS.copytree.
  destruct (FS.resolve src fs src) as [e|[d|es]]; try exact H.
  destruct (FS.exists_ fs dst); [exact H|].
  destruct (FS.os_makedirs fs dst) as [e|fs1] eqn:E; [exact H|].
  destruct (FS.copies_into_itself fs src dst).
  - eapply no_file_on_after_makedirs; eassumption.
  - unfold FS.os_makedirs in E. destruct dst as [|c o]; [discriminate|].
    pose proof (mkdir_at_is_dir _ _ _ _ _ E) as Hd. unfold FS.is_dir in *.
    destruct (FS.lookup fs1 (c :: o)) as [y|] eqn:Ey; [|discriminate].
    rewrite (lookup_graft_same _ _ _ _ Ey). reflexivity.
Qed.

(** Where no file is in the way, the directory and its parents can be
    created, and it is a directory afterwards. *)
Lemma mkdir_parents_succeeds (fs : node) (p : path) :
  no_file_on fs p ->
  exists fs', FS.mkdir_parents fs p = inr fs' /\ FS.is_dir fs' p = true.
Proof.
  intros H. destruct (mkdir_at_succeeds p p fs H) as [fs' Hfs'].
  exists fs'. split; [exact Hfs'|]. eapply mkdir_at_is_dir, Hfs'.
Qed.

End FilesInTheWay.

(** ** The processor: when it returns *)

Section ProcessorReturns.

Variable L : Lib.
Variables (out report : path).

Let N (fs : node) : Prop := no_file_on fs out.
Let I (fs : node) : Prop := output_ready fs out.
Let D (fs : node) : Prop := FS.is_dir fs out = true.
Let ID (fs : node) : Prop := I fs /\ D fs.

Lemma ready_no_file (fs : node) : I fs -> N fs.
Proof. intros [H _]. eapply no_file_on_prefix, H. Qed.

Lemma dir_after_mkdir (parents : bool) (p : path) :
  preserves D (fs_op (fun fs => FS.mkdir_at parents p fs p)).
Proof.
  apply preserves_fs_op. intros fs fs' H Hfs. eapply mkdir_at_keeps_dirs; eassumption.
Qed.

Lemma dir_after_write (p : path) (data : string) :
  preserves D (fs_op (fun fs => FS.write_file fs p data)).
Proof.
  apply preserves_fs_op. intros fs fs' H Hfs. unfold FS.write_file in H.
  destruct (existsb FS.has_nul p); [discriminate|]. eapply write_at_keeps_dirs; eassumption.
Qed.

Lemma dir_after_makedirs (p : path) :
  preserves D (fs_op (fun fs => FS.os_makedirs fs p)).
Proof.
  apply preserves_fs_op. intros fs fs' H Hfs. unfold FS.os_makedirs in H.
  destruct p; [discriminate|]. eapply mkdir_at_keeps_dirs; eassumption.
Qed.

Lemma ready_first :
  ensures I (fun _ => ID) (fun _ => I) (fs_op (fun fs => FS.mkdir_parents fs out)).
Proof.
  intros fs [H1 H2]. unfold fs_op.
  destruct (FS.mkdir_parents fs out) as [e|fs'] eqn:E; [split; assumption|].
  split; [split; eapply no_file_on_after_mkdir; eassumption|].
  eapply mkdir_at_is_dir, E.
Qed.

Lemma ready_mkdir (parents : bool) (r : path) :
  preserves ID (fs_op (fun fs => FS.mkdir_at parents (out ++ r) fs (out ++ r))).
Proof.
  apply preserves_fs_op. intros fs fs' H [[H1 H2] H3].
  split; [split; eapply no_file_on_after_mkdir; eassumption|].
  eapply mkdir_at_keeps_dirs; eassumption.
Qed.

Lemma ready_write (r : path) (data : string) :
  written_below r ->
  preserves ID (fs_op (fun fs => FS.write_file fs (out ++ r) data)).
Proof.
  intros Hr. apply preserves_fs_op. intros fs fs' H [[H1 H2] H3].
  split; [split|].
  - eapply no_file_on_after_write; [exact H| |exact H1].
    apply written_below_not_on_the_way; auto.
  - eapply no_file_on_after_write; [exact H| |exact H2].
    apply written_below_not_on_the_way; auto.
  - unfold FS.write_file in H. destruct (existsb FS.has_nul (out ++ r)); [discriminate|].
    eapply write_at_keeps_dirs; eassumption.
Qed.

(** The handler of the conversion returns when no file is in the way of
    the three directories. *)
Lemma convert_handler_returns (e : exn) :
  ensures (fun s => I (Processor.fs s)) (fun _ s => D (Processor.fs s)) (fun _ _ => False)
    (Processor.convert_handler L out e).
Proof.
  intros s [H1 H2].
  unfold Processor.convert_handler, bind, Processor.upd_res, modify, Processor.on_fs,
    Processor.zoom, fs_op, ret. simpl.
  destruct (mkdir_parents_succeeds (Processor.fs s) out (no_file_on_prefix _ _ _ H1))
    as (fs1 & E1 & Hd1).
  rewrite E1. simpl.
  assert (Hready1 : I fs1) by (split; eapply no_file_on_after_mkdir; eassumption).
  destruct Hready1 as [H1' H2'].
  destruct (mkdir_child_succeeds (Path.child out "images") out "images" fs1 Hd1
              (H1' _ (is_prefix_refl _))) as [fs2 E2].
  unfold FS.mkdir, Path.child in *. rewrite E2. simpl.
  assert (Hd2 : FS.is_dir fs2 out = true) by (eapply mkdir_at_keeps_dirs; eassumption).
  assert (H2'' : no_file_on fs2 (out ++ ["labels"]))
    by (eapply no_file_on_after_mkdir; eassumption).
  destruct (mkdir_child_succeeds (out ++ ["labels"]) out "labels" fs2 Hd2
              (H2'' _ (is_prefix_refl _))) as [fs3 E3].
  rewrite E3. simpl. unfold D. eapply mkdir_at_keeps_dirs; eassumption.
Qed.

Lemma convert_returns (inp : path) :
  ensures (fun s => I (Processor.fs s)) (fun _ s => D (Processor.fs s)) (fun _ _ => False)
    (Processor.convert_coco_to_yolo L inp out).
Proof.
  unfold Processor.convert_coco_to_yolo.
  eapply ensures_try_except; [|apply convert_handler_returns].
  eapply ensures_weaken;
    [apply (run_body_ensures L out I ID (fun fs H => proj1 H) ready_first ready_mkdir
              ready_write inp)| | |]; auto.
  intros b s [_ H]. exact H.
Qed.

(** The direct copy returns when no file is in the way of the output. *)
Lemma copy_returns (inp : path) :
  ensures (fun s => N (Processor.fs s)) (fun _ s => D (Processor.fs s)) (fun _ _ => False)
    (Processor.copy_yolo_data_directly L inp out).
Proof.
  unfold Processor.copy_yolo_data_directly.
  apply (ensures_try_except _ _ (fun _ s => N (Processor.fs s))).
  - apply (ensures_bind _ (fun _ s => N (Processor.fs s))); [apply preserves_get|]. intros s0.
    apply (ensures_bind _ (fun _ s => N (Processor.fs s))).
    { destruct (FS.exists_ (Processor.fs s0) out); [|apply preserves_ret].
      apply preserves_on_fs. intros fs Hfs. unfold fs_op'.
      pose proof (no_file_on_after_rmtree fs out out Hfs) as H.
      destruct (FS.rmtree fs out) as [[e fs']|fs']; exact H. }
    intros _.
    apply (ensures_bind _ (fun _ s => D (Processor.fs s))).
    { intros s Hs. unfold Processor.on_fs, Processor.zoom, fs_op'.
      pose proof (copytree_outcome (Processor.fs s) inp out Hs) as H.
      destruct (FS.copytree (Processor.fs s) inp out) as [[e fs']|fs']; exact H. }
    intros _ s Hs. unfold bind.
    destruct (verify_copy_returns L inp out s) as (r' & Hrun & _). rewrite Hrun. exact Hs.
  - intros e s Hs.
    unfold bind, Processor.upd_res, modify, Processor.on_fs, Processor.zoom, fs_op, ret.
    simpl.
    destruct (mkdir_parents_succeeds (Processor.fs s) out Hs) as (fs1 & E1 & Hd1).
    rewrite E1. exact Hd1.
Qed.

(** The guarded write of the report returns and keeps the output
    directory. *)
Lemma guarded_report_keeps_output (s : Processor.State) :
  D (Processor.fs s) ->
  exists fs',
    try_except
      (bind (Processor.on_fs (fs_op (fun fs => FS.os_makedirs fs (Path.parent report))))
            (fun _ => Processor.write_report L report))
      (fun _ => ret tt) s
    = Ok tt {| Processor.fs := fs'; Processor.res := Processor.res s |}
    /\ D fs'.
Proof.
  intros Hs.
  pose proof (guarded_report_keeps L report D (dir_after_makedirs _)
                (fun data => dir_after_write report data) s Hs) as Hkeep.
  destruct (guarded_report_returns L report s) as [fs' Hrun].
  rewrite Hrun in Hkeep. exists fs'. split; [exact Hrun|exact Hkeep].
Qed.

Lemma process_returns (inp : path) (format_info : json) :
  Py.is_dict format_info = true ->
  ensures (fun s => I (Processor.fs s) /\ FS.exists_ (Processor.fs s) inp = true)
    (fun _ s => D (Processor.fs s)) (fun _ _ => False)
    (Processor.process L inp out report format_info).
Proof.
  intros Hdict s [Hs Hex]. unfold Processor.process.
  rewrite (bind_ok get _ s s s eq_refl). rewrite Hex. cbv beta iota delta [negb].
  destruct format_info as [| | | | | |kvs]; try discriminate.
  unfold Py.get at 1.
  set (fmt := match Py.assoc "detected_format" kvs with
              | Some v => v
              | None => JStr "unknown"
              end).
  assert (Hget : lift (match Py.assoc "detected_format" kvs with
                       | Some v => inr v
                       | None => inr (JStr "unknown")
                       end) s = Ok fmt s).
  { unfold lift, fmt. destruct (Py.assoc "detected_format" kvs); reflexivity. }
  rewrite (bind_ok _ _ s fmt s Hget).
  unfold bind at 1.
  assert (Hbranch :
    match
      (match fmt with
       | JStr "coco" =>
           bind (Processor.upd_res (Processor.set_processing_type "coco_to_yolo_conversion"))
             (fun _ => bind (Processor.convert_coco_to_yolo L inp out)
                         (fun ok => Processor.upd_res (Processor.set_success ok)))
       | JStr "yolo" =>
           bind (Processor.upd_res (Processor.set_processing_type "yolo_direct_copy"))
             (fun _ => bind (Processor.copy_yolo_data_directly L inp out)
                         (fun ok => Processor.upd_res (Processor.set_success ok)))
       | _ =>
           bind (Processor.upd_res (Processor.set_processing_type "unknown_format"))
             (fun _ =>
                bind (Processor.upd_res
                        (Processor.add_warning ("Unsupported format: " ++ py_str L fmt)))
                  (fun _ =>
                     bind (Processor.on_fs (fs_op (fun fs => FS.mkdir_parents fs out)))
                       (fun _ => Processor.upd_res (Processor.set_success true))))
       end) s
    with
    | Ok _ s' => D (Processor.fs s')
    | Raise _ _ => False
    end).
  { apply (format_cases
             (fun m : M Processor.State unit =>
                match m s with Ok _ s' => D (Processor.fs s') | Raise _ _ => False end)).
    - unfold bind at 1. unfold Processor.upd_res at 1, modify at 1. unfold bind.
      pose proof (convert_returns inp
                    (Processor.with_res
                       (Processor.set_processing_type "coco_to_yolo_conversion"
                          (Processor.res s)) s) Hs) as H.
      destruct (Processor.convert_coco_to_yolo L inp out _) as [b s'|e s']; exact H.
    - unfold bind at 1. unfold Processor.upd_res at 1, modify at 1. unfold bind.
      pose proof (copy_returns inp
                    (Processor.with_res
                       (Processor.set_processing_type "yolo_direct_copy"
                          (Processor.res s)) s) (ready_no_file _ Hs)) as H.
      destruct (Processor.copy_yolo_data_directly L inp out _) as [b s'|e s']; exact H.
    - unfold bind, Processor.upd_res, modify, Processor.on_fs, Processor.zoom, fs_op. simpl.
      destruct (mkdir_parents_succeeds (Processor.fs s) out (ready_no_file _ Hs))
        as (fs1 & E1 & Hd1).
      rewrite E1. exact Hd1. }
  match goal with
  | H : match ?m s with Ok _ _ => _ | Raise _ _ => _ end |- _ =>
      destruct (m s) as [[] s1|e s1]; [|contradiction]
  end.
  destruct (guarded_report_keeps_output s1 Hbranch) as (fs' & Hrun & Hd).
  rewrite Hrun. exact Hd.
Qed.

End ProcessorReturns.



(** ** The direct copy: when it fails *)

Section CopyFailures.

Variable L : Lib.

(** A directory created where nothing was is empty. *)
Lemma mkdir_fresh (full p : path) :
  forall n n',
    FS.exists_ n p = false -> FS.mkdir_at true full n p = inr n' ->
    FS.lookup n' p = Some (Dir []).
Proof.
  unfold FS.exists_.
  induction p as [|c p IH]; intros n n' Hnone H; [discriminate|].
  destruct n as [x|es]; [discriminate|].
  rewrite mkdir_at_cons in H. rewrite lookup_cons in Hnone.
  destruct (FS.assoc c es) as [m|] eqn:E.
  - destruct (FS.mkdir_at true full m p) as [e|m'] eqn:E'; [discriminate|].
    injection H as <-. rewrite lookup_cons, assoc_set_entry_same. eapply IH; eassumption.
  - destruct p as [|c' p'].
    + injection H as <-. rewrite lookup_cons, (assoc_app_new _ _ _ _ E), String.eqb_refl.
      reflexivity.
    + injection H as <-. rewrite lookup_cons, (assoc_app_new _ _ _ _ E), String.eqb_refl.
      apply (lookup_fresh_dirs (c' :: p')).
Qed.

(** After the removal of a directory, its path resolves to nothing. *)
Lemma resolve_after_remove (full p : path) :
  forall n x,
    p <> [] -> FS.lookup n p = Some x ->
    FS.resolve full (FS.remove_at n p) p = inl (FileNotFoundError full).
Proof.
  induction p as [|c p IH]; intros n x Hne Hx; [congruence|].
  destruct n as [y|es]; [discriminate|].
  rewrite lookup_cons in Hx. destruct (FS.assoc c es) as [m|] eqn:E; [|discriminate].
  destruct p as [|c' p'].
  - simpl. rewrite assoc_remove_entry_same. reflexivity.
  - rewrite remove_at_deep, E. simpl. rewrite assoc_set_entry_same.
    apply (IH m x); [discriminate|exact Hx].
Qed.

(** The first step of the copy: the old output is removed; nothing apart
    from it changes, and the output can be created again. *)
Lemma removal_step (fs : node) (out : path) :
  out <> [] -> can_hold_directory fs out ->
  exists fs1 fs1',
    (if FS.exists_ fs out then FS.rmtree fs out = inr fs1 else fs1 = fs)
    /\ (forall q, apart out q -> FS.lookup fs1 q = FS.lookup fs q)
    /\ FS.exists_ fs1 out = false
    /\ FS.mkdir_parents fs1 out = inr fs1'
    /\ FS.lookup fs1' out = Some (Dir [])
    /\ (forall q, apart out q -> FS.lookup fs1' q = FS.lookup fs q).
Proof.
  intros Hne Hout.
  assert (H1 : exists fs1,
            (if FS.exists_ fs out then FS.rmtree fs out = inr fs1 else fs1 = fs)
            /\ (forall q, apart out q -> FS.lookup fs1 q = FS.lookup fs q)
            /\ FS.exists_ fs1 out = false
            /\ exists fs1', FS.mkdir_at true out fs1 out = inr fs1').
  { destruct Hout as [Hdir|[Hnone Hfree]].
    - unfold FS.is_dir in Hdir. unfold FS.exists_.
      destruct (FS.lookup fs out) as [[d|x]|] eqn:E; try discriminate.
      exists (FS.remove_at fs out). split.
      + unfold FS.rmtree. destruct out as [|c out']; [congruence|].
        rewrite (resolve_lookup _ _ _ _ E). reflexivity.
      + split; [intros q Hq; apply lookup_remove_at_frame, Hq|].
        split; [rewrite lookup_remove_at_same by exact Hne; reflexivity|].
        eapply mkdir_after_remove; eassumption.
    - exists fs. rewrite Hnone. split; [reflexivity|]. split; [reflexivity|].
      split; [reflexivity|]. apply mkdir_at_succeeds, Hfree. }
  destruct H1 as (fs1 & Hrm & Hframe & Hnone & fs1' & Hmk).
  exists fs1, fs1'. repeat (split; [assumption|]).
  split; [eapply mkdir_fresh; eassumption|].
  intros q Hq. rewrite (mkdir_at_frame _ _ _ _ _ _ Hmk Hq). apply Hframe, Hq.
Qed.

(** The copy from the point where [copytree] raises. *)
Lemma copy_fails_at_copytree (inp out : path) (s : Processor.State) (fs1 fs2 fs3 : node)
      (e : exn) :
  (if FS.exists_ (Processor.fs s) out
   then FS.rmtree (Processor.fs s) out = inr fs1
   else fs1 = Processor.fs s) ->
  FS.copytree fs1 inp out = inl (e, fs2) ->
  FS.mkdir_parents fs2 out = inr fs3 ->
  Processor.copy_yolo_data_directly L inp out s
  = Ok false {| Processor.fs := fs3;
                Processor.res := Processor.add_error ("Copy error: " ++ str_exn L e)
                                   (Processor.res s) |}.
Proof.
  intros Hrm Hcp Hmk.
  unfold Processor.copy_yolo_data_directly, try_except.
  unfold bind at 1. unfold get at 1. unfold bind at 1.
  assert (H1 : (if FS.exists_ (Processor.fs s) out
                then Processor.on_fs (fs_op' (fun fs => FS.rmtree fs out))
                else ret tt) s
               = Ok tt {| Processor.fs := fs1; Processor.res := Processor.res s |}).
  { destruct (FS.exists_ (Processor.fs s) out).
    - unfold Processor.on_fs, Processor.zoom, fs_op'. rewrite Hrm. reflexivity.
    - subst fs1. destruct s; reflexivity. }
  rewrite H1. unfold bind at 1.
  unfold Processor.on_fs at 1, Processor.zoom at 1, fs_op' at 1. simpl.
  rewrite Hcp. simpl.
  unfold bind, Processor.upd_res, modify, Processor.on_fs, Processor.zoom, fs_op, ret. simpl.
  rewrite Hmk. reflexivity.
Qed.

End CopyFailures.

(** An input path that is a regular file, with an output path apart from
    it at which a directory can be put, both plain: the output is removed
    first, then [copytree] raises NotADirectoryError, and the handler records
    the error, creates an empty output directory and returns False.  What
    the output held is lost; the input file is as it was. *)
Theorem copy_of_a_regular_file
        (L : Lib) (inp out : path) (s : Processor.State) (data : string) :
  Path.plain inp = true ->
  Path.plain out = true ->
  FS.lookup (Processor.fs s) inp = Some (File data) ->
  apart inp out ->
  can_hold_directory (Processor.fs s) out ->
  exists s',
    Processor.copy_yolo_data_directly L inp out s = Ok false s'
    /\ FS.lookup (Processor.fs s') out = Some (Dir [])
    /\ FS.lookup (Processor.fs s') inp = Some (File data)
    /\ Processor.errors (Processor.res s')
       = Processor.errors (Processor.res s)
           ++ [("Copy error: " ++ str_exn L (NotADirectoryError inp))%string].
Proof.
  intros _ _ Hin Hap Hout.
  assert (Hne : out <> []) by (intros ->; eapply apart_nil_r, Hap).
  destruct (removal_step (Processor.fs s) out Hne Hout)
    as (fs1 & fs1' & Hrm & Hframe & Hnone & Hmk & Hempty & Hframe').
  assert (Hin1 : FS.lookup fs1 inp = Some (File data))
    by (rewrite Hframe by (apply apart_sym, Hap); exact Hin).
  assert (Hcp : FS.copytree fs1 inp out = inl (NotADirectoryError inp, fs1)).
  { unfold FS.copytree. rewrite (resolve_lookup _ _ _ _ Hin1). reflexivity. }
  eexists. split; [eapply copy_fails_at_copytree; eassumption|]. simpl.
  split; [exact Hempty|]. split; [|reflexivity].
  rewrite Hframe' by (apply apart_sym, Hap). exact Hin.
Qed.

Lemma copy_of_a_regular_file_witness :
  exists s',
    Processor.copy_yolo_data_directly Ref.lib ["data"] ["out"]
      {| Processor.fs := Dir [("data", File "not a directory");
                              ("out", Dir [("stale.txt", File "old")])];
         Processor.res := Processor.initial_results Ref.lib (JStr "yolo") |} = Ok false s'
    /\ FS.lookup (Processor.fs s') ["out"] = Some (Dir [])
    /\ FS.lookup (Processor.fs s') ["data"] = Some (File "not a directory")
    /\ Processor.errors (Processor.res s')
       = [] ++ [("Copy error: " ++ str_exn Ref.lib (NotADirectoryError ["data"]))%string].
Proof.
  apply (copy_of_a_regular_file Ref.lib ["data"] ["out"]).
  - reflexivity.
  - reflexivity.
  - reflexivity.
  - split; reflexivity.
  - left. reflexivity.
Defined.

(** The direct copy of a directory onto itself: the directory is removed as
    the old output before it is read as the input, so [copytree] raises, the
    function returns false with the error recorded, and the dataset is left
    an empty directory. *)
Theorem copy_in_place_empties_the_dataset
        (L : Lib) (dir : path) (s : Processor.State) :
  FS.is_dir (Processor.fs s) dir = true ->
  dir <> [] ->
  exists s',
    Processor.copy_yolo_data_directly L dir dir s = Ok false s'
    /\ FS.lookup (Processor.fs s') dir = Some (Dir [])
    /\ Processor.errors (Processor.res s')
       = Processor.errors (Processor.res s)
           ++ [("Copy error: " ++ str_exn L (FileNotFoundError dir))%string].
Proof.
  intros Hdir Hne.
  destruct (removal_step (Processor.fs s) dir Hne (or_introl Hdir))
    as (fs1 & fs1' & Hrm & _ & _ & Hmk & Hempty & _).
  assert (Hex : FS.exists_ (Processor.fs s) dir = true).
  { unfold FS.exists_, FS.is_dir in *. destruct (FS.lookup (Processor.fs s) dir);
      [reflexivity|discriminate]. }
  rewrite Hex in Hrm.
  assert (Hfs1 : fs1 = FS.remove_at (Processor.fs s) dir).
  { unfold FS.rmtree in Hrm. destruct dir as [|c d]; [congruence|].
    destruct (FS.resolve (c :: d) (Processor.fs s) (c :: d)) as [e|[x|es]];
      try discriminate. congruence. }
  assert (Hcp : FS.copytree fs1 dir dir = inl (FileNotFoundError dir, fs1)).
  { unfold FS.copytree. subst fs1.
    unfold FS.exists_ in Hex. destruct (FS.lookup (Processor.fs s) dir) as [x|] eqn:E;
      [|discriminate].
    rewrite (resolve_after_remove dir dir _ x Hne E). reflexivity. }
  eexists. split.
  - eapply copy_fails_at_copytree; [rewrite Hex; exact Hrm|exact Hcp|exact Hmk].
  - split; [exact Hempty|reflexivity].
Qed.

Lemma copy_in_place_empties_the_dataset_witness :
  exists s',
    Processor.copy_yolo_data_directly Ref.lib ["data"] ["data"]
      (Examples.state_of Examples.fs_yolo "yolo") = Ok false s'
    /\ FS.lookup (Processor.fs s') ["data"] = Some (Dir [])
    /\ Processor.errors (Processor.res s')
       = [] ++ [("Copy error: " ++ str_exn Ref.lib (FileNotFoundError ["data"]))%string].
Proof.
  apply (copy_in_place_empties_the_dataset Ref.lib ["data"]
           (Examples.state_of Examples.fs_yolo "yolo")).
  - reflexivity.
  - discriminate.
Defined.

(** ** The processor: the report *)

Section ProcessorReport.

Variable L : Lib.

Lemma app_one_not_nil {A : Type} (l : list A) (a : A) : l ++ [a] <> [].
Proof. destruct l; discriminate. Qed.

Lemma convert_false_has_error (inp out : path) (s s' : Processor.State) :
  Processor.convert_coco_to_yolo L inp out s = Ok false s' ->
  Processor.errors (Processor.res s') <> [].
Proof.
  unfold Processor.convert_coco_to_yolo, try_except. intros H.
  destruct (Processor.run_body L inp out s) as [b s1|e s1] eqn:E.
  - pose proof (run_body_returns_true L inp out s b s1 E). congruence.
  - destruct (convert_handler_creates_directories L out e s1 s' false H) as (_ & _ & _ & He).
    rewrite He. apply app_one_not_nil.
Qed.

Lemma copy_false_has_error (inp out : path) (s s' : Processor.State) :
  Processor.copy_yolo_data_directly L inp out s = Ok false s' ->
  Processor.errors (Processor.res s') <> [].
Proof.
  unfold Processor.copy_yolo_data_directly, try_except. intros H.
  match type of H with
  | match ?m s with Ok _ _ => _ | Raise _ _ => _ end = _ =>
      destruct (m s) as [b s1|e s1] eqn:E
  end.
  - assert (Hb : b = true).
    { revert E. generalize s b s1.
      change (returns_only true
                (bind get (fun s0 : Processor.State =>
                   bind (if FS.exists_ (Processor.fs s0) out
                         then Processor.on_fs (fs_op' (fun fs => FS.rmtree fs out))
                         else ret tt)
                     (fun _ => bind (Processor.on_fs
                                       (fs_op' (fun fs => FS.copytree fs inp out)))
                        (fun _ => bind (Processor.verify_copy L inp out)
                                    (fun _ => ret true)))))).
      repeat (apply returns_only_bind; intros). apply returns_only_ret. }
    congruence.
  - unfold bind, Processor.upd_res, modify, Processor.on_fs, Processor.zoom, fs_op, ret in H.
    simpl in H.
    destruct (FS.mkdir_parents (Processor.fs s1) out); [discriminate|].
    injection H as <-. simpl. apply app_one_not_nil.
Qed.

(** The result of [process]: a failure is explained. *)
Lemma process_explains_failure (inp out report : path) (format_info : json)
      (s s' : Processor.State) :
  Processor.process L inp out report format_info s = Ok tt s' ->
  failure_explained (Processor.res s').
Proof.
  unfold Processor.process.
  rewrite (bind_ok get _ s s s eq_refl).
  destruct (negb (FS.exists_ (Processor.fs s) inp)).
  - unfold bind, Processor.upd_res, modify, Processor.on_fs, Processor.zoom, fs_op,
      Processor.write_report, bind, get. simpl.
    destruct (FS.mkdir_parents (Processor.fs s) out); [discriminate|]. simpl.
    unfold Processor.on_fs, Processor.zoom, fs_op. simpl.
    destruct (FS.write_file _ report _); [discriminate|].
    intros H. injection H as <-. intros _. simpl. apply app_one_not_nil.
  - unfold bind at 1. destruct (lift _ s) as [fmt s0|e s0] eqn:Eget; [|discriminate].
    assert (s0 = s) by (unfold lift in Eget; destruct (Py.get _ _ _); congruence).
    subst s0. unfold bind at 1.
    assert (Hbranch :
      match
        (match fmt with
         | JStr "coco" =>
             bind (Processor.upd_res
                     (Processor.set_processing_type "coco_to_yolo_conversion"))
               (fun _ => bind (Processor.convert_coco_to_yolo L inp out)
                           (fun ok => Processor.upd_res (Processor.set_success ok)))
         | JStr "yolo" =>
             bind (Processor.upd_res (Processor.set_processing_type "yolo_direct_copy"))
               (fun _ => bind (Processor.copy_yolo_data_directly L inp out)
                           (fun ok => Processor.upd_res (Processor.set_success ok)))
         | _ =>
             bind (Processor.upd_res (Processor.set_processing_type "unknown_format"))
               (fun _ =>
                  bind (Processor.upd_res
                          (Processor.add_warning ("Unsupported format: " ++ py_str L fmt)))
                    (fun _ =>
                       bind (Processor.on_fs (fs_op (fun fs => FS.mkdir_parents fs out)))
                         (fun _ => Processor.upd_res (Processor.set_success true))))
         end) s
      with
      | Ok _ s1 => failure_explained (Processor.res s1)
      | Raise _ _ => True
      end).
    { apply (format_cases
               (fun m : M Processor.State unit =>
                  match m s with
                  | Ok _ s1 => failure_explained (Processor.res s1)
                  | Raise _ _ => True
                  end)).
      - unfold bind at 1. unfold Processor.upd_res at 1, modify at 1. unfold bind.
        destruct (Processor.convert_coco_to_yolo L inp out _) as [b s1|e s1] eqn:E;
          [|exact I].
        unfold Processor.upd_res, modify. simpl. intros Hb. simpl in Hb. subst b.
        eapply convert_false_has_error, E.
      - unfold bind at 1. unfold Processor.upd_res at 1, modify at 1. unfold bind.
        destruct (Processor.copy_yolo_data_directly L inp out _) as [b s1|e s1] eqn:E;
          [|exact I].
        unfold Processor.upd_res, modify. simpl. intros Hb. simpl in Hb. subst b.
        eapply copy_false_has_error, E.
      - unfold bind, Processor.upd_res, modify, Processor.on_fs, Processor.zoom, fs_op.
        simpl. destruct (FS.mkdir_parents (Processor.fs s) out); [exact I|].
        simpl. intros Hb. discriminate. }
    match type of Hbranch with
    | match ?m s with Ok _ _ => _ | Raise _ _ => _ end =>
        destruct (m s) as [[] s1|e s1]; [|discriminate]
    end.
    destruct (guarded_report_returns L report s1) as [fs' Hrun].
    rewrite Hrun. intros H. injection H as <-. exact Hbranch.
Qed.

End ProcessorReport.

(** Whenever [process_data] returns, the report explains a failure: if
    [success] is false then [errors] holds at least one message, whichever
    branch ran (missing input, conversion, direct copy). *)
Theorem process_data_explains_failure
        (L : Lib) (input_data detected_format output_data processing_report : path)
        (fs fs' : node) (r : Processor.ProcessingResults) :
  Processor.process_data L input_data detected_format output_data processing_report fs
  = Ok r fs' ->
  Processor.success r = false ->
  Processor.errors r <> [].
Proof.
  unfold Processor.process_data.
  destruct (Py.get _ "detected_format" (JStr "unknown")) as [e|fmt]; [discriminate|].
  destruct (Processor.process L input_data output_data processing_report _ _)
    as [[] s'|e s'] eqn:E; [|discriminate].
  intros H. injection H as <- <-.
  exact (process_explains_failure L _ _ _ _ _ _ E).
Qed.

Lemma process_data_explains_failure_witness :
  exists r fs',
    Processor.process_data Ref.lib ["data"] ["work"; "format.json"] ["data"]
      ["work"; "report.json"] Examples.fs_yolo = Ok r fs'
    /\ Processor.success r = false
    /\ Processor.errors r <> [].
Proof.
  eexists. eexists. split; [vm_compute; reflexivity|]. split; [reflexivity|].
  eapply (process_data_explains_failure Ref.lib ["data"] ["work"; "format.json"] ["data"]
            ["work"; "report.json"] Examples.fs_yolo).
  - vm_compute. reflexivity.
  - reflexivity.
Defined.

(** ** The processor: the branches that process nothing *)

Section NothingToProcess.

Variable L : Lib.

Lemma format_other {T : Type} (v : json) (A B C : T) :
  v <> JStr "coco" -> v <> JStr "yolo" ->
  match v with
  | JStr "coco" => A
  | JStr "yolo" => B
  | _ => C
  end = C.
Proof.
  intros H1 H2.
  destruct v as [| | | |s| |]; try reflexivity.
  repeat (match goal with
          | |- match ?s with EmptyString => _ | String _ _ => _ end = _ =>
              destruct s as [|[[] [] [] [] [] [] [] []] ?]
          end; try reflexivity);
    exfalso; first [apply H1; reflexivity | apply H2; reflexivity].
Qed.

Lemma load_default (fs : node) (detected_format : path) :
  FS.os_path_exists fs detected_format = false
  \/ (exists e, load_json L fs detected_format = inl e) ->
  Processor.load_format_info L fs detected_format = Processor.default_format_info.
Proof.
  unfold Processor.load_format_info. intros [H|[e H]].
  - rewrite H. reflexivity.
  - rewrite H. destruct (negb _); reflexivity.
Qed.

Lemma process_data_other_format
      (input_data detected_format output_data processing_report : path) (fs : node)
      (v : json) :
  Py.get (Processor.load_format_info L fs detected_format) "detected_format" (JStr "unknown")
    = inr v ->
  v <> JStr "coco" -> v <> JStr "yolo" ->
  FS.exists_ fs input_data = true ->
  no_file_on fs output_data ->
  exists r fs',
    Processor.process_data L input_data detected_format output_data processing_report fs
    = Ok r fs'
    /\ nothing_processed L v r
    /\ FS.is_dir fs' output_data = true
    /\ (FS.exists_ fs output_data = false ->
        Path.is_prefix output_data processing_report = false ->
        FS.lookup fs' output_data = Some (Dir [])).
Proof.
  intros Hget Hc Hy Hex Hfree.
  unfold Processor.process_data. rewrite Hget.
  set (s0 := {| Processor.fs := fs; Processor.res := Processor.initial_results L v |}).
  destruct (mkdir_parents_succeeds fs output_data Hfree) as (fs1 & Hmk & Hdir1).
  set (r := Processor.set_success true
              (Processor.add_warning ("Unsupported format: " ++ py_str L v)
                 (Processor.set_processing_type "unknown_format"
                    (Processor.initial_results L v)))).
  destruct (guarded_report_frame L processing_report
              {| Processor.fs := fs1; Processor.res := r |}) as (fs' & Hrep & Hframe).
  assert (Hrun : Processor.process L input_data output_data processing_report
                   (Processor.load_format_info L fs detected_format) s0
                 = Ok tt {| Processor.fs := fs'; Processor.res := r |}).
  { unfold Processor.process.
    rewrite (bind_ok get _ s0 s0 s0 eq_refl).
    replace (FS.exists_ (Processor.fs s0) input_data) with true by (symmetry; exact Hex).
    cbv beta iota delta [negb].
    rewrite (bind_ok _ _ s0 v s0) by (unfold lift; rewrite Hget; reflexivity).
    rewrite (format_other v _ _ _ Hc Hy).
    unfold bind at 1.
    unfold bind at 1. unfold Processor.upd_res at 1, modify at 1.
    unfold bind at 1. unfold Processor.upd_res at 1, modify at 1.
    unfold bind at 1. unfold Processor.on_fs at 1, Processor.zoom at 1, fs_op at 1.
    simpl Processor.fs. rewrite Hmk. unfold Processor.upd_res, modify.
    exact Hrep. }
  rewrite Hrun. exists r, fs'. split; [reflexivity|].
  split; [repeat split|]. split.
  - pose proof (guarded_report_keeps_output L output_data processing_report
                  {| Processor.fs := fs1; Processor.res := r |} Hdir1) as (fs2 & Hrep2 & Hd).
    rewrite Hrep in Hrep2. injection Hrep2 as <-. exact Hd.
  - intros Hnone Hout. rewrite (Hframe _ Hout). simpl.
    eapply mkdir_fresh; eassumption.
Qed.

End NothingToProcess.



(** ** The processor: a missing input path *)

Section MissingInput.

Variable L : Lib.

Lemma write_at_needs_directory (full p : path) (data : string) :
  forall n n', FS.write_at full n p data = inr n' -> FS.is_dir n (Path.parent p) = true.
Proof.
  unfold Path.parent, FS.is_dir.
  induction p as [|c p IH]; intros n n' H; [discriminate|].
  destruct n as [x|es]; [discriminate|]. simpl in H.
  destruct p as [|c' p']; [reflexivity|].
  change (removelast (c :: c' :: p')) with (c :: removelast (c' :: p')).
  rewrite lookup_cons.
  destruct (FS.assoc c es) as [m|]; [|discriminate].
  destruct (FS.write_at full m (c' :: p') data) as [e|m'] eqn:E; [discriminate|].
  eapply IH, E.
Qed.

End MissingInput.



(** A decision file that holds valid JSON of another type than an object:
    [process_data] raises, as on the array of [Examples.fs_array_decision]. *)
Lemma process_data_raises_on_non_dict_witness :
  Processor.process_data Ref.lib ["data"] ["work"; "format.json"] ["out"]
    ["work"; "report.json"] Examples.fs_array_decision
  = Raise (AttributeError "get") Examples.fs_array_decision.
Proof.
  apply (process_data_raises_on_non_dict Ref.lib). vm_compute. reflexivity.
Defined.

(** ** The direct copy: the two counts *)

Section CopyCounts.

Variable L : Lib.

(** Induction on a tree, with the hypothesis for every entry of a
    directory. *)
Lemma node_nested_ind (P : node -> Prop) :
  (forall d, P (File d)) ->
  (forall es, Forall (fun cn => P (snd cn)) es -> P (Dir es)) ->
  forall n, P n.
Proof.
  intros Hf Hd. fix IH 1. intros [d|es]; [apply Hf|].
  apply Hd. induction es as [|[c m] es IHes]; constructor; [apply IH|exact IHes].
Qed.

Lemma select_all_length (d : path * FS.entries) :
  List.length (FS.select (fun _ => true) d) = List.length (snd d).
Proof.
  unfold FS.select. rewrite length_map. f_equal.
  induction (snd d) as [|cn l IH]; simpl; [reflexivity|]. rewrite IH. reflexivity.
Qed.

(** A recursive listing has one path per entry, wherever the tree stands. *)
Lemma walk_count (n : node) :
  forall pre,
    List.length (flat_map (FS.select (fun _ => true)) (FS.walk pre n)) = entries_below n.
Proof.
  induction n as [d|es IH] using node_nested_ind; intros pre; [reflexivity|].
  simpl FS.walk. simpl flat_map. rewrite length_app, select_all_length. simpl snd.
  simpl entries_below.
  induction es as [|[c m] es IHes]; [reflexivity|].
  inversion IH as [|? ? Hm Hes]; subst. simpl in Hm.
  simpl flat_map. rewrite flat_map_app, length_app.
  rewrite (Hm (pre ++ [c])). simpl List.length.
  specialize (IHes Hes). lia.
Qed.

Lemma glob_rec_count (fs : node) (p : path) (n : node) :
  FS.lookup fs p = Some n ->
  Processor.count (FS.glob_rec (fun _ => true) fs p) = Z.of_nat (entries_below n).
Proof.
  intros H. unfold Processor.count, FS.glob_rec. rewrite H, walk_count. reflexivity.
Qed.

End CopyCounts.

(** After a direct copy of an input directory to an output place apart
    from it (both paths plain, every path below the input plain, also in the
    copy; a directory can be put at the output; neither listing meets an I/O
    fault), the two counts of the verification are equal: the function
    returns True with [files_processed] and [files_copied] both the number of
    entries below the input directory, subdirectories included, and adds no
    warning.  So the warning of a file count mismatch is not given for a copy
    to a place outside the input. *)
Theorem copy_counts_agree
        (L : Lib) (inp out : path) (s : Processor.State) (es : FS.entries) :
  Path.plain inp = true ->
  Path.plain out = true ->
  FS.copy_fits (Processor.fs s) inp out = true ->
  FS.lookup (Processor.fs s) inp = Some (Dir es) ->
  apart inp out ->
  can_hold_directory (Processor.fs s) out ->
  scan_fault L inp RStar = None ->
  scan_fault L out RStar = None ->
  exists s',
    Processor.copy_yolo_data_directly L inp out s = Ok true s'
    /\ Processor.files_processed (Processor.res s') = Z.of_nat (entries_below (Dir es))
    /\ Processor.files_copied (Processor.res s') = Some (Z.of_nat (entries_below (Dir es)))
    /\ Processor.warnings (Processor.res s') = Processor.warnings (Processor.res s)
    /\ Processor.errors (Processor.res s') = Processor.errors (Processor.res s).
Proof.
  intros _ _ _ Hin Hap Hout Hfi Hfo.
  destruct (copy_steps (Processor.fs s) inp out es Hin Hap Hout)
    as (fs1 & fs2 & Hrm & Hcp & Hout2 & Hin2 & _).
  unfold Processor.copy_yolo_data_directly, try_except.
  unfold bind at 1. unfold get at 1. unfold bind at 1.
  assert (H1 : (if FS.exists_ (Processor.fs s) out
                then Processor.on_fs (fs_op' (fun fs => FS.rmtree fs out))
                else ret tt) s
               = Ok tt {| Processor.fs := fs1; Processor.res := Processor.res s |}).
  { destruct (FS.exists_ (Processor.fs s) out).
    - unfold Processor.on_fs, Processor.zoom, fs_op'. rewrite Hrm. reflexivity.
    - subst fs1. destruct s; reflexivity. }
  rewrite H1. unfold bind at 1.
  unfold Processor.on_fs at 1, Processor.zoom at 1, fs_op' at 1. simpl.
  rewrite Hcp. simpl.
  unfold bind at 1. unfold Processor.verify_copy, try_except.
  unfold bind at 1. unfold get at 1. simpl Processor.fs.
  rewrite !(glob_without_fault L) by assumption.
  unfold bind, lift, Processor.upd_res, modify, ret.
  rewrite (glob_rec_count fs2 inp (Dir es) Hin2), (glob_rec_count fs2 out (Dir es) Hout2).
  rewrite Z.eqb_refl. simpl.
  eexists. split; [reflexivity|]. simpl. repeat split.
Qed.

Lemma copy_counts_agree_witness :
  exists s',
    Processor.copy_yolo_data_directly Ref.lib ["data"] ["out"]
      (Examples.state_of Examples.fs_yolo "yolo") = Ok true s'
    /\ Processor.files_processed (Processor.res s') = 4%Z
    /\ Processor.files_copied (Processor.res s') = Some 4%Z
    /\ Processor.warnings (Processor.res s') = [].
Proof.
  destruct (copy_counts_agree Ref.lib ["data"] ["out"]
              (Examples.state_of Examples.fs_yolo "yolo")
              [("classes.txt", File "cat");
               ("train", Dir [("a.jpg", File "IMG"); ("a.txt", File "0 0.5 0.5 0.2 0.2")])])
    as (s' & Hrun & Hp & Hc & Hw & _).
  - reflexivity.
  - reflexivity.
  - reflexivity.
  - reflexivity.
  - split; reflexivity.
  - left. reflexivity.
  - reflexivity.
  - reflexivity.
  - exists s'. split; [exact Hrun|]. split; [exact Hp|]. split; [exact Hc|exact Hw].
Defined.

(** ** The conversion: an image without width *)

Section ZeroWidth.

Variable L : Lib.

Lemma add_float_is_float (x : json) (f : float) (r : json) :
  Py.add x (JFloat f) = inr r -> exists g, r = JFloat g.
Proof.
  unfold Py.add, Py.arith. destruct (Py.as_num x) as [[z|g]|]; simpl; try discriminate.
  - unfold Py.float_op. simpl. destruct (Flt.of_int z); [discriminate|].
    intros H. injection H as <-. eauto.
  - intros H. injection H as <-. eauto.
Qed.

Lemma truediv_float_by_zero (g : float) :
  Py.truediv (JFloat g) (JInt 0) = inl ZeroDivisionError.
Proof. reflexivity. Qed.

Lemma yolo_line_zero_width (ann x y w h img_height : json) (hw : float) (sx : json) :
  Py.getitem ann "bbox" = inr (JList [x; y; w; h]) ->
  Py.truediv w (JInt 2) = inr hw ->
  Py.add x (JFloat hw) = inr sx ->
  Processor.yolo_line L ann (JInt 0) img_height = inl ZeroDivisionError.
Proof.
  intros Hb Hw Hs. unfold Processor.yolo_line. rewrite Hb. simpl.
  rewrite Hw. simpl. rewrite Hs. simpl.
  destruct (add_float_is_float _ _ _ Hs) as [g ->].
  rewrite truediv_float_by_zero. reflexivity.
Qed.

End ZeroWidth.

(** An image entry whose [width] is 0 is not guarded against: for an
    annotation with a four-element [bbox] whose [x + w / 2] can be computed,
    building the label line raises ZeroDivisionError; when this is the first
    annotation of the image, the conversion of the image raises with the
    state as it was: no label file is written for the image and no
    annotation is counted. *)
Theorem zero_width_raises
        (L : Lib) (ann x y w h : json) (hw : float) (sx : json) :
  Py.getitem ann "bbox" = inr (JList [x; y; w; h]) ->
  Py.has_key ann "category_id" = true ->
  Py.truediv w (JInt 2) = inr hw ->
  Py.add x (JFloat hw) = inr sx ->
  (forall img_height,
     Processor.yolo_line L ann (JInt 0) img_height = inl ZeroDivisionError)
  /\ (forall labels_dir (mapping : Py.dict Processor.img_info) img_id rest name
             img_height c,
        Py.dict_find img_id mapping = Some (JStr name, JInt 0, img_height) ->
        Processor.convert_image L labels_dir mapping (img_id, ann :: rest) c
        = Raise ZeroDivisionError c).
Proof.
  intros Hb Hc Hw Hs.
  assert (Hline : forall img_height,
            Processor.yolo_line L ann (JInt 0) img_height = inl ZeroDivisionError)
    by (intros; eapply yolo_line_zero_width; eassumption).
  split; [exact Hline|].
  intros labels_dir mapping img_id rest name img_height c Hfind.
  unfold Processor.convert_image. cbv beta iota. rewrite Hfind.
  unfold bind at 1. unfold lift at 1. simpl Processor.label_name.
  unfold bind at 1. simpl Processor.loop.
  unfold bind at 1. unfold Processor.convert_annotation.
  rewrite (getitem_has_key _ _ _ Hb), Hc. simpl.
  unfold bind at 1. unfold lift. rewrite Hline. reflexivity.
Qed.

Lemma zero_width_raises_witness :
  Processor.yolo_line Ref.lib Examples.annotation (JInt 0) (JInt 200)
  = inl ZeroDivisionError.
Proof.
  apply (proj1 (zero_width_raises Ref.lib Examples.annotation
                  (JInt 10) (JInt 20) (JInt 30) (JInt 40) 15%float (JFloat 25%float)
                  eq_refl eq_refl eq_refl eq_refl)).
Defined.

(** ** The two programs in sequence *)

Section Pipeline.

Variable L : Lib.

Lemma load_format_info_of_file (fs : node) (p : path) (text : string) (v : json) :
  p <> [] -> existsb FS.has_nul p = false ->
  FS.lookup fs p = Some (File text) ->
  json_load L text = inr v ->
  Processor.load_format_info L fs p = v.
Proof.
  intros Hne Hnul Hfile Hload.
  unfold Processor.load_format_info, FS.os_path_exists, FS.exists_, load_json.
  destruct p as [|c p]; [congruence|].
  rewrite Hfile. simpl negb. cbv iota.
  rewrite (read_file_of_lookup _ _ _ Hnul Hfile), Hload. reflexivity.
Qed.

Lemma get_detected_format (r : Detector.DetectionResults) :
  Py.get (Detector.results_json r) "detected_format" (JStr "unknown")
  = inr (JStr (Detector.detected_format r)).
Proof. reflexivity. Qed.

End Pipeline.



(** ** The conversion: the label file of one image *)

Section LabelFile.

Variable L : Lib.

Lemma count_converted_0 (c : Processor.ConvState) : count_converted 0 c = c.
Proof. destruct c. unfold count_converted. simpl. rewrite Z.add_0_r. reflexivity. Qed.

Lemma count_converted_add (j k : Z) (c : Processor.ConvState) :
  count_converted k (count_converted j c) = count_converted (j + k) c.
Proof. unfold count_converted. simpl. rewrite Z.add_assoc. reflexivity. Qed.

Lemma convert_annotation_skips (w h : json) (lines : list string) (ann : json)
      (c : Processor.ConvState) :
  convertible ann = false ->
  Processor.convert_annotation L w h lines ann c = Ok lines c.
Proof.
  unfold convertible, Processor.convert_annotation. intros H.
  destruct (Py.has_key ann "bbox"); destruct (Py.has_key ann "category_id");
    try discriminate; reflexivity.
Qed.

Lemma convert_annotation_converts (w h : json) (lines : list string) (ann : json)
      (c : Processor.ConvState) :
  convertible ann = true ->
  Processor.convert_annotation L w h lines ann c
  = match Processor.yolo_line L ann w h with
    | inr line => Ok (lines ++ [line]) (count_converted 1 c)
    | inl e => Raise e c
    end.
Proof.
  unfold convertible, Processor.convert_annotation. intros H.
  apply andb_true_iff in H. destruct H as [-> ->]. simpl.
  unfold bind, lift, modify, ret.
  destruct (Processor.yolo_line L ann w h); reflexivity.
Qed.

(** The loop over the annotations of an image. *)
Lemma annotation_loop (w h : json) (anns : list json) :
  forall (acc : list string) (c : Processor.ConvState),
    match label_lines L w h anns with
    | inr lines =>
        Processor.loop (Processor.convert_annotation L w h) acc anns c
        = Ok (acc ++ lines) (count_converted (Z.of_nat (List.length lines)) c)
    | inl e =>
        exists k,
          Processor.loop (Processor.convert_annotation L w h) acc anns c
          = Raise e (count_converted k c)
    end.
Proof.
  induction anns as [|ann anns IH]; intros acc c.
  - simpl. unfold ret. rewrite app_nil_r, count_converted_0. reflexivity.
  - simpl label_lines. simpl Processor.loop. unfold bind.
    destruct (convertible ann) eqn:Econv.
    + rewrite (convert_annotation_converts _ _ _ _ _ Econv).
      destruct (Processor.yolo_line L ann w h) as [e|line]; cbv beta iota delta [ebind].
      * exists 0%Z. rewrite count_converted_0. reflexivity.
      * specialize (IH (acc ++ [line]) (count_converted 1 c)).
        destruct (label_lines L w h anns) as [e|rest]; cbv beta iota.
        -- destruct IH as [k Hk]. exists (1 + k)%Z.
           etransitivity; [exact Hk|]. rewrite count_converted_add. reflexivity.
        -- etransitivity; [exact IH|]. rewrite count_converted_add, <- app_assoc.
           change (List.length (line :: rest)) with (S (List.length rest)).
           change ([line] ++ rest) with (line :: rest).
           do 2 f_equal. lia.
    + rewrite (convert_annotation_skips _ _ _ _ _ Econv). apply IH.
Qed.

End LabelFile.

(** The label file of one image.  For an image the mapping knows under a
    string file name: when a label line can be built for every annotation of
    the image that has a [bbox] and a [category_id], the file
    [<stem of the file name>.txt] is written into the labels directory with
    these lines in the order of the annotations, joined by newlines, the
    annotations without one of the two keys being left out;
    [files_processed] grows by one and [converted_annotations] by the number
    of lines.  When a line cannot be built, the conversion of the image
    raises and no file is written. *)
Theorem label_file_of_an_image
        (L : Lib) (labels_dir : path) (mapping : Py.dict Processor.img_info)
        (img_id : json) (anns : list json) (name : string) (w h : json)
        (c : Processor.ConvState) :
  Py.dict_find img_id mapping = Some (JStr name, w, h) ->
  match label_lines L w h anns with
  | inr lines =>
      let file := Path.child labels_dir (Path.stem_of_string name ++ ".txt") in
      let text := String.concat (String "010"%char "") lines in
      let k := Z.of_nat (List.length lines) in
      Processor.convert_image L labels_dir mapping (img_id, anns) c
      = match FS.write_file (Processor.fs (Processor.base c)) file text with
        | inr fs' => Ok tt (label_written fs' k c)
        | inl e => Raise e (count_converted k c)
        end
  | inl e =>
      exists k,
        Processor.convert_image L labels_dir mapping (img_id, anns) c
        = Raise e (count_converted k c)
  end.
Proof.
  intros Hfind.
  pose proof (annotation_loop L w h anns [] c) as Hloop.
  destruct (label_lines L w h anns) as [e|lines].
  - destruct Hloop as [k Hk]. exists k.
    unfold Processor.convert_image. cbv beta iota. rewrite Hfind.
    unfold bind at 1. unfold lift at 1. simpl Processor.label_name. cbv beta iota.
    unfold bind at 1. rewrite Hk. reflexivity.
  - cbv zeta.
    unfold Processor.convert_image. cbv beta iota. rewrite Hfind.
    unfold bind at 1. unfold lift at 1. simpl Processor.label_name. cbv beta iota.
    unfold bind at 1. rewrite Hloop. simpl app.
    unfold bind, Processor.on_base, Processor.on_fs, Processor.zoom, fs_op,
      Processor.upd_res, modify. simpl.
    destruct c as [[fs0 r0] cats n]. simpl.
    destruct (FS.write_file _ _ _); reflexivity.
Qed.

Lemma label_file_of_an_image_witness :
  Processor.convert_image Ref.lib ["out"; "labels"]
    [(JInt 1, (JStr "a.jpg", JInt 100, JInt 200))]
    (JInt 1, [JObj [("image_id", JInt 1)]; Examples.annotation])
    {| Processor.base := Examples.state_of (Dir [("out", Dir [("labels", Dir [])])]) "coco";
       Processor.all_categories := []; Processor.converted_annotations := 0 |}
  = Ok tt
      (label_written
         (Dir [("out",
                Dir [("labels",
                      Dir [("a.txt", File "0 0.250000 0.200000 0.300000 0.200000")])])])
         1
         {| Processor.base :=
              Examples.state_of (Dir [("out", Dir [("labels", Dir [])])]) "coco";
            Processor.all_categories := []; Processor.converted_annotations := 0 |}).
Proof.
  exact (label_file_of_an_image Ref.lib ["out"; "labels"]
           [(JInt 1, (JStr "a.jpg", JInt 100, JInt 200))]
           (JInt 1) [JObj [("image_id", JInt 1)]; Examples.annotation] "a.jpg"
           (JInt 100) (JInt 200)
           {| Processor.base :=
                Examples.state_of (Dir [("out", Dir [("labels", Dir [])])]) "coco";
              Processor.all_categories := []; Processor.converted_annotations := 0 |}
           eq_refl).
Defined.

(** ** The conversion: annotations grouped by image *)

Section Grouping.

Lemma group_add_permutation (k ann : json) (d : Py.dict (list json)) :
  Permutation (flat_map snd (Processor.group_add k ann d)) (ann :: flat_map snd d).
Proof.
  induction d as [|[k' anns] d IH]; simpl.
  - reflexivity.
  - destruct (Py.key_eqb k k'); simpl.
    + rewrite <- app_assoc. simpl.
      rewrite <- Permutation_middle. reflexivity.
    + rewrite IH. rewrite Permutation_middle. reflexivity.
Qed.

Lemma group_add_keys (k ann : json) (d : Py.dict (list json)) :
  Py.getitem ann "image_id" = inr k ->
  Forall (fun g => Forall (grouped_under (fst g)) (snd g)) d ->
  Forall (fun g => Forall (grouped_under (fst g)) (snd g)) (Processor.group_add k ann d).
Proof.
  intros Hk. induction 1 as [|[k' anns] d Hg Hd IH]; simpl.
  - repeat constructor. exists k. auto.
  - destruct (Py.key_eqb k k') eqn:E.
    + constructor; [|exact Hd]. simpl in *. apply Forall_app. split; [exact Hg|].
      repeat constructor. exists k. auto.
    + constructor; assumption.
Qed.

Lemma grouping (anns : list json) :
  forall d groups,
    Processor.efold Processor.add_annotation d anns = inr groups ->
    Forall (fun g => Forall (grouped_under (fst g)) (snd g)) d ->
    Permutation (flat_map snd groups) (rev anns ++ flat_map snd d)
    /\ Forall (fun g => Forall (grouped_under (fst g)) (snd g)) groups.
Proof.
  induction anns as [|ann anns IH]; intros d groups H Hd; simpl in H.
  - injection H as <-. split; [reflexivity|exact Hd].
  - unfold ebind in H.
    destruct (Processor.add_annotation d ann) as [e|d'] eqn:E; [discriminate|].
    unfold Processor.add_annotation, ebind in E.
    destruct (Py.getitem ann "image_id") as [e|k] eqn:Ek; [discriminate|].
    destruct (Py.hashable k); [|discriminate]. injection E as <-.
    destruct (IH _ _ H (group_add_keys k ann d Ek Hd)) as [Hperm Hkeys].
    split; [|exact Hkeys].
    rewrite Hperm, group_add_permutation. simpl.
    rewrite <- app_assoc. simpl. reflexivity.
Qed.

End Grouping.

(** The grouping of the annotations by image loses and repeats nothing:
    when it completes, the groups together hold exactly the annotations of the
    file, each once, and every annotation stands in a group whose key is its
    [image_id] (the key itself or one equal to it as a dict key). *)
Theorem annotations_grouped_by_image (anns : list json) (groups : Py.dict (list json)) :
  Processor.efold Processor.add_annotation [] anns = inr groups ->
  Permutation (flat_map snd groups) anns
  /\ Forall (fun g => Forall (grouped_under (fst g)) (snd g)) groups.
Proof.
  intros H. destruct (grouping anns [] groups H (Forall_nil _)) as [Hperm Hkeys].
  split; [|exact Hkeys].
  rewrite Hperm. simpl. rewrite app_nil_r. symmetry. apply Permutation_rev.
Qed.

Lemma annotations_grouped_by_image_witness :
  Permutation
    (flat_map snd
       [(JInt 1, [JObj [("image_id", JInt 1); ("n", JInt 0)];
                  JObj [("image_id", JFloat 1); ("n", JInt 2)]]);
        (JInt 2, [JObj [("image_id", JInt 2); ("n", JInt 1)]])])
    [JObj [("image_id", JInt 1); ("n", JInt 0)];
     JObj [("image_id", JInt 2); ("n", JInt 1)];
     JObj [("image_id", JFloat 1); ("n", JInt 2)]].
Proof.
  apply (annotations_grouped_by_image
           [JObj [("image_id", JInt 1); ("n", JInt 0)];
            JObj [("image_id", JInt 2); ("n", JInt 1)];
            JObj [("image_id", JFloat 1); ("n", JInt 2)]]).
  vm_compute. reflexivity.
Defined.

(** ** The detector: the scores of a completed analysis *)

Section ScoreBounds.

Variable L : Lib.

Local Open Scope Z_scope.

Lemma collect_images_returns (fs : node) (p : path) (exts : list string) (l : list path) :
  collect_images L fs p exts = inr l -> l = Scores.image_files_for exts fs p.
Proof.
  revert l. induction exts as [|ext exts IH]; intros l H; simpl in H.
  - injection H as <-. reflexivity.
  - destruct (glob L fs p (Star ext)) as [e|a] eqn:Ea; [discriminate|].
    destruct (glob L fs p (StarStar ext)) as [e|b] eqn:Eb; [discriminate|].
    destruct (collect_images L fs p exts) as [e|rest]; [discriminate|].
    injection H as <-. apply glob_returns in Ea, Eb. subst a b.
    rewrite (IH rest eq_refl). unfold Scores.image_files_for. simpl.
    rewrite <- app_assoc. reflexivity.
Qed.

Lemma decide_keeps_details (c y : Z) (s s' : Detector.State) :
  Detector.decide c y s = Ok tt s' ->
  Detector.error (Detector.results s') = Detector.error (Detector.results s).
Proof.
  unfold Detector.decide, bind, modify, lift.
  destruct ((y <=? c) && (2 <=? c))%bool; simpl.
  - destruct (Detector.confidence_of c); [discriminate|].
    intros H. injection H as <-. reflexivity.
  - destruct (2 <=? y); simpl.
    + destruct (Detector.confidence_of y); [discriminate|].
      intros H. injection H as <-. reflexivity.
    + intros H. injection H as <-. reflexivity.
Qed.

(** A completed analysis records the scores and the counts of the listed
    files. *)
Lemma analyse_records_scores (fs : node) (p : path) (s0 s' : Detector.State) :
  Detector.analyse L fs p s0 = Ok tt s' ->
  exists found,
    Detector.format_indicators (Detector.results s')
    = indicators (Scores.coco_score L fs p) (Scores.yolo_score L fs p)
        (List.length (Scores.json_files fs p)) (List.length (Scores.txt_files fs p))
        (List.length (Scores.image_files L fs p)) found
    /\ Py.getitem (Detector.file_analysis (Detector.results s')) "yolo_annotation_files"
       = inr (JInt (Scores.yolo_annotation_count L fs p)).
Proof.
  unfold Detector.analyse.
  cbv [bind try_except lift ret modify].
  destruct (list_all_files_returns L fs p s0) as (all_files & s1 & Hrun0 & _ & _).
  rewrite Hrun0.
  destruct (glob L fs p (Star ".json")) as [e|top] eqn:Etop; [discriminate|].
  destruct (glob L fs p (StarStar ".json")) as [e|deep] eqn:Edeep; [discriminate|].
  apply glob_returns in Etop, Edeep. subst top deep.
  fold (Scores.json_files fs p).
  destruct (loop_scan_json L fs (Scores.json_files fs p) 0 s1) as (s2 & Hrun1 & _ & _).
  rewrite Hrun1.
  destruct (glob L fs p (Star ".txt")) as [e|top] eqn:Etop; [discriminate|].
  destruct (glob L fs p (StarStar ".txt")) as [e|deep] eqn:Edeep; [discriminate|].
  apply glob_returns in Etop, Edeep. subst top deep.
  fold (Scores.txt_files fs p).
  destruct (loop_scan_txt (Scores.txt_files fs p) (None, 0) s2)
    as (s3 & cf & Hrun2 & _ & _).
  rewrite Hrun2. simpl snd.
  destruct (collect_images L fs p (set_order L)) as [e|image_files] eqn:Eimg; [discriminate|].
  apply collect_images_returns in Eimg. subst image_files.
  fold (Scores.image_files L fs p). fold (Scores.yolo_annotation_count L fs p).
  fold (Scores.coco_score L fs p). fold (Scores.classes_score fs p).
  rewrite !Z.add_0_l.
  assert (Hyolo : Scores.classes_score fs p
                  + Scores.annotation_score (Scores.yolo_annotation_count L fs p)
                  = Scores.yolo_score L fs p) by reflexivity.
  unfold Scores.annotation_score in Hyolo.
  destruct (3 <=? Scores.yolo_annotation_count L fs p);
    [|destruct (0 <? Scores.yolo_annotation_count L fs p)];
    try rewrite Z.add_0_r in Hyolo; rewrite Hyolo;
    match goal with
    | |- match Detector.decide ?c ?y ?s with Ok _ _ => _ | Raise _ _ => _ end = _ -> _ =>
        destruct (Detector.decide c y s) as [[] s4|e s4]; [|discriminate]
    end;
    intros H; injection H as <-;
    (eexists; split; reflexivity).
Qed.

Lemma total_bounds (f : path -> Z) (m : Z) (l : list path) :
  (forall x, 0 <= f x <= m) ->
  0 <= Scores.total (map f l) <= m * Z.of_nat (List.length l).
Proof.
  intros H. induction l as [|x l IH]; simpl Scores.total; simpl List.length; [lia|].
  specialize (H x). lia.
Qed.

Lemma coco_contribution_bounds (fs : node) (f : path) :
  0 <= Detector.coco_contribution L fs f <= 3.
Proof.
  unfold Detector.coco_contribution.
  destruct (load_json L fs f) as [e|data]; [lia|].
  destruct (Py.is_dict data && forallb _ _)%bool; [lia|].
  destruct (Py.is_dict data && existsb _ _)%bool; lia.
Qed.

Lemma scan_image_step (fs : node) (count : Z) (img : path) :
  count <= Detector.scan_image L fs count img <= count + 1.
Proof.
  unfold Detector.scan_image.
  destruct (FS.exists_ fs _); [|lia].
  destruct (FS.read_file fs _); [lia|].
  destruct (Detector.check_lines L 0 _); [lia|].
  destruct (0 <? _); lia.
Qed.

Lemma scan_images_bounds (fs : node) (imgs : list path) :
  forall count,
    count <= fold_left (Detector.scan_image L fs) imgs count
    <= count + Z.of_nat (List.length imgs).
Proof.
  induction imgs as [|img imgs IH]; intros count; simpl fold_left; simpl List.length; [lia|].
  pose proof (scan_image_step fs count img).
  specialize (IH (Detector.scan_image L fs count img)). lia.
Qed.

Lemma score_bounds (fs : node) (p : path) :
  0 <= Scores.coco_score L fs p <= 3 * Z.of_nat (List.length (Scores.json_files fs p))
  /\ 0 <= Scores.yolo_annotation_count L fs p <= 10
  /\ Scores.yolo_annotation_count L fs p
     <= Z.of_nat (List.length (Scores.image_files L fs p))
  /\ 0 <= Scores.yolo_score L fs p
     <= 2 * Z.of_nat (List.length (Scores.txt_files fs p)) + 3.
Proof.
  assert (Hn : 0 <= Scores.yolo_annotation_count L fs p
               <= Z.of_nat (List.length (firstn 10 (Scores.image_files L fs p)))).
  { unfold Scores.yolo_annotation_count.
    pose proof (scan_images_bounds fs (firstn 10 (Scores.image_files L fs p)) 0). lia. }
  rewrite length_firstn in Hn.
  split; [apply total_bounds, coco_contribution_bounds|].
  split; [lia|]. split; [lia|].
  unfold Scores.yolo_score, Scores.classes_score, Scores.annotation_score.
  pose proof (total_bounds (fun f => if Scores.is_classes_file f then 2 else 0) 2
                (Scores.txt_files fs p)) as Hc.
  destruct (3 <=? _); [|destruct (0 <? _)];
    (assert (forall x : path, 0 <= (if Scores.is_classes_file x then 2 else 0) <= 2)
       by (intros x; destruct (Scores.is_classes_file x); lia));
    specialize (Hc H); lia.
Qed.

End ScoreBounds.

(** When the input path exists and the analysis completes (the decision
    carries no [error]), [format_indicators] holds the two scores and the
    three counts of listed files, and they are bounded: [coco_score] lies
    between 0 and three times [json_files_found], [yolo_score] between 0 and
    twice [txt_files_found] plus 3, and [yolo_annotation_files] between 0
    and 10 and is at most [image_files_found]. *)
Theorem detector_scores_are_bounded (L : Lib) (fs : node) (p : path) :
  let r := Detector.results (Detector.detected L fs p) in
  FS.exists_ fs p = true ->
  Detector.error r = None ->
  exists (c y n : Z) (j t i : nat) (found : bool),
    Detector.format_indicators r = indicators c y j t i found
    /\ Py.getitem (Detector.file_analysis r) "yolo_annotation_files" = inr (JInt n)
    /\ (0 <= c <= 3 * Z.of_nat j)%Z
    /\ (0 <= y <= 2 * Z.of_nat t + 3)%Z
    /\ (0 <= n <= 10)%Z
    /\ (n <= Z.of_nat i)%Z.
Proof.
  intros r Hex Herr. subst r. unfold Detector.detected, Detector.analysed in *.
  rewrite Hex in *.
  destruct (Detector.analyse L fs p (Detector.initial L p)) as [[] s'|e s'] eqn:E;
    [|discriminate].
  destruct (analyse_records_scores L fs p _ _ E) as (found & Hind & Hn).
  destruct (score_bounds L fs p) as (Hc & Hn1 & Hn2 & Hy).
  exists (Scores.coco_score L fs p), (Scores.yolo_score L fs p),
    (Scores.yolo_annotation_count L fs p), (List.length (Scores.json_files fs p)),
    (List.length (Scores.txt_files fs p)), (List.length (Scores.image_files L fs p)), found.
  repeat (split; [assumption|]). assumption.
Qed.

Lemma detector_scores_are_bounded_witness :
  exists (c y n : Z) (j t i : nat) (found : bool),
    Detector.format_indicators
      (Detector.results (Detector.detected Ref.lib Examples.fs_two_images ["data"]))
    = indicators c y j t i found
    /\ Py.getitem
         (Detector.file_analysis
            (Detector.results (Detector.detected Ref.lib Examples.fs_two_images ["data"])))
         "yolo_annotation_files" = inr (JInt n)
    /\ (0 <= c <= 3 * Z.of_nat j)%Z
    /\ (0 <= y <= 2 * Z.of_nat t + 3)%Z
    /\ (0 <= n <= 10)%Z
    /\ (n <= Z.of_nat i)%Z.
Proof.
  apply (detector_scores_are_bounded Ref.lib Examples.fs_two_images ["data"]).
  - reflexivity.
  - vm_compute. reflexivity.
Defined.

(** ** The detector: what it reads *)

Section DetectorReads.

Variable L : Lib.

Lemma lookup_app (p r : path) :
  forall fs,
    FS.lookup fs (p ++ r)
    = match FS.lookup fs p with Some n => FS.lookup n r | None => None end.
Proof.
  induction p as [|c p IH]; intros fs; [reflexivity|].
  destruct fs as [x|es]; [reflexivity|].
  rewrite <- app_comm_cons, !lookup_cons.
  destruct (FS.assoc c es); [apply IH|reflexivity].
Qed.

Lemma resolve_app (full p r : path) :
  forall fs n, FS.lookup fs p = Some n -> FS.resolve full fs (p ++ r) = FS.resolve full n r.
Proof.
  induction p as [|c p IH]; intros fs n H.
  - simpl in H. injection H as <-. reflexivity.
  - destruct fs as [x|es]; [discriminate|].
    rewrite lookup_cons in H. rewrite <- app_comm_cons. simpl.
    destruct (FS.assoc c es); [apply IH, H|discriminate].
Qed.

Variables (fs fs' : node) (p : path) (n : node).
Hypothesis Hfs : FS.lookup fs p = Some n.
Hypothesis Hfs' : FS.lookup fs' p = Some n.

Lemma exists_below (r : path) : FS.exists_ fs (p ++ r) = FS.exists_ fs' (p ++ r).
Proof. unfold FS.exists_. rewrite !lookup_app, Hfs, Hfs'. reflexivity. Qed.

Lemma read_file_below (r : path) : FS.read_file fs (p ++ r) = FS.read_file fs' (p ++ r).
Proof.
  unfold FS.read_file.
  rewrite (resolve_app _ _ _ _ _ Hfs), (resolve_app _ _ _ _ _ Hfs'). reflexivity.
Qed.

Lemma glob_same (pat : pattern) : glob L fs p pat = glob L fs' p pat.
Proof. unfold glob, FS.glob_here, FS.glob_rec. rewrite Hfs, Hfs'. reflexivity. Qed.

Lemma collect_images_same (exts : list string) :
  collect_images L fs p exts = collect_images L fs' p exts.
Proof.
  induction exts as [|ext exts IH]; simpl; [reflexivity|].
  rewrite !glob_same, IH. reflexivity.
Qed.

Lemma scan_json_same (c : Z) (f : path) (s : Detector.State) :
  below p f -> Detector.scan_json L fs c f s = Detector.scan_json L fs' c f s.
Proof.
  intros (r & _ & ->). unfold Detector.scan_json, load_json.
  rewrite read_file_below. reflexivity.
Qed.

Lemma with_suffix_below (f : path) (ext : string) :
  below p f -> below p (Path.with_suffix f ext).
Proof.
  intros (r & Hr & ->). unfold Path.with_suffix, Path.child, Path.parent.
  exists (removelast r ++ [Path.name_with_suffix (Path.name (p ++ r)) ext]).
  split; [destruct (removelast r); discriminate|].
  rewrite removelast_app by exact Hr. rewrite app_assoc. reflexivity.
Qed.

Lemma scan_image_same (count : Z) (img : path) :
  below p img -> Detector.scan_image L fs count img = Detector.scan_image L fs' count img.
Proof.
  intros H. unfold Detector.scan_image.
  destruct (with_suffix_below img ".txt" H) as (r & _ & ->).
  rewrite exists_below, read_file_below. reflexivity.
Qed.

End DetectorReads.

Section DetectorReadsOnlyInput.

Variable L : Lib.

Lemma walk_under (n : node) :
  forall pre d, In d (FS.walk pre n) -> exists r, fst d = pre ++ r.
Proof.
  induction n as [x|es IH] using node_nested_ind; intros pre d H; [contradiction|].
  simpl in H. destruct H as [<-|H].
  - exists []. simpl. rewrite app_nil_r. reflexivity.
  - apply in_flat_map in H. destruct H as (cn & Hcn & Hd).
    rewrite Forall_forall in IH.
    destruct (IH cn Hcn _ _ Hd) as [r Hr].
    exists ([fst cn] ++ r). rewrite Hr, app_assoc. reflexivity.
Qed.

Lemma select_below (sel : string -> bool) (d : path * FS.entries) (p f : path) (r : path) :
  fst d = p ++ r -> In f (FS.select sel d) -> below p f.
Proof.
  intros Hd H. unfold FS.select in H. apply in_map_iff in H.
  destruct H as (cn & <- & _). exists (r ++ [fst cn]).
  split; [destruct r; discriminate|]. rewrite Hd, app_assoc. reflexivity.
Qed.

Lemma glob_here_below (sel : string -> bool) (fs : node) (p f : path) :
  In f (FS.glob_here sel fs p) -> below p f.
Proof.
  unfold FS.glob_here. destruct (FS.lookup fs p) as [[x|es]|]; try contradiction.
  apply (select_below sel (p, es) p f []). simpl. rewrite app_nil_r. reflexivity.
Qed.

Lemma glob_rec_below (sel : string -> bool) (fs : node) (p f : path) :
  In f (FS.glob_rec sel fs p) -> below p f.
Proof.
  unfold FS.glob_rec. destruct (FS.lookup fs p) as [n|]; [|contradiction].
  intros H. apply in_flat_map in H. destruct H as (d & Hd & Hf).
  destruct (walk_under n p d Hd) as [r Hr].
  eapply select_below; eassumption.
Qed.

Lemma glob_below (fs : node) (p : path) (pat : pattern) (l : list path) (f : path) :
  glob L fs p pat = inr l -> In f l -> below p f.
Proof.
  intros H. apply glob_returns in H. subst l.
  destruct pat; [apply glob_here_below|apply glob_rec_below|apply glob_rec_below].
Qed.

Lemma image_files_below (exts : list string) (fs : node) (p f : path) :
  In f (Scores.image_files_for exts fs p) -> below p f.
Proof.
  unfold Scores.image_files_for. intros H. apply in_flat_map in H.
  destruct H as (ext & _ & H). apply in_app_or in H.
  destruct H as [H|H]; [eapply glob_here_below|eapply glob_rec_below]; exact H.
Qed.

Lemma loop_same {S A X : Type} (body body' : A -> X -> M S A) (l : list X) :
  (forall a x s, In x l -> body a x s = body' a x s) ->
  forall a s, Detector.loop body a l s = Detector.loop body' a l s.
Proof.
  induction l as [|x l IH]; intros H a s; [reflexivity|].
  simpl. unfold bind. rewrite (H a x s (or_introl eq_refl)).
  destruct (body' a x s) as [a' s'|e s']; [|reflexivity].
  apply IH. intros a0 x0 s0 Hx. apply H. right. exact Hx.
Qed.

Lemma fold_left_same {A X : Type} (f g : A -> X -> A) (l : list X) :
  (forall a x, In x l -> f a x = g a x) ->
  forall a, fold_left f l a = fold_left g l a.
Proof.
  induction l as [|x l IH]; intros H a; [reflexivity|].
  simpl. rewrite (H a x (or_introl eq_refl)).
  apply IH. intros a0 x0 Hx. apply H. right. exact Hx.
Qed.

Lemma in_firstn {X : Type} (k : nat) (l : list X) (x : X) : In x (firstn k l) -> In x l.
Proof.
  revert l. induction k as [|k IH]; intros l H; [contradiction|].
  destruct l as [|y l]; [contradiction|]. simpl in H.
  destruct H as [->|H]; [left; reflexivity|right; apply IH, H].
Qed.

(** The analysis of two file systems that hold the same tree at the input
    path runs alike. *)
Lemma analyse_same (fs fs' : node) (p : path) (n : node) (s0 : Detector.State) :
  FS.lookup fs p = Some n -> FS.lookup fs' p = Some n ->
  Detector.analyse L fs p s0 = Detector.analyse L fs' p s0.
Proof.
  intros Hfs Hfs'.
  unfold Detector.analyse, Detector.list_all_files.
  rewrite <- !(glob_same L fs fs' p n Hfs Hfs').
  rewrite <- (collect_images_same L fs fs' p n Hfs Hfs').
  cbv [bind try_except lift ret modify].
  destruct (glob L fs p RStar) as [e|all_files].
  - destruct (glob L fs p (Star ".json")) as [e1|top] eqn:Etop; [reflexivity|].
    destruct (glob L fs p (StarStar ".json")) as [e1|deep] eqn:Edeep; [reflexivity|].
    rewrite (loop_same (Detector.scan_json L fs') (Detector.scan_json L fs) (top ++ deep)).
    2:{ intros a x s Hx. symmetry. apply (scan_json_same L fs fs' p n Hfs Hfs').
        apply in_app_or in Hx.
        destruct Hx as [Hx|Hx];
          [exact (glob_below _ _ _ _ _ Etop Hx)|exact (glob_below _ _ _ _ _ Edeep Hx)]. }
    destruct (Detector.loop (Detector.scan_json L fs) 0%Z (top ++ deep) s0) as [c s1|e1 s1];
      [|reflexivity].
    destruct (glob L fs p (Star ".txt")) as [e1|ttop]; [reflexivity|].
    destruct (glob L fs p (StarStar ".txt")) as [e1|tdeep]; [reflexivity|].
    destruct (Detector.loop Detector.scan_txt (None, 0%Z) (ttop ++ tdeep) s1)
      as [[cf y] s2|e1 s2]; [|reflexivity].
    destruct (collect_images L fs p (set_order L)) as [e1|imgs] eqn:Eimg; [reflexivity|].
    rewrite (fold_left_same (Detector.scan_image L fs') (Detector.scan_image L fs)
               (firstn 10 imgs)); [reflexivity|].
    intros a x Hx. symmetry. apply (scan_image_same L fs fs' p n Hfs Hfs').
    apply collect_images_returns in Eimg. subst imgs.
    eapply image_files_below, in_firstn, Hx.
  - destruct (glob L fs p (Star ".json")) as [e1|top] eqn:Etop; [reflexivity|].
    destruct (glob L fs p (StarStar ".json")) as [e1|deep] eqn:Edeep; [reflexivity|].
    rewrite (loop_same (Detector.scan_json L fs') (Detector.scan_json L fs) (top ++ deep)).
    2:{ intros a x s Hx. symmetry. apply (scan_json_same L fs fs' p n Hfs Hfs').
        apply in_app_or in Hx.
        destruct Hx as [Hx|Hx];
          [exact (glob_below _ _ _ _ _ Etop Hx)|exact (glob_below _ _ _ _ _ Edeep Hx)]. }
    destruct (Detector.loop (Detector.scan_json L fs) 0%Z (top ++ deep) _) as [c s1|e1 s1];
      [|reflexivity].
    destruct (glob L fs p (Star ".txt")) as [e1|ttop]; [reflexivity|].
    destruct (glob L fs p (StarStar ".txt")) as [e1|tdeep]; [reflexivity|].
    destruct (Detector.loop Detector.scan_txt (None, 0%Z) (ttop ++ tdeep) s1)
      as [[cf y] s2|e1 s2]; [|reflexivity].
    destruct (collect_images L fs p (set_order L)) as [e1|imgs] eqn:Eimg; [reflexivity|].
    rewrite (fold_left_same (Detector.scan_image L fs') (Detector.scan_image L fs)
               (firstn 10 imgs)); [reflexivity|].
    intros a x Hx. symmetry. apply (scan_image_same L fs fs' p n Hfs Hfs').
    apply collect_images_returns in Eimg. subst imgs.
    eapply image_files_below, in_firstn, Hx.
Qed.

Lemma detected_same (fs fs' : node) (p : path) :
  FS.lookup fs p = FS.lookup fs' p ->
  Detector.detected L fs p = Detector.detected L fs' p.
Proof.
  intros H. unfold Detector.detected, FS.exists_. rewrite <- H.
  destruct (FS.lookup fs p) as [n|] eqn:E; [|reflexivity].
  unfold Detector.analysed.
  rewrite (analyse_same fs fs' p n _ E (eq_sym H)). reflexivity.
Qed.

End DetectorReadsOnlyInput.

(** For one order in which the set of image extensions is iterated, the
    decision depends on nothing but the tree at the input path: two file
    systems that hold the same tree at a plain input path give the same
    [detection_results] and the same lists of analysed files and of
    reasons. *)
Theorem detector_reads_only_the_input (L : Lib) (p : path) (fs fs' : node) :
  Path.plain p = true ->
  FS.lookup fs p = FS.lookup fs' p ->
  Detector.results (Detector.detected L fs' p) = Detector.results (Detector.detected L fs p)
  /\ Detector.files_analyzed (Detector.report (Detector.detected L fs' p))
     = Detector.files_analyzed (Detector.report (Detector.detected L fs p))
  /\ Detector.detection_logic (Detector.report (Detector.detected L fs' p))
     = Detector.detection_logic (Detector.report (Detector.detected L fs p)).
Proof.
  intros _ H. rewrite (detected_same L fs fs' p H). repeat split.
Qed.

Lemma detector_reads_only_the_input_witness :
  Detector.results (Detector.detected Ref.lib Examples.fs_nested_coco_detected ["data"])
  = Detector.results (Detector.detected Ref.lib Examples.fs_nested_coco ["data"]).
Proof.
  apply (detector_reads_only_the_input Ref.lib ["data"] Examples.fs_nested_coco
           Examples.fs_nested_coco_detected); reflexivity.
Defined.

(** The decision is not a function of the input tree alone: it depends on
    the order in which Python iterates the set literal of image extensions,
    which differs from one process to the next.  Only the first ten listed
    image files are inspected, so on a directory with two labelled [.jpg]
    images and five [.png] images without labels the decision is [yolo] when
    [.jpg] is iterated before [.png] and [unknown] when [.png] comes
    first. *)
Theorem decision_depends_on_the_extension_order :
  exists (fs : node) (p : path) (order order' : list string),
    Permutation order image_extensions
    /\ Permutation order' image_extensions
    /\ Detector.detected_format
         (Detector.results (Detector.detected (with_set_order order Ref.lib) fs p)) = "yolo"
    /\ Detector.detected_format
         (Detector.results (Detector.detected (with_set_order order' Ref.lib) fs p))
       = "unknown".
Proof.
  exists fs_mixed_images, ["data"], image_extensions,
    [".png"; ".jpg"; ".jpeg"; ".bmp"; ".tiff"; ".webp"].
  split; [reflexivity|]. split.
  - apply (Permutation_middle [".jpg"; ".jpeg"] [".bmp"; ".tiff"; ".webp"] ".png").
  - split; vm_compute; reflexivity.
Qed.

(** ** The detector: the fields of a label line *)

Section LabelLineFields.

Variable L : Lib.

Lemma append_assoc (a b c : string) : ((a ++ b) ++ c = a ++ (b ++ c))%string.
Proof. induction a as [|x a IH]; simpl; [reflexivity|]. rewrite IH. reflexivity. Qed.

Lemma split_ws_token (t : string) :
  forallb (fun c => negb (Text.is_space c)) (list_ascii_of_string t) = true ->
  forall rest cur,
    Text.split_ws (t ++ rest) cur = Text.split_ws rest (cur ++ t).
Proof.
  induction t as [|c t IH]; intros H rest cur; simpl.
  - replace (cur ++ "")%string with cur; [reflexivity|].
    induction cur as [|x cur IHc]; simpl; [reflexivity|]. rewrite <- IHc. reflexivity.
  - simpl in H. apply andb_true_iff in H. destruct H as [Hc Ht].
    apply negb_true_iff in Hc. rewrite Hc, (IH Ht), append_assoc. reflexivity.
Qed.

(** The first field of a line that starts with a token and a space. *)
Lemma fields_token (t rest : string) :
  is_token t = true ->
  Text.fields (t ++ " " ++ rest) = t :: Text.fields rest.
Proof.
  unfold is_token, Text.fields. intros H. apply andb_true_iff in H. destruct H as [Hne Ht].
  rewrite (split_ws_token t Ht). simpl.
  apply negb_true_iff in Hne. rewrite Hne. reflexivity.
Qed.

End LabelLineFields.

(** The first field of a label line, the class id, is never looked at: two
    lines that differ in it only are judged alike, so a line counts as a
    valid YOLO line whatever stands there. *)
Theorem class_field_is_not_checked (L : Lib) (cls cls' rest : string) (valid : Z) :
  is_token cls = true ->
  is_token cls' = true ->
  Detector.check_line L valid (cls ++ " " ++ rest)
  = Detector.check_line L valid (cls' ++ " " ++ rest).
Proof.
  intros H H'. unfold Detector.check_line.
  rewrite (fields_token cls rest H), (fields_token cls' rest H'). reflexivity.
Qed.

Lemma class_field_is_not_checked_witness :
  Detector.check_line Ref.lib 0 ("0" ++ " " ++ "0.5 0.5 0.2 0.2")
  = Detector.check_line Ref.lib 0 ("not-a-class" ++ " " ++ "0.5 0.5 0.2 0.2")
  /\ Detector.check_line Ref.lib 0 ("not-a-class" ++ " " ++ "0.5 0.5 0.2 0.2") = inr 1%Z.
Proof.
  split.
  - apply (class_field_is_not_checked Ref.lib); reflexivity.
  - vm_compute. reflexivity.
Defined.

(** ** The conversion: copying the images *)

Section ImageCopies.

Lemma copy_image_returns (images_dir : path) (copied : Z) (img : path)
      (s : Processor.State) :
  exists n fs',
    Processor.copy_image images_dir copied img s
    = Ok n {| Processor.fs := fs'; Processor.res := Processor.res s |}
    /\ (copied <= n <= copied + 1)%Z.
Proof.
  unfold Processor.copy_image, try_except, bind, Processor.on_fs, Processor.zoom, fs_op, ret.
  destruct (FS.copy2 (Processor.fs s) img _) as [e|fs'].
  - exists copied, (Processor.fs s). split; [destruct s; reflexivity|lia].
  - exists (copied + 1)%Z, fs'. split; [reflexivity|lia].
Qed.

End ImageCopies.

(** The loop that copies the images never raises and never touches
    [processing_results]: an image that cannot be copied is skipped without
    an error or a warning being recorded, and shows only in the count, which
    lies between 0 and the number of listed image files. *)
Theorem image_copy_failures_are_silent
        (images_dir : path) (image_files : list path) (s : Processor.State) :
  exists n fs',
    Processor.loop (Processor.copy_image images_dir) 0%Z image_files s
    = Ok n {| Processor.fs := fs'; Processor.res := Processor.res s |}
    /\ (0 <= n <= Z.of_nat (List.length image_files))%Z.
Proof.
  assert (H : forall (l : list path) (copied : Z) (s0 : Processor.State),
            exists n fs',
              Processor.loop (Processor.copy_image images_dir) copied l s0
              = Ok n {| Processor.fs := fs'; Processor.res := Processor.res s0 |}
              /\ (copied <= n <= copied + Z.of_nat (List.length l))%Z).
  { induction l as [|img l IH]; intros copied s0.
    - exists copied, (Processor.fs s0). split; [destruct s0; reflexivity|simpl; lia].
    - destruct (copy_image_returns images_dir copied img s0) as (n1 & fs1 & Hrun1 & Hn1).
      destruct (IH n1 {| Processor.fs := fs1; Processor.res := Processor.res s0 |})
        as (n & fs' & Hrun & Hn).
      exists n, fs'. simpl Processor.loop. unfold bind. rewrite Hrun1, Hrun.
      split; [reflexivity|]. simpl List.length. lia. }
  destruct (H image_files 0%Z s) as (n & fs' & Hrun & Hn).
  exists n, fs'. split; [exact Hrun|lia].
Qed.

(** ** The conversion: class ids and the lines of classes.txt *)

Section ClassLines.

Lemma ascending_key (d : Py.dict json) :
  forall lo k key nm,
    ascending_from lo d = true -> nth_error d k = Some (key, nm) ->
    exists i, key = JInt i /\ (lo + Z.of_nat k < i)%Z.
Proof.
  induction d as [|[key' nm'] d IH]; intros lo k key nm Ha Hk.
  - destruct k; discriminate.
  - simpl in Ha. destruct key'; try discriminate.
    apply andb_true_iff in Ha. destruct Ha as [Hlo Ha]. apply Z.ltb_lt in Hlo.
    destruct k as [|k]; simpl in Hk.
    + injection Hk as <- <-. eexists; split; [reflexivity|lia].
    + destruct (IH _ _ _ _ Ha Hk) as (i & -> & Hi). exists i. split; [reflexivity|lia].
Qed.

Lemma ascending_gap (d : Py.dict json) :
  forall lo j k a b x y,
    ascending_from lo d = true ->
    nth_error d j = Some (JInt a, x) -> nth_error d k = Some (JInt b, y) ->
    (j < k)%nat -> (a + Z.of_nat (k - j) <= b)%Z.
Proof.
  induction d as [|[key' nm'] d IH]; intros lo j k a b x y Ha Hj Hk Hjk.
  - destruct j; discriminate.
  - simpl in Ha. destruct key'; try discriminate.
    apply andb_true_iff in Ha. destruct Ha as [Hlo Ha].
    destruct k as [|k]; [lia|]. simpl in Hk.
    destruct j as [|j]; simpl in Hj.
    + injection Hj as -> ->.
      destruct (ascending_key _ _ _ _ _ Ha Hk) as (i & Hi & Hlt).
      injection Hi as ->. lia.
    + replace (S k - S j)%nat with (k - j)%nat by lia.
      apply (IH _ _ _ _ _ _ _ Ha Hj Hk). lia.
Qed.

(** With no id missing below it, an id stands at the place of its value. *)
Lemma ascending_place (d : Py.dict json) :
  ascending_from 0 d = true ->
  forall m : nat,
    forall i nm,
      (1 <= i <= Z.of_nat m)%Z ->
      (forall j, (1 <= j < i)%Z -> exists x, In (JInt j, x) d) ->
      In (JInt i, nm) d ->
      nth_error d (Z.to_nat (i - 1)) = Some (JInt i, nm).
Proof.
  intros Ha. induction m as [|m IH]; intros i nm Hi Hbelow Hin; [lia|].
  destruct (In_nth_error _ _ Hin) as [q Hq].
  destruct (ascending_key _ _ _ _ _ Ha Hq) as (i' & Hi' & Hlt). injection Hi' as <-.
  destruct (Z.eq_dec i 1) as [->|Hne].
  - replace q with 0%nat in Hq by lia. exact Hq.
  - destruct (Hbelow (i - 1)%Z) as [x Hx]; [lia|].
    assert (Hprev : nth_error d (Z.to_nat (i - 1 - 1)) = Some (JInt (i - 1), x)).
    { apply IH; [lia| |exact Hx]. intros j Hj. apply Hbelow. lia. }
    destruct (Nat.lt_trichotomy q (Z.to_nat (i - 1 - 1))) as [Hlt'|[Heq|Hgt]].
    + pose proof (ascending_gap _ _ _ _ _ _ _ _ Ha Hq Hprev Hlt'). lia.
    + subst q. rewrite Hq in Hprev. injection Hprev as Hbad _. lia.
    + replace (Z.to_nat (i - 1)) with q by lia. exact Hq.
Qed.

Variable L : Lib.

Lemma classes_text_app (a b : list (json * json)) :
  Processor.classes_text L (a ++ b)
  = (Processor.classes_text L a ++ Processor.classes_text L b)%string.
Proof.
  unfold Processor.classes_text. induction a as [|x a IH]; simpl; [reflexivity|].
  destruct a as [|y a].
  - simpl in *. destruct b as [|z b]; simpl.
    + clear. induction (py_str L (snd x) ++ String "010" "")%string as [|c s IHs];
        simpl; [reflexivity|]. rewrite <- IHs. reflexivity.
    + reflexivity.
  - simpl in *. rewrite IH. rewrite !append_assoc. reflexivity.
Qed.

Lemma write_classes_result (classes_file : path) (cats sorted : Py.dict json)
      (s s' : Processor.State) :
  cats <> [] ->
  sorted_items L cats = inr sorted ->
  Processor.write_classes L classes_file cats s = Ok tt s' ->
  FS.read_file (Processor.fs s') classes_file = inr (Processor.classes_text L sorted)
  /\ Processor.res s' = Processor.res s.
Proof.
  intros Hne Hs. unfold Processor.write_classes, bind, Processor.on_fs, Processor.zoom, fs_op.
  destruct cats as [|c cats]; [congruence|].
  destruct (FS.write_file (Processor.fs s) classes_file "") as [e|fs1]; [discriminate|].
  unfold lift. rewrite Hs. unfold ret. simpl.
  destruct (FS.write_file fs1 classes_file _) as [e|fs2] eqn:Hw; [discriminate|].
  intros H. injection H as <-. simpl. split; [|reflexivity].
  unfold FS.write_file in Hw.
  destruct (existsb FS.has_nul classes_file) eqn:Hnul; [discriminate|].
  apply read_file_of_lookup; [exact Hnul|].
  eapply lookup_after_write_at; exact Hw.
Qed.

End ClassLines.

(** The class id of a label line and the lines of classes.txt.  Let the
    category ids be positive integers and [sorted] return the categories in
    ascending order of their ids, and let classes.txt be written.  The file
    holds one name per category in that order.  A category of id [i] is
    given the class id [i - 1] in the label lines, and its name stands as
    entry number [i - 1] of classes.txt exactly when every id from 1 to
    [i - 1] is the id of a category: with a gap in the ids, the class ids of
    the categories above the gap point at another line or at none. *)
Theorem class_ids_match_classes_txt
        (L : Lib) (classes_file : path) (cats sorted : Py.dict json)
        (s s' : Processor.State) (i : Z) (name : json) :
  sorted_items L cats = inr sorted ->
  Permutation sorted cats ->
  ascending_from 0 sorted = true ->
  Processor.write_classes L classes_file cats s = Ok tt s' ->
  In (JInt i, name) cats ->
  FS.read_file (Processor.fs s') classes_file = inr (Processor.classes_text L sorted)
  /\ Processor.class_id_of (JInt i) = inr (JInt (i - 1))
  /\ ((forall j, (1 <= j < i)%Z -> exists nm, In (JInt j, nm) cats)
      <-> nth_error sorted (Z.to_nat (i - 1)) = Some (JInt i, name))
  /\ (forall before after,
        sorted = before ++ (JInt i, name) :: after ->
        Processor.classes_text L sorted
        = (Processor.classes_text L before
           ++ (py_str L name ++ String "010" "")
           ++ Processor.classes_text L after)%string).
Proof.
  intros Hs Hperm Ha Hw Hin.
  assert (Hin' : In (JInt i, name) sorted)
    by (eapply Permutation_in; [apply Permutation_sym; exact Hperm|exact Hin]).
  destruct (In_nth_error _ _ Hin') as [q Hq].
  destruct (ascending_key _ _ _ _ _ Ha Hq) as (i' & Hi' & Hpos). injection Hi' as <-.
  split; [|split; [|split]].
  - apply (write_classes_result L classes_file cats sorted s s'); try assumption.
    intros ->. destruct Hin.
  - unfold Processor.class_id_of. simpl.
    destruct (0 <? i)%Z eqn:Hi; [reflexivity|]. apply Z.ltb_ge in Hi. lia.
  - split.
    + intros Hbelow. apply (ascending_place sorted Ha (Z.to_nat i)); [lia| |exact Hin'].
      intros j Hj. destruct (Hbelow j Hj) as [nm Hnm]. exists nm.
      eapply Permutation_in; [apply Permutation_sym; exact Hperm|exact Hnm].
    + intros Hplace j Hj.
      assert (Hlen : (Z.to_nat (j - 1) < List.length sorted)%nat).
      { apply Nat.lt_trans with (Z.to_nat (i - 1)); [lia|].
        apply nth_error_Some. rewrite Hplace. discriminate. }
      destruct (nth_error sorted (Z.to_nat (j - 1))) as [[key nm]|] eqn:Hj'.
      2:{ apply nth_error_None in Hj'. lia. }
      destruct (ascending_key _ _ _ _ _ Ha Hj') as (a & -> & Hlo).
      assert (Hgap := ascending_gap _ _ _ _ _ _ _ _ Ha Hj' Hplace ltac:(lia)).
      exists nm. eapply Permutation_in; [exact Hperm|].
      replace j with a by lia. eapply nth_error_In. exact Hj'.
  - intros before after ->.
    rewrite (classes_text_app L before ((JInt i, name) :: after)).
    change ((JInt i, name) :: after) with ([(JInt i, name)] ++ after).
    rewrite (classes_text_app L [(JInt i, name)] after).
    reflexivity.
Qed.

Lemma class_ids_match_classes_txt_witness :
  FS.read_file
    (Processor.fs
       (Examples.state_of
          (Dir [("out",
                 Dir [("classes.txt",
                       File (Processor.classes_text Ref.lib
                               [(JInt 1, JStr "cat"); (JInt 3, JStr "car")]))])])
          "coco"))
    ["out"; "classes.txt"]
  = inr (Processor.classes_text Ref.lib [(JInt 1, JStr "cat"); (JInt 3, JStr "car")])
  /\ Processor.class_id_of (JInt 3) = inr (JInt (3 - 1))
  /\ ((forall j, (1 <= j < 3)%Z ->
       exists nm, In (JInt j, nm) [(JInt 3, JStr "car"); (JInt 1, JStr "cat")])
      <-> nth_error [(JInt 1, JStr "cat"); (JInt 3, JStr "car")] (Z.to_nat (3 - 1))
          = Some (JInt 3, JStr "car"))
  /\ (forall before after,
        [(JInt 1, JStr "cat"); (JInt 3, JStr "car")]
        = before ++ (JInt 3, JStr "car") :: after ->
        Processor.classes_text Ref.lib [(JInt 1, JStr "cat"); (JInt 3, JStr "car")]
        = (Processor.classes_text Ref.lib before
           ++ (py_str Ref.lib (JStr "car") ++ String "010" "")
           ++ Processor.classes_text Ref.lib after)%string).
Proof.
  apply (class_ids_match_classes_txt Ref.lib ["out"; "classes.txt"]
           [(JInt 3, JStr "car"); (JInt 1, JStr "cat")]
           [(JInt 1, JStr "cat"); (JInt 3, JStr "car")]
           (Examples.state_of (Dir [("out", Dir [])]) "coco")
           (Examples.state_of
              (Dir [("out",
                     Dir [("classes.txt",
                           File (Processor.classes_text Ref.lib
                                   [(JInt 1, JStr "cat"); (JInt 3, JStr "car")]))])])
              "coco")
           3 (JStr "car")).
  - vm_compute. reflexivity.
  - apply perm_swap.
  - reflexivity.
  - vm_compute. reflexivity.
  - left. reflexivity.
Defined.
